(** * Bandwidth client: a shallow embedding of [index.js] and [response.js]

    The client issues authenticated HTTP requests against the Bandwidth
    dashboard API and wraps the XML bodies in response objects that parse
    lazily.  The embedding follows the JavaScript source construct by
    construct:

    - JavaScript values are the inductive [jsval]; property reads, truthiness,
      [ToString] and the loose comparison with a string literal are functions
      on it;
    - a method is a state transformer returning an [outcome]: a returned
      value, a thrown exception (a rejected promise, for an [async] method),
      or a promise that never settles;
    - the libraries the source delegates to ([node-fetch], [xml-js],
      [Buffer], the built-in [isNaN]) are the fields of an [Env]. *)

From Stdlib Require Import String Ascii List ZArith Lia Bool Arith.
From Stdlib Require Import DecimalString.
Import ListNotations.
Local Open Scope list_scope.
Local Open Scope string_scope.
Set Warnings "-register-all".

(* ===================================================================== *)
(** * JavaScript values *)
(* ===================================================================== *)

(** The values the two source files handle: what [xml2js] in compact mode
    produces (objects, arrays, strings), [undefined] and [null], and the
    numbers of [pageSize], [quantity] and [resultCount].  An object is an
    association list in insertion order; the first binding of a key wins. *)
Inductive jsval : Type :=
| JUndef
| JNull
| JNum (z : Z)
| JStr (s : string)
| JArr (items : list jsval)
| JObj (fields : list (string * jsval)).

(** Modelled from the spec: [error.js], which declares [CBWTNSError], is
    not among the source files.  The spec has a failed request surface "as
    an error carrying the status text", so [CBWTNSError] is an error class
    that keeps the message it is built with, like [Error].  [TypeError] is
    what a property read on [undefined] or [null], or a call of something
    that is no function, throws; [LibError] is what a library throws
    (a rejected [fetch], malformed XML). *)
Inductive exn : Type :=
| Error (msg : string)
| CBWTNSError (msg : string)
| TypeError
| LibError (msg : string).

(** How a call ends: [Done] is a normal return (a fulfilled promise),
    [Thrown] an exception (a rejected promise), [Hang] an awaited promise
    that is never settled, [Fuel] an exhausted iteration budget of the
    model. *)
Inductive outcome (A : Type) : Type :=
| Done (a : A)
| Thrown (e : exn)
| Hang
| Fuel.
Arguments Done {A} a.
Arguments Thrown {A} e.
Arguments Hang {A}.
Arguments Fuel {A}.

Module JS.

(** [!v] is [negb (truthy v)]. *)
Definition truthy (v : jsval) : bool :=
  match v with
  | JUndef | JNull => false
  | JNum z => negb (Z.eqb z 0)
  | JStr s => negb (String.eqb s "")
  | JArr _ | JObj _ => true
  end.

(** [v instanceof Array]. *)
Definition is_array (v : jsval) : bool :=
  match v with JArr _ => true | _ => false end.

Definition string_of_Z (z : Z) : string := NilZero.string_of_int (Z.to_int z).

(** [ToString], as template literals, [+] with a string operand and
    [RegExp.prototype.exec] apply it.  An array joins its elements with a
    comma, [undefined] and [null] elements printing as the empty string. *)
Fixpoint toString (v : jsval) : string :=
  match v with
  | JUndef => "undefined"
  | JNull => "null"
  | JNum z => string_of_Z z
  | JStr s => s
  | JArr items =>
      (fix join (l : list jsval) : string :=
         match l with
         | [] => ""
         | x :: r =>
             let sx := match x with
                       | JUndef | JNull => ""
                       | _ => toString x
                       end in
             match r with
             | [] => sx
             | _ :: _ => sx ++ "," ++ join r
             end
         end) items
  | JObj _ => "[object Object]"
  end.

(** [v == lit] for a string literal [lit] that is not a numeric literal
    (the source compares with ['RECEIVED'] and ['COMPLETE'] only):
    [undefined] and [null] equal no string, a number is compared with
    [ToNumber lit], which is [NaN], and an object is first converted to a
    primitive, which is its [toString]. *)
Definition loose_eq_word (v : jsval) (lit : string) : bool :=
  match v with
  | JUndef | JNull | JNum _ => false
  | JStr s => String.eqb s lit
  | JArr _ | JObj _ => String.eqb (toString v) lit
  end.

Fixpoint assoc (k : string) (fields : list (string * jsval)) : option jsval :=
  match fields with
  | [] => None
  | (k', v) :: rest => if String.eqb k k' then Some v else assoc k rest
  end.

(** [v.k] for the property names of the source, none of which is an own or
    inherited property of a string, a number or an array: reading from
    [undefined] or [null] throws, reading from another primitive or from an
    array gives [undefined]. *)
Definition get (v : jsval) (k : string) : outcome jsval :=
  match v with
  | JUndef | JNull => Thrown TypeError
  | JNum _ | JStr _ | JArr _ => Done JUndef
  | JObj fields =>
      match assoc k fields with
      | Some x => Done x
      | None => Done JUndef
      end
  end.

Fixpoint update (k : string) (x : jsval) (fields : list (string * jsval))
  : list (string * jsval) :=
  match fields with
  | [] => [(k, x)]
  | (k', v) :: rest =>
      if String.eqb k k' then (k', x) :: rest else (k', v) :: update k x rest
  end.

(** [v.k = x] in strict mode: a [TypeError] on [undefined], [null] and on
    primitives; an array accepts the property, which none of its later
    reads in the source can see. *)
Definition set (v : jsval) (k : string) (x : jsval) : outcome jsval :=
  match v with
  | JUndef | JNull | JNum _ | JStr _ => Thrown TypeError
  | JArr items => Done (JArr items)
  | JObj fields => Done (JObj (update k x fields))
  end.

(** [(v || {})]. *)
Definition or_empty (v : jsval) : jsval := if truthy v then v else JObj [].

(** The pure part of the error monad, for chains of property reads. *)
Definition obind {A B} (o : outcome A) (f : A -> outcome B) : outcome B :=
  match o with
  | Done a => f a
  | Thrown e => Thrown e
  | Hang => Hang
  | Fuel => Fuel
  end.

(** [v.k1.k2...]. *)
Fixpoint path (v : jsval) (ks : list string) : outcome jsval :=
  match ks with
  | [] => Done v
  | k :: ks' => obind (get v k) (fun x => path x ks')
  end.

(** [items.map(f)] for a callback that may throw. *)
Fixpoint mapM (f : jsval -> outcome jsval) (items : list jsval)
  : outcome (list jsval) :=
  match items with
  | [] => Done []
  | x :: r => obind (f x) (fun y => obind (mapM f r) (fun ys => Done (y :: ys)))
  end.

(** [...v] in an argument list: arrays and strings are iterable. *)
Definition spread (v : jsval) : outcome (list jsval) :=
  match v with
  | JArr items => Done items
  | JStr s => Done (map (fun c => JStr (String c "")) (list_ascii_of_string s))
  | _ => Thrown TypeError
  end.

(** [String.prototype.indexOf] with a one-character needle; [None] is -1. *)
Fixpoint indexOf (c : ascii) (s : string) : option nat :=
  match s with
  | EmptyString => None
  | String d r =>
      if Ascii.eqb d c then Some 0
      else match indexOf c r with
           | Some i => Some (S i)
           | None => None
           end
  end.

(** [s.substring(a, b)]: both indices are clamped to the length and swapped
    when [a > b]. *)
Definition substring (a b : nat) (s : string) : string :=
  let n := String.length s in
  let a' := Nat.min a n in
  let b' := Nat.min b n in
  String.substring (Nat.min a' b') (Nat.max a' b' - Nat.min a' b') s.

(** ** The regular expression [/<(.+)>/]

    [.] matches any character but a line terminator and [+] is greedy, so
    at a given [<] the group takes the text up to the last [>] of the same
    line; [exec] tries the positions from the left.  Strings are byte
    strings here, so the line terminators are line feed and carriage
    return. *)
Definition is_line_terminator (c : ascii) : bool :=
  Ascii.eqb c "010"%char || Ascii.eqb c "013"%char.

(** The longest [p], free of line terminators, with [s = p ++ ">" ++ _]. *)
Fixpoint upto_last_gt (s : string) : option string :=
  match s with
  | EmptyString => None
  | String c r =>
      if is_line_terminator c then None
      else match upto_last_gt r with
           | Some p => Some (String c p)
           | None => if Ascii.eqb c ">"%char then Some EmptyString else None
           end
  end.

(** [(.+)>] matched at the start of [s]: the group is not empty. *)
Definition group_at (s : string) : option string :=
  match s with
  | EmptyString => None
  | String c r =>
      if is_line_terminator c then None
      else match upto_last_gt r with
           | Some p => Some (String c p)
           | None => None
           end
  end.

(** [regex.exec(s)], reduced to its capture group: [None] is [null]. *)
Fixpoint regex_exec (s : string) : option string :=
  match s with
  | EmptyString => None
  | String c r =>
      if Ascii.eqb c "<"%char
      then match group_at r with
           | Some p => Some p
           | None => regex_exec r
           end
      else regex_exec r
  end.

End JS.

(* ===================================================================== *)
(** * The environment and the state monad *)
(* ===================================================================== *)

(** The second argument of [fetch]: [method] is ["GET"] when the source
    leaves it out. *)
Record Request : Type := mkRequest {
  url : string;
  method : string;
  reqHeaders : jsval;
  reqBody : option string
}.

(** What the source reads from a [node-fetch] response: [res.ok],
    [res.statusText] and [await res.text()]. *)
Record HttpResponse : Type := mkHttpResponse {
  ok : bool;
  statusText : string;
  body : string
}.

(** The libraries behind the two files.  [fetch] answers a request from the
    state of the network, which it may change, or rejects; [xml2js] is
    [xmlJS.xml2js(text, { compact: true })], which throws on malformed XML;
    [js2xml] is [xmlJS.js2xml(obj, { compact: true })]; [isNaN] is the
    built-in; [base64] is [new Buffer(s).toString('base64')]. *)
Record Env : Type := mkEnv {
  World : Type;
  fetch : Request -> World -> (exn + HttpResponse) * World;
  xml2js : string -> exn + jsval;
  js2xml : jsval -> string;
  isNaN : jsval -> bool;
  base64 : string -> string
}.

(** The state a call runs in: the network, the requests issued so far and
    the texts handed to [xml2js] so far, both in order. *)
Record St (E : Env) : Type := mkSt {
  world : World E;
  requests : list Request;
  parses : list string
}.
Arguments mkSt {E} world requests parses.
Arguments world {E} s.
Arguments requests {E} s.
Arguments parses {E} s.

(** A computation over a state [S].  The state survives an exception: what
    was mutated before a [throw] stays mutated. *)
Definition M (S A : Type) : Type := S -> outcome A * S.

Definition ret {S A} (a : A) : M S A := fun s => (Done a, s).

Definition bind {S A B} (m : M S A) (f : A -> M S B) : M S B :=
  fun s =>
    match m s with
    | (Done a, s') => f a s'
    | (Thrown e, s') => (Thrown e, s')
    | (Hang, s') => (Hang, s')
    | (Fuel, s') => (Fuel, s')
    end.

Definition throw {S A} (e : exn) : M S A := fun s => (Thrown e, s).

(** A pure step that may throw, such as a chain of property reads. *)
Definition lift {S A} (o : outcome A) : M S A := fun s => (o, s).

Declare Scope js_scope.
Delimit Scope js_scope with js.
Notation "x <- m ;; k" := (bind m (fun x => k))
  (at level 61, m at next level, right associativity) : js_scope.
Notation "m ;;; k" := (bind m (fun _ => k))
  (at level 61, right associativity) : js_scope.
Local Open Scope js_scope.

(* ===================================================================== *)
(** * [response.js]: the response wrappers *)
(* ===================================================================== *)

Module BWResponse.

(** The fields of a [CBWResponse].  [textValue] and [json] are the two
    fields behind the [text] accessor pair; [nextIndex] is the field
    [CBWTNSResponse] adds (its [regex] field is the constant
    [JS.regex_exec]).  The text always comes from [await res.text()], so it
    is a string. *)
Record CBWResponse : Type := mkResponse {
  textValue : string;
  json : jsval;
  accId : jsval;
  site : jsval;
  sippeerId : jsval;
  options : jsval;
  headers : jsval;
  baseUrl : jsval;
  nextIndex : nat
}.

(** What [next()] returns and what its promise delivers:
    [{ done: true }] or [{ value: v, done: false }]. *)
Inductive IteratorResult (V : Type) : Type :=
| IterDone
| IterValue (value : V).
Arguments IterDone {V}.
Arguments IterValue {V} value.

(** [const v = (param) => { throw new Error(...) }] of [response.js]. *)
Definition v (param : string) : exn :=
  Error ("Class CBWResponse: Not valid param: " ++ param).

Definition is_undefined (x : jsval) : bool :=
  match x with JUndef => true | _ => false end.

(** [get text()]. *)
Definition text (r : CBWResponse) : string := textValue r.

(** [set text(text)]: stores the text and drops the cached parse. *)
Definition set_text (t : string) (r : CBWResponse) : CBWResponse :=
  mkResponse t JNull (accId r) (site r) (sippeerId r) (options r)
             (headers r) (baseUrl r) (nextIndex r).

Definition set_json (j : jsval) (r : CBWResponse) : CBWResponse :=
  mkResponse (textValue r) j (accId r) (site r) (sippeerId r) (options r)
             (headers r) (baseUrl r) (nextIndex r).

Definition incr_nextIndex (r : CBWResponse) : CBWResponse :=
  mkResponse (textValue r) (json r) (accId r) (site r) (sippeerId r)
             (options r) (headers r) (baseUrl r) (S (nextIndex r)).

(** The constructor of [CBWResponse]: a default parameter throws through
    [v] when its argument is [undefined], left to right; then the fields
    are assigned, [this.text = text] going through the setter. *)
Definition new_CBWResponse (t : string)
    (accId site sippeerId options headers baseUrl : jsval)
  : outcome CBWResponse :=
  if is_undefined accId then Thrown (v "accId")
  else if is_undefined site then Thrown (v "site")
  else if is_undefined sippeerId then Thrown (v "sippeerId")
  else if is_undefined options then Thrown (v "options")
  else if is_undefined headers then Thrown (v "headers")
  else if is_undefined baseUrl then Thrown (v "baseUrl")
  else Done (mkResponse t JNull accId site sippeerId options headers baseUrl 0).

(** The constructor of [CBWTNSResponse]: [super(...)], then
    [this.nextIndex = 0]. *)
Definition new_CBWTNSResponse := new_CBWResponse.

(** No field a constructor checks is [undefined]. *)
Definition defined_fields (r : CBWResponse) : Prop :=
  is_undefined (accId r) = false /\ is_undefined (site r) = false /\
  is_undefined (sippeerId r) = false /\ is_undefined (options r) = false /\
  is_undefined (headers r) = false /\ is_undefined (baseUrl r) = false.

(** ** Getters that read [this.json] without parsing *)

(** [CBWOrderResponse.Id]. *)
Definition Order_Id (r : CBWResponse) : outcome jsval :=
  if negb (JS.truthy (json r)) then Done JNull
  else JS.path (json r) ["OrderResponse"; "Order"; "id"; "_text"].

(** [CBWOrderResponse.Status] and [CBWCheckOrderResponse.Status]. *)
Definition Order_Status (r : CBWResponse) : outcome jsval :=
  if negb (JS.truthy (json r)) then Done JNull
  else JS.path (json r) ["OrderResponse"; "OrderStatus"; "_text"].

(** [CBWDisconnectOrderResponse.Status]. *)
Definition Disconnect_Status (r : CBWResponse) : outcome jsval :=
  if negb (JS.truthy (json r)) then Done JNull
  else JS.path (json r)
         ["DisconnectTelephoneNumberOrderResponse"; "OrderStatus"; "_text"].

(** The callback [(item) => `+1${item.FullNumber._text}`]. *)
Definition plus1 (item : jsval) : outcome jsval :=
  JS.obind (JS.path item ["FullNumber"; "_text"])
           (fun d => Done (JStr ("+1" ++ JS.toString d))).

(** [CBWCheckOrderResponse.Numbers]. *)
Definition CheckOrder_Numbers (r : CBWResponse) : outcome jsval :=
  if negb (JS.truthy (json r)) then Done JNull
  else
    JS.obind (JS.path (json r)
                ["OrderResponse"; "CompletedNumbers"; "TelephoneNumber"])
      (fun tn =>
         match tn with
         | JArr items =>
             JS.obind (JS.mapM plus1 items) (fun l => Done (JArr l))
         | _ => plus1 tn
         end).

(** The body of [CBWTNSResponse.Numbers] once [this.json] is there. *)
Definition TNS_Numbers_of (j : jsval) : outcome jsval :=
  JS.obind (JS.path j ["SipPeerTelephoneNumbersResponse";
                       "SipPeerTelephoneNumbers"; "SipPeerTelephoneNumber"])
    (fun tn =>
       match tn with
       | JArr items =>
           JS.obind
             (JS.mapM (fun item => JS.path item ["FullNumber"; "_text"]) items)
             (fun l => Done (JArr l))
       | _ =>
           JS.obind (JS.path tn ["FullNumber"; "_text"])
                    (fun x => Done (JArr [x]))
       end).

(** The guard of [next()]:
    [((((j || {}).SipPeerTelephoneNumbersResponse || {}).Links || {}).next
      || {})._text].  No read of the chain can throw, each being made on a
    truthy value or on [{}]. *)
Definition next_link_text (j : jsval) : outcome jsval :=
  JS.obind (JS.get (JS.or_empty j) "SipPeerTelephoneNumbersResponse") (fun a =>
  JS.obind (JS.get (JS.or_empty a) "Links") (fun b =>
  JS.obind (JS.get (JS.or_empty b) "next") (fun c =>
  JS.get (JS.or_empty c) "_text"))).

(** ** [UnifiedResponse] *)

(** [UnifiedResponse._parseAreaCode(input)].  A string has [indexOf] and
    [substring]; an array has [indexOf], with strict equality on its
    elements, and no [substring]; anything else has no [indexOf]. *)
Definition _parseAreaCode (input : jsval) : outcome jsval :=
  match input with
  | JStr s =>
      match JS.indexOf "("%char s, JS.indexOf ")"%char s with
      | Some start, Some e => Done (JStr (JS.substring (start + 1) e s))
      | _, _ => Done JNull
      end
  | JArr items =>
      let same c x := match x with JStr t => String.eqb t c | _ => false end in
      if existsb (same "(") items && existsb (same ")") items
      then Thrown TypeError else Done JNull
  | _ => Thrown TypeError
  end.

(** The object literal pushed for one number. *)
Definition did_entry (obj item : jsval) : outcome jsval :=
  JS.obind (JS.path obj ["OrderResponse"; "Order"; "PeerId"; "_text"])
    (fun peerId =>
  JS.obind (JS.get obj "order_id") (fun didId =>
  JS.obind (JS.path item ["FullNumber"; "_text"]) (fun digits =>
  JS.obind (JS.path obj ["OrderResponse"; "Summary"; "_text"]) (fun summary =>
  JS.obind (_parseAreaCode summary) (fun areaCode =>
  Done (JObj [("peerId", peerId);
              ("didId", didId);
              ("e164", JStr ("+1" ++ JS.toString digits));
              ("countryCodeA3", JStr "USA");
              ("areaCode", areaCode)])))))).

(** [get Response()] of a [UnifiedResponse] built on [obj]. *)
Definition Response (obj : jsval) : outcome jsval :=
  JS.obind (JS.path obj ["OrderResponse"; "CompletedNumbers"; "TelephoneNumber"])
    (fun tn =>
  JS.obind (match tn with
            | JArr items => Done items
            | _ => JS.obind (JS.path tn ["FullNumber"; "_text"])
                     (fun t => Done [JObj [("FullNumber", JObj [("_text", t)])]])
            end)
    (fun numbers =>
  JS.obind (JS.mapM (did_entry obj) numbers) (fun dids =>
  Done (JObj [("dids", JArr dids);
              ("resultCount", JNum (Z.of_nat (List.length numbers)))])))).

Section WithEnv.

Variable E : Env.

(** The state of a method call: the receiver and the rest. *)
Definition Obj : Type := (CBWResponse * St E)%type.

Definition this : M Obj CBWResponse := fun s => (Done (fst s), s).

Definition modify_this (f : CBWResponse -> CBWResponse) : M Obj unit :=
  fun s => (Done tt, (f (fst s), snd s)).

(** The call [xmlJS.xml2js(text, { compact: true })]. *)
Definition parse (t : string) : M Obj jsval :=
  fun s =>
    let st := snd s in
    let st' := mkSt (world st) (requests st) (parses st ++ [t]) in
    match xml2js E t with
    | inl e => (Thrown e, (fst s, st'))
    | inr j => (Done j, (fst s, st'))
    end.

(** The call [fetch(url, init)], awaited. *)
Definition do_fetch (req : Request) : M (St E) HttpResponse :=
  fun st =>
    let (r, w) := fetch E req (world st) in
    let st' := mkSt w (requests st ++ [req]) (parses st) in
    match r with
    | inl e => (Thrown e, st')
    | inr res => (Done res, st')
    end.

(** A step on the state around the receiver. *)
Definition outside {A} (m : M (St E) A) : M Obj A :=
  fun s =>
    match m (snd s) with
    | (o, st') => (o, (fst s, st'))
    end.

(** A method call on the object [r], from code that holds it in a
    variable: the value comes back with the object as the call left it. *)
Definition call {A} (r : CBWResponse) (m : M Obj A)
  : M (St E) (A * CBWResponse) :=
  fun st =>
    match m (r, st) with
    | (Done a, (r', st')) => (Done (a, r'), st')
    | (Thrown e, (_, st')) => (Thrown e, st')
    | (Hang, (_, st')) => (Hang, st')
    | (Fuel, (_, st')) => (Fuel, st')
    end.

(** [toJSON()]. *)
Definition toJSON : M Obj jsval :=
  r <- this ;;
  if negb (JS.truthy (JStr (text r))) then ret JNull
  else
    (if negb (JS.truthy (json r))
     then j <- parse (text r) ;; modify_this (set_json j)
     else ret tt) ;;;
    r' <- this ;;
    ret (json r').

(** [toXML()], [toString()] and [inspect()]. *)
Definition toXML : M Obj string := r <- this ;; ret (text r).

(** The constructors of [CBWOrderResponse], [CBWCheckOrderResponse] and
    [CBWDisconnectOrderResponse]: [super(...)], then [this.toJSON()]. *)
Definition new_parsed (t : string)
    (accId site sippeerId options headers baseUrl : jsval)
  : M (St E) CBWResponse :=
  r <- lift (new_CBWResponse t accId site sippeerId options headers baseUrl) ;;
  jr <- call r toJSON ;;
  ret (snd jr).

Definition new_CBWOrderResponse := new_parsed.
Definition new_CBWCheckOrderResponse := new_parsed.
Definition new_CBWDisconnectOrderResponse := new_parsed.

(** [CBWTNSResponse.Numbers]. *)
Definition TNS_Numbers : M Obj jsval :=
  j <- toJSON ;;
  if negb (JS.truthy j) then ret JNull
  else r <- this ;; lift (TNS_Numbers_of (json r)).

(** The [async function(_this, link)] of [next()], from the point where
    the [fetch] it has issued settles with [res]. *)
Definition next_page (res : exn + HttpResponse)
  : M Obj (IteratorResult CBWResponse) :=
  match res with
  | inl e => throw e
  | inr res =>
      if negb (ok res) then throw (CBWTNSError (statusText res))
      else
        modify_this (set_text (body res)) ;;;
        modify_this incr_nextIndex ;;;
        r <- this ;;
        fresh <- lift (new_CBWTNSResponse (text r) (accId r) (site r)
                         (sippeerId r) (options r) (headers r) (baseUrl r)) ;;
        ret (IterValue fresh)
  end.

(** [next()].  The request goes out during the call, when the async
    function runs up to its first [await]; the value returned is the
    promise of that function, here the computation that an [await] of it
    runs. *)
Definition next : M Obj (IteratorResult (M Obj (IteratorResult CBWResponse))) :=
  j <- toJSON ;;
  t <- lift (next_link_text j) ;;
  if negb (JS.truthy t) then ret IterDone
  else
    j' <- toJSON ;;
    t' <- lift (JS.path j' ["SipPeerTelephoneNumbersResponse"; "Links";
                            "next"; "_text"]) ;;
    match JS.regex_exec (JS.toString t') with
    | None => throw TypeError
    | Some link =>
        r <- this ;;
        fun s =>
          let st := snd s in
          let (res, w) := fetch E (mkRequest link "GET" (headers r) None)
                                (world st) in
          let st' := mkSt w (requests st ++ [mkRequest link "GET" (headers r) None])
                          (parses st) in
          (Done (IterValue (next_page res)), (fst s, st'))
    end.

End WithEnv.

End BWResponse.

(* ===================================================================== *)
(** * [index.js]: the client *)
(* ===================================================================== *)

Module Bandwidth.

Import BWResponse.

(** The fields the constructor of [CBandwidth] assigns. *)
Record CBandwidth : Type := mkClient {
  c_headers : jsval;
  c_site : jsval;
  c_accId : jsval;
  c_options : jsval;
  c_sippeerId : jsval;
  c_baseUrl : jsval
}.

(** [const v = (param) => { throw new Error(...) }] of [index.js]. *)
Definition v (param : string) : exn :=
  Error ("Class CBandwidth: Not valid param: " ++ param).

(** How the promise built in [allocate] ends: [resolve] was called first,
    with a [UnifiedResponse] on [obj]; [reject] was called first; or
    neither was called. *)
Inductive settlement : Type :=
| Resolved (obj : jsval)
| Rejected (reason : jsval)
| Unsettled.

(** The [Status] of an order response is a text other than ['RECEIVED'],
    or there is none: the getter returns [null] (nothing was parsed) or
    [undefined] (an [OrderStatus] without text), or it throws (no
    [OrderStatus] element). *)
Definition status_not_received (status : outcome jsval) : Prop :=
  match status with
  | Done (JStr s) => s <> "RECEIVED"
  | Done JUndef | Done JNull => True
  | Thrown _ => True
  | _ => False
  end.

(** One entry of the unified result. *)
Definition did (peerId didId : jsval) (digits : string) (areaCode : jsval)
  : jsval :=
  JObj [("peerId", peerId);
        ("didId", didId);
        ("e164", JStr ("+1" ++ digits));
        ("countryCodeA3", JStr "USA");
        ("areaCode", areaCode)].

(** The object [disconnect] hands to [js2xml]. *)
Definition disconnect_order (orderid numbers : jsval) : jsval :=
  JObj [("DisconnectTelephoneNumberOrder",
         JObj [("CustomerOrderId", orderid);
               ("DisconnectTelephoneNumberOrderType",
                JObj [("TelephoneNumberList",
                       JObj [("TelephoneNumber", numbers)])])])].

(** The two objects [searchAndOrderDID] hands to [js2xml]. *)
Definition area_code_order (c : CBandwidth) (areaCode quantity : jsval) : jsval :=
  JObj [("Order",
         JObj [("SiteId", c_site c);
               ("PeerId", c_sippeerId c);
               ("AreaCodeSearchAndOrderType",
                JObj [("AreaCode", areaCode); ("Quantity", quantity)])])].

Definition city_order (c : CBandwidth) (city state quantity : jsval) : jsval :=
  JObj [("Order",
         JObj [("SiteId", c_site c);
               ("PeerId", c_sippeerId c);
               ("CitySearchAndOrderType",
                JObj [("City", city); ("State", state);
                      ("Quantity", quantity)])])].

(** The request of [getSipPeersTNS]: the first page of the listing. *)
Definition tns_request (c : CBandwidth) (sippeerId pageSize : jsval) : Request :=
  mkRequest (JS.toString (c_baseUrl c) ++ "/accounts/"
               ++ JS.toString (c_accId c) ++ "/sites/"
               ++ JS.toString (c_site c) ++ "/sippeers/"
               ++ JS.toString sippeerId ++ "/tns?page=1&size="
               ++ JS.toString pageSize)
            "GET" (c_headers c) None.

(** The request of [disconnect]. *)
Definition disconnect_request (c : CBandwidth) (body : string) : Request :=
  mkRequest (JS.toString (c_baseUrl c) ++ "/accounts/"
               ++ JS.toString (c_accId c) ++ "/disconnects")
            "POST" (c_headers c) (Some body).

Section WithEnv.

Variable E : Env.

(** The constructor: the first four parameters default to a call of [v],
    [opts] defaults to [{ pageSize: 100 }], [sippeerId] has no default. *)
Definition new_CBandwidth (login pass accId site opts sippeerId : jsval)
  : outcome CBandwidth :=
  if is_undefined login then Thrown (v "login")
  else if is_undefined pass then Thrown (v "password")
  else if is_undefined accId then Thrown (v "accountId")
  else if is_undefined site then Thrown (v "site-id")
  else
    let opts := if is_undefined opts then JObj [("pageSize", JNum 100)] else opts in
    Done (mkClient
            (JObj [("Authorization",
                    JStr ("Basic " ++ base64 E (JS.toString login ++ ":"
                                                 ++ JS.toString pass)));
                   ("Content-Type", JStr "application/xml")])
            site accId opts sippeerId
            (JStr "https://dashboard.bandwidth.com/api")).

(** [getSipPeersTNS(sippeerId)]. *)
Definition getSipPeersTNS (c : CBandwidth) (sippeerId : jsval)
  : M (St E) CBWResponse :=
  if is_undefined sippeerId then throw (v "sippeer-id")
  else
    pageSize <- lift (JS.get (c_options c) "pageSize") ;;
    res <- do_fetch E (tns_request c sippeerId pageSize) ;;
    if negb (ok res) then throw (CBWTNSError (statusText res))
    else lift (new_CBWTNSResponse (body res) (c_accId c) (c_site c) sippeerId
                 (c_options c) (c_headers c) (c_baseUrl c)).

(** The [for (const item of resObject)] loop of [getSipPeersTNSAll], run on
    the response object itself, which is its own iterator.  [result.push]
    is looked up before its argument is evaluated. *)
Fixpoint pages_loop (fuel : nat) (result : jsval) : M (Obj E) jsval :=
  match fuel with
  | O => fun s => (Fuel, s)
  | S fuel' =>
      it <- next E ;;
      match it with
      | IterDone => ret result
      | IterValue item =>
          res <- item ;;
          match result with
          | JUndef | JNull => throw TypeError
          | _ =>
              ns <- match res with
                    | IterValue fresh =>
                        x <- outside E (call E fresh (TNS_Numbers E)) ;;
                        ret (fst x)
                    | IterDone => throw TypeError
                    end ;;
              more <- lift (JS.spread ns) ;;
              match result with
              | JArr items => pages_loop fuel' (JArr (items ++ more))
              | _ => throw TypeError
              end
          end
      end
  end.

(** [getSipPeersTNSAll(sippeerId)]; [fuel] bounds the number of turns of
    its loop. *)
Definition getSipPeersTNSAll (fuel : nat) (c : CBandwidth) (sippeerId : jsval)
  : M (St E) jsval :=
  if is_undefined sippeerId then throw (v "sippeer-id")
  else
    resObject <- getSipPeersTNS c sippeerId ;;
    x <- call E resObject
           (result <- TNS_Numbers E ;; pages_loop fuel result) ;;
    ret (fst x).

(** [searchAndOrderDID(q)]. *)
Definition searchAndOrderDID (c : CBandwidth) (q : jsval)
  : M (St E) CBWResponse :=
  let q := if is_undefined q then JObj [] else q in
  given <- lift (JS.get q "quantity") ;;
  q <- lift (JS.set q "quantity"
               (if negb (JS.truthy given) || isNaN E given
                then JNum 1 else given)) ;;
  quantity <- lift (JS.get q "quantity") ;;
  areaCode <- lift (JS.get q "areaCode") ;;
  city <- lift (JS.get q "city") ;;
  state <- lift (JS.get q "state") ;;
  let obj := if JS.truthy areaCode
             then area_code_order c areaCode quantity else JNull in
  let obj := if JS.truthy city && JS.truthy state
             then city_order c city state quantity else obj in
  if negb (JS.truthy obj) then throw (Error "Not enough parameters")
  else
    res <- do_fetch E
             (mkRequest (JS.toString (c_baseUrl c) ++ "/accounts/"
                           ++ JS.toString (c_accId c) ++ "/orders")
                        "POST" (c_headers c) (Some (js2xml E obj))) ;;
    if negb (ok res) then throw (Error (statusText res))
    else new_CBWOrderResponse E (body res) (c_accId c) (c_site c)
           (c_sippeerId c) (c_options c) (c_headers c) (c_baseUrl c).

(** [checkOrder(orderid)]. *)
Definition checkOrder (c : CBandwidth) (orderid : jsval)
  : M (St E) CBWResponse :=
  if is_undefined orderid then throw (v "orderid")
  else
    res <- do_fetch E
             (mkRequest (JS.toString (c_baseUrl c) ++ "/accounts/"
                           ++ JS.toString (c_accId c) ++ "/orders/"
                           ++ JS.toString orderid ++ "?tndetail=true")
                        "GET" (c_headers c) None) ;;
    if negb (ok res) then throw (Error (statusText res))
    else new_CBWCheckOrderResponse E (body res) (c_accId c) (c_site c)
           (c_sippeerId c) (c_options c) (c_headers c) (c_baseUrl c).

(** The [async] callback [allocate] gives to [setTimeout], and which of
    [resolve] and [reject] it calls first.  [obj] is the very object cached
    in [check.json], so the assignment of [order_id] shows there too. *)
Definition timer_callback (c : CBandwidth) (order : CBWResponse)
  : M (St E) settlement :=
  s <- lift (Order_Status order) ;;
  received <- (if JS.truthy s
               then s' <- lift (Order_Status order) ;;
                    ret (JS.loose_eq_word s' "RECEIVED")
               else ret false) ;;
  if received : bool then
    id <- lift (Order_Id order) ;;
    check <- checkOrder c id ;;
    cs <- lift (Order_Status check) ;;
    if JS.loose_eq_word cs "COMPLETE" then
      jr <- call E check (toJSON E) ;;
      id' <- lift (Order_Id order) ;;
      obj <- lift (JS.set (fst jr) "order_id" id') ;;
      _ <- lift (Order_Status (set_json obj (snd jr))) ;;
      ret (Resolved obj)
    else
      cs' <- lift (Order_Status check) ;;
      ret (Rejected cs')
  else ret Unsettled.

(** The promise [new Promise((resolve, reject) => { setTimeout(...) })].
    An exception in the callback rejects the callback's own promise, which
    nobody holds: the promise of [allocate] stays unsettled.  The delay of
    one second is not modelled. *)
Definition timer_promise (c : CBandwidth) (order : CBWResponse)
  : M (St E) settlement :=
  fun st =>
    match timer_callback c order st with
    | (Done p, st') => (Done p, st')
    | (Thrown _, st') => (Done Unsettled, st')
    | (Hang, st') => (Done Unsettled, st')
    | (Fuel, st') => (Fuel, st')
    end.

(** [allocate(q)].  [.catch((err) => { return err; })] turns a rejection
    into the value [err]; [result.Response] is the getter of
    [UnifiedResponse] on a resolved promise and a plain property read on a
    rejection reason. *)
Definition allocate (c : CBandwidth) (q : jsval) : M (St E) jsval :=
  let q := if is_undefined q then JObj [] else q in
  order <- searchAndOrderDID c q ;;
  p <- timer_promise c order ;;
  match p with
  | Resolved obj => lift (Response obj)
  | Rejected reason => lift (JS.get reason "Response")
  | Unsettled => fun st => (Hang, st)
  end.

(** [disconnect(orderid, numbers)].  The array [numbers.map(...)] builds is
    not bound to anything. *)
Definition disconnect (c : CBandwidth) (orderid numbers : jsval)
  : M (St E) CBWResponse :=
  if is_undefined orderid then throw (v "orderid")
  else if is_undefined numbers then throw (v "numbers")
  else if negb (JS.is_array numbers) then throw (Error "Empty numbers array")
  else
    let _ := match numbers with
             | JArr items => map (fun item => JObj [("_text", item)]) items
             | _ => []
             end in
    res <- do_fetch E
             (disconnect_request c
                (js2xml E (disconnect_order orderid numbers))) ;;
    if negb (ok res) then throw (Error (statusText res))
    else new_CBWDisconnectOrderResponse E (body res) (c_accId c) (c_site c)
           (c_sippeerId c) (c_options c) (c_headers c) (c_baseUrl c).

End WithEnv.

End Bandwidth.

(* ===================================================================== *)
(** * Sequences of replacements and reads on one wrapper *)
(* ===================================================================== *)

Module Cache.

Import BWResponse.

(** What a holder of a wrapper does to it: assign [text] or call
    [toJSON()]. *)
Inductive op : Type :=
| SetText (t : string)
| Read.

(** What a read of the text [t] gives when nothing is cached. *)
Definition parse_of (E : Env) (t : string) : outcome jsval :=
  if negb (JS.truthy (JStr t)) then Done JNull
  else match xml2js E t with
       | inl e => Thrown e
       | inr j => Done j
       end.

(** The results of the reads of [ops] on a wrapper whose text is [t], each
    taken from the text in place at the time of the read. *)
Fixpoint reads_of (E : Env) (ops : list op) (t : string) : list (outcome jsval) :=
  match ops with
  | [] => []
  | SetText t' :: rest => reads_of E rest t'
  | Read :: rest => parse_of E t :: reads_of E rest t
  end.

(** The cache agrees with the text: a parse that is held is the parse of
    the text that is held. *)
Definition coherent (E : Env) (r : CBWResponse) : Prop :=
  JS.truthy (json r) = true -> xml2js E (text r) = inr (json r).

Section WithEnv.

Variable E : Env.

(** The operations of [ops] in order, by a caller that catches what a read
    throws and goes on; the results of the reads are collected. *)
Fixpoint run (ops : list op) (s : Obj E) : list (outcome jsval) * Obj E :=
  match ops with
  | [] => ([], s)
  | SetText t :: rest => run rest (set_text t (fst s), snd s)
  | Read :: rest =>
      let (o, s') := toJSON E s in
      let (os, s'') := run rest s' in
      (o :: os, s'')
  end.

End WithEnv.

End Cache.

(* ===================================================================== *)
(** * A page listing and the pages behind it *)
(* ===================================================================== *)

Module Pages.

Import BWResponse.

(** A page whose text [t] parses to [j], with numbers [ns]. *)
Definition page (E : Env) (t : string) (j : jsval) (ns : list jsval) : Prop :=
  JS.truthy (JStr t) = true /\
  xml2js E t = inr j /\
  JS.truthy j = true /\
  TNS_Numbers_of j = Done (JArr ns).

(** The wrapper [r] holds the text of the page parsed as [j], whether the
    parse is cached already or not. *)
Definition holds (E : Env) (r : CBWResponse) (j : jsval) : Prop :=
  JS.truthy (JStr (text r)) = true /\
  JS.truthy j = true /\
  (json r = j \/ (json r = JNull /\ xml2js E (text r) = inr j)).

(** [chain E hdrs j w ns reqs w']: from the page parsed as [j], with the
    network in state [w], following the next-links fetches [reqs] in
    order, leaves the network in [w'], and the pages fetched carry the
    numbers [ns], in order.  The chain ends at the first page without a
    next-link. *)
Inductive chain (E : Env) (hdrs : jsval)
  : jsval -> World E -> list jsval -> list Request -> World E -> Prop :=
| chain_last j w t :
    next_link_text j = Done t ->
    JS.truthy t = false ->
    chain E hdrs j w [] [] w
| chain_more j w t link res w1 j1 ns1 ns reqs w2 :
    next_link_text j = Done t ->
    JS.truthy t = true ->
    JS.regex_exec (JS.toString t) = Some link ->
    fetch E (mkRequest link "GET" hdrs None) w = (inr res, w1) ->
    ok res = true ->
    page E (body res) j1 ns1 ->
    chain E hdrs j1 w1 ns reqs w2 ->
    chain E hdrs j w (ns1 ++ ns) (mkRequest link "GET" hdrs None :: reqs) w2.

End Pages.

(* ===================================================================== *)
(** * A small environment to run the model in *)
(* ===================================================================== *)

Module Fixtures.

Import BWResponse Bandwidth.

(** The network answers with canned responses, in order. *)
Definition canned_fetch (req : Request) (w : list (exn + HttpResponse))
  : (exn + HttpResponse) * list (exn + HttpResponse) :=
  match w with
  | [] => (inl (LibError "network unreachable"), [])
  | r :: w' => (r, w')
  end.

(** The parser knows the documents of a table. *)
Fixpoint table_xml2js (tbl : list (string * jsval)) (t : string) : exn + jsval :=
  match tbl with
  | [] => inl (LibError "malformed XML")
  | (t', j) :: rest => if String.eqb t t' then inr j else table_xml2js rest t
  end.

(** The serializer in compact mode: one element per key, an array
    repeating the element, [_text] giving the text of its parent. *)
Fixpoint element (name : string) (x : jsval) : string :=
  match x with
  | JArr items =>
      (fix each (l : list jsval) : string :=
         match l with
         | [] => ""
         | y :: r => element name y ++ each r
         end) items
  | JObj fields =>
      "<" ++ name ++ ">" ++
      (fix inside (l : list (string * jsval)) : string :=
         match l with
         | [] => ""
         | (k, y) :: r =>
             (if String.eqb k "_text" then JS.toString y else element k y)
             ++ inside r
         end) fields
      ++ "</" ++ name ++ ">"
  | _ => "<" ++ name ++ ">" ++ JS.toString x ++ "</" ++ name ++ ">"
  end.

Definition compact_js2xml (x : jsval) : string :=
  match x with
  | JObj fields =>
      (fix inside (l : list (string * jsval)) : string :=
         match l with
         | [] => ""
         | (k, y) :: r => element k y ++ inside r
         end) fields
  | _ => ""
  end.

(** A stand-in for the built-in: numbers and [null] are numbers, a string
    is one when it holds digits only. *)
Definition digits_isNaN (x : jsval) : bool :=
  match x with
  | JNum _ | JNull => false
  | JStr s =>
      negb (forallb (fun c => (48 <=? nat_of_ascii c) && (nat_of_ascii c <=? 57))%nat
                    (list_ascii_of_string s))
  | _ => true
  end.

(** The texts used below and their compact parses. *)
Definition el (x : jsval) : jsval := JObj [("_text", x)].

Definition order_xml (status : string) : string :=
  "<OrderResponse><Order><id>o-77</id><PeerId>500709</PeerId></Order><OrderStatus>"
  ++ status ++ "</OrderStatus></OrderResponse>".

Definition order_json (status : string) : jsval :=
  JObj [("OrderResponse",
         JObj [("Order", JObj [("id", el (JStr "o-77"));
                               ("PeerId", el (JStr "500709"))]);
               ("OrderStatus", el (JStr status))])].

Definition complete1_xml : string :=
  "<OrderResponse><Order><id>o-77</id><PeerId>500709</PeerId></Order><OrderStatus>COMPLETE</OrderStatus><CompletedNumbers><TelephoneNumber><FullNumber>9194464166</FullNumber></TelephoneNumber></CompletedNumbers><Summary>1 number ordered in (919)</Summary></OrderResponse>".

Definition complete1_json : jsval :=
  JObj [("OrderResponse",
         JObj [("Order", JObj [("id", el (JStr "o-77"));
                               ("PeerId", el (JStr "500709"))]);
               ("OrderStatus", el (JStr "COMPLETE"));
               ("CompletedNumbers",
                JObj [("TelephoneNumber",
                       JObj [("FullNumber", el (JStr "9194464166"))])]);
               ("Summary", el (JStr "1 number ordered in (919)"))])].

Definition complete2_xml : string :=
  "<OrderResponse><Order><id>o-77</id><PeerId>500709</PeerId></Order><OrderStatus>COMPLETE</OrderStatus><CompletedNumbers><TelephoneNumber><FullNumber>9194464166</FullNumber></TelephoneNumber><TelephoneNumber><FullNumber>9194464167</FullNumber></TelephoneNumber></CompletedNumbers><Summary>2 numbers ordered in (919)</Summary></OrderResponse>".

Definition complete2_json : jsval :=
  JObj [("OrderResponse",
         JObj [("Order", JObj [("id", el (JStr "o-77"));
                               ("PeerId", el (JStr "500709"))]);
               ("OrderStatus", el (JStr "COMPLETE"));
               ("CompletedNumbers",
                JObj [("TelephoneNumber",
                       JArr [JObj [("FullNumber", el (JStr "9194464166"))];
                             JObj [("FullNumber", el (JStr "9194464167"))]])]);
               ("Summary", el (JStr "2 numbers ordered in (919)"))])].

Definition page2_url : string :=
  "https://dashboard.bandwidth.com/api/accounts/9500/sites/461/sippeers/500709/tns?page=3&size=2".

Definition page1_xml : string :=
  "<SipPeerTelephoneNumbersResponse><Links><next>Link=&lt;" ++ page2_url
  ++ "&gt;;rel=next;</next></Links><SipPeerTelephoneNumbers><SipPeerTelephoneNumber><FullNumber>9194464166</FullNumber></SipPeerTelephoneNumber><SipPeerTelephoneNumber><FullNumber>9194464167</FullNumber></SipPeerTelephoneNumber></SipPeerTelephoneNumbers></SipPeerTelephoneNumbersResponse>".

Definition page1_json : jsval :=
  JObj [("SipPeerTelephoneNumbersResponse",
         JObj [("Links",
                JObj [("next", el (JStr ("Link=<" ++ page2_url ++ ">;rel=next;")))]);
               ("SipPeerTelephoneNumbers",
                JObj [("SipPeerTelephoneNumber",
                       JArr [JObj [("FullNumber", el (JStr "9194464166"))];
                             JObj [("FullNumber", el (JStr "9194464167"))]])])])].

Definition page2_xml : string :=
  "<SipPeerTelephoneNumbersResponse><SipPeerTelephoneNumbers><SipPeerTelephoneNumber><FullNumber>9194464168</FullNumber></SipPeerTelephoneNumber></SipPeerTelephoneNumbers></SipPeerTelephoneNumbersResponse>".

Definition page2_json : jsval :=
  JObj [("SipPeerTelephoneNumbersResponse",
         JObj [("SipPeerTelephoneNumbers",
                JObj [("SipPeerTelephoneNumber",
                       JObj [("FullNumber", el (JStr "9194464168"))])])])].

Definition disconnect_xml : string :=
  "<DisconnectTelephoneNumberOrderResponse><OrderStatus>RECEIVED</OrderStatus></DisconnectTelephoneNumberOrderResponse>".

Definition disconnect_json : jsval :=
  JObj [("DisconnectTelephoneNumberOrderResponse",
         JObj [("OrderStatus", el (JStr "RECEIVED"))])].

Definition documents : list (string * jsval) :=
  [ (order_xml "RECEIVED", order_json "RECEIVED");
    (order_xml "FAILED", order_json "FAILED");
    (order_xml "BACKORDERED", order_json "BACKORDERED");
    (complete1_xml, complete1_json);
    (complete2_xml, complete2_json);
    (page1_xml, page1_json);
    (page2_xml, page2_json);
    (disconnect_xml, disconnect_json) ].

(** [base64] is left as the identity: no property below reads the
    credentials. *)
Definition env : Env :=
  mkEnv (list (exn + HttpResponse)) canned_fetch (table_xml2js documents)
        compact_js2xml digits_isNaN (fun s => s).

Definition answers (l : list (exn + HttpResponse)) : St env := mkSt (E := env) l [] [].

Definition http_ok (text : string) : exn + HttpResponse :=
  inr (mkHttpResponse true "OK" text).

Definition http_fail (status : string) : exn + HttpResponse :=
  inr (mkHttpResponse false status "").

(** A client as [new CBandwidth('user', 'secret', '9500', '461',
    undefined, '500709')] builds it. *)
Definition client : CBandwidth :=
  mkClient (JObj [("Authorization", JStr "Basic user:secret");
                  ("Content-Type", JStr "application/xml")])
           (JStr "461") (JStr "9500") (JObj [("pageSize", JNum 100)])
           (JStr "500709") (JStr "https://dashboard.bandwidth.com/api").

(** The wrapper [getSipPeersTNS] builds on the first page. *)
Definition listing : CBWResponse :=
  mkResponse page1_xml JNull (JStr "9500") (JStr "461") (JStr "500709")
             (JObj [("pageSize", JNum 100)]) (c_headers client)
             (JStr "https://dashboard.bandwidth.com/api") 0.

(** The request for the page after [listing]. *)
Definition page2_request : Request :=
  mkRequest page2_url "GET" (c_headers client) None.

(** The parsed body of the completed order of two numbers, once
    [allocate] has attached the order id. *)
Definition complete2_with_id : jsval :=
  match complete2_json with
  | JObj fields => JObj (fields ++ [("order_id", JStr "o-77")])%list
  | other => other
  end.

(** A query by city and state for two numbers. *)
Definition city_query : jsval :=
  JObj [("city", JStr "CARY"); ("state", JStr "NC"); ("quantity", JNum 2)].

End Fixtures.

(** Two more settings: a server that answers every request with the first
    page, and a client built without a SIP-peer id. *)
Module Scenarios.

Import BWResponse Bandwidth Fixtures.

Definition looping_env : Env :=
  mkEnv unit (fun _ w => (http_ok page1_xml, w)) (table_xml2js documents)
        compact_js2xml digits_isNaN (fun s => s).

Definition anonymous_client : CBandwidth :=
  mkClient (c_headers client) (c_site client) (c_accId client)
           (c_options client) JUndef (c_baseUrl client).

(** The fields of the parsed body of the completed order of two numbers. *)
Definition complete2_fields : list (string * jsval) :=
  match complete2_json with
  | JObj fields => fields
  | _ => []
  end.

(** The parsed body of the completed order of one number, the order id
    attached. *)
Definition complete1_with_id : jsval :=
  match complete1_json with
  | JObj fields => JObj (fields ++ [("order_id", JStr "o-77")])%list
  | other => other
  end.

(** The parsed body of a listing with no number. *)
Definition empty_listing_json : jsval :=
  JObj [("SipPeerTelephoneNumbersResponse",
         JObj [("SipPeerTelephoneNumbers", JObj [])])].

(** The parsed body of a page whose next-link is a bare URL. *)
Definition bare_link_json : jsval :=
  JObj [("SipPeerTelephoneNumbersResponse",
         JObj [("Links", JObj [("next", el (JStr page2_url))])])].

(** A wrapper that holds [bare_link_json] as its parse. *)
Definition bare_link_page : CBWResponse :=
  mkResponse "<SipPeerTelephoneNumbersResponse/>" bare_link_json (JStr "9500")
             (JStr "461") (JStr "500709") (JObj [("pageSize", JNum 100)])
             (c_headers client) (JStr "https://dashboard.bandwidth.com/api") 0.

(** The wrappers of an order response and of a check response. *)
Definition order_wrapper (status : string) : CBWResponse :=
  mkResponse (order_xml status) (order_json status) (JStr "9500") (JStr "461")
             (JStr "500709") (JObj [("pageSize", JNum 100)]) (c_headers client)
             (JStr "https://dashboard.bandwidth.com/api") 0.

Definition unparsed (t : string) : CBWResponse :=
  mkResponse t JNull (JStr "9500") (JStr "461") (JStr "500709")
             (JObj [("pageSize", JNum 100)]) (c_headers client)
             (JStr "https://dashboard.bandwidth.com/api") 0.

(** The request of a status check of the order [o-77]. *)
Definition check_request : Request :=
  mkRequest "https://dashboard.bandwidth.com/api/accounts/9500/orders/o-77?tndetail=true"
            "GET" (c_headers client) None.

End Scenarios.

(* ===================================================================== *)
(** * Properties *)
(* ===================================================================== *)

(** ** The monad *)

Lemma bind_Done {S A B} (m : M S A) (f : A -> M S B) s a s' :
  m s = (Done a, s') -> bind m f s = f a s'.
Proof. intros H. unfold bind. rewrite H. reflexivity. Qed.

Lemma bind_Thrown {S A B} (m : M S A) (f : A -> M S B) s e s' :
  m s = (Thrown e, s') -> bind m f s = (Thrown e, s').
Proof. intros H. unfold bind. rewrite H. reflexivity. Qed.

Lemma bind_lift_Done {S A B} (a : A) (f : A -> M S B) s :
  bind (lift (Done a)) f s = f a s.
Proof. reflexivity. Qed.

Lemma bind_lift_Thrown {S A B} e (f : A -> M S B) s :
  bind (lift (Thrown e)) f s = (Thrown e, s).
Proof. reflexivity. Qed.

Lemma bind_bind {S A B C} (m : M S A) (g : A -> M S B) (k : B -> M S C) s :
  bind (bind m g) k s = bind m (fun a => bind (g a) k) s.
Proof. unfold bind. destruct (m s) as [[a|e| |] s']; reflexivity. Qed.

Lemma bind_ret {S A B} (a : A) (f : A -> M S B) s :
  bind (ret a) f s = f a s.
Proof. reflexivity. Qed.

Lemma obind_Done {A B} (a : A) (f : A -> outcome B) :
  JS.obind (Done a) f = f a.
Proof. reflexivity. Qed.

(** ** The lazy parse *)

Module CacheFacts.

Import BWResponse Cache.

Section WithEnv.

Variable E : Env.

(** [toJSON()] by cases: no text, nothing cached, something cached. *)
Lemma toJSON_unfold (r : CBWResponse) (st : St E) :
  toJSON E (r, st) =
  if negb (JS.truthy (JStr (text r))) then (Done JNull, (r, st))
  else if negb (JS.truthy (json r))
       then match xml2js E (text r) with
            | inl e =>
                (Thrown e,
                 (r, mkSt (world st) (requests st) (parses st ++ [text r])))
            | inr j =>
                (Done j,
                 (set_json j r,
                  mkSt (world st) (requests st) (parses st ++ [text r])))
            end
       else (Done (json r), (r, st)).
Proof.
  unfold toJSON, bind, this, ret, parse, modify_this; simpl.
  destruct (text r =? ""); simpl; [reflexivity|].
  destruct (JS.truthy (json r)); simpl; [reflexivity|].
  destruct (xml2js E (text r)); reflexivity.
Qed.

Lemma coherent_set_text (t : string) (r : CBWResponse) :
  coherent E (set_text t r).
Proof. unfold coherent; simpl; discriminate. Qed.

Lemma coherent_new t a s p o h b r :
  new_CBWResponse t a s p o h b = Done r -> coherent E r /\ text r = t.
Proof.
  unfold new_CBWResponse.
  repeat match goal with
         | |- context [if ?c then _ else _] => destruct c; try discriminate
         end.
  intros H; injection H as <-. split; [unfold coherent; simpl; discriminate | reflexivity].
Qed.

(** A read returns the parse of the text in place, and leaves a coherent
    wrapper with the same text. *)
Lemma toJSON_fresh (r : CBWResponse) (st : St E) :
  coherent E r ->
  fst (toJSON E (r, st)) = parse_of E (text r) /\
  coherent E (fst (snd (toJSON E (r, st)))) /\
  text (fst (snd (toJSON E (r, st)))) = text r.
Proof.
  intros Hc. rewrite toJSON_unfold. unfold parse_of.
  destruct (negb (JS.truthy (JStr (text r)))) eqn:Ht; simpl; [auto|].
  destruct (JS.truthy (json r)) eqn:Hj; simpl.
  - rewrite (Hc Hj). auto.
  - destruct (xml2js E (text r)) eqn:Hx; simpl; [auto|].
    repeat split; auto. unfold coherent; simpl. intros _. exact Hx.
Qed.

Lemma run_reads (ops : list op) :
  forall r st, coherent E r ->
    fst (run E ops (r, st)) = reads_of E ops (text r) /\
    coherent E (fst (snd (run E ops (r, st)))).
Proof.
  induction ops as [|o ops IH]; intros r st Hc; simpl.
  - auto.
  - destruct o as [t|].
    + apply (IH (set_text t r) st). apply coherent_set_text.
    + destruct (toJSON_fresh r st Hc) as (H1 & H2 & H3).
      destruct (toJSON E (r, st)) as [o [r1 st1]] eqn:Hrun. simpl in *.
      destruct (IH r1 st1 H2) as (H4 & H5).
      destruct (run E ops (r1, st1)) as [os s2]. simpl in *.
      rewrite H1, H4, H3. auto.
Qed.

(** Once a read has returned, a further read returns the same value and
    changes nothing, the list of texts parsed included. *)
Lemma toJSON_again (r : CBWResponse) (st : St E) j s2 :
  (forall t x, xml2js E t = inr x -> JS.truthy x = true) ->
  toJSON E (r, st) = (Done j, s2) ->
  toJSON E s2 = (Done j, s2).
Proof.
  intros Hp. rewrite toJSON_unfold.
  destruct (negb (JS.truthy (JStr (text r)))) eqn:Ht.
  - intros H; injection H as <- <-. rewrite toJSON_unfold, Ht. reflexivity.
  - destruct (negb (JS.truthy (json r))) eqn:Hj.
    + destruct (xml2js E (text r)) as [e|x] eqn:Hx; [discriminate|].
      intros H; injection H as <- <-. rewrite toJSON_unfold.
      change (text (set_json x r)) with (text r).
      change (json (set_json x r)) with x.
      rewrite Ht, (Hp _ _ Hx). reflexivity.
    + intros H; injection H as <- <-. rewrite toJSON_unfold, Ht, Hj. reflexivity.
Qed.

Lemma reads_again (j : jsval) (s2 : Obj E) (n : nat) :
  toJSON E s2 = (Done j, s2) ->
  run E (repeat Read n) s2 = (repeat (Done j) n, s2).
Proof.
  intros H. induction n as [|n IH]; simpl; [reflexivity|].
  rewrite H, IH. reflexivity.
Qed.

End WithEnv.

(** C4. On a wrapper as its constructor leaves it, and for every sequence
    of replacements of the text and reads of the parsed structure: each
    read returns the parse of the text in place at that read, never one of
    an earlier text; and once a read has returned after the sequence, any
    number of further reads return the same structure without a call of
    the parser (the list of parsed texts, part of the state, does not
    move), so that only a replacement of the text makes the wrapper parse
    again. *)
Theorem cache_fresh_and_parsed_once (E : Env) t0 a s p o h b r ops st :
  (forall t x, xml2js E t = inr x -> JS.truthy x = true) ->
  new_CBWResponse t0 a s p o h b = Done r ->
  fst (run E ops (r, st)) = reads_of E ops t0 /\
  (forall j s2,
      toJSON E (snd (run E ops (r, st))) = (Done j, s2) ->
      forall n, run E (repeat Read n) s2 = (repeat (Done j) n, s2)).
Proof.
  intros Hp Hnew.
  destruct (coherent_new E _ _ _ _ _ _ _ _ Hnew) as [Hc Ht].
  destruct (run_reads E ops r st Hc) as [H1 _].
  split.
  - rewrite H1, Ht. reflexivity.
  - intros j s2 H n. apply reads_again.
    destruct (snd (run E ops (r, st))) as [r1 st1].
    eapply toJSON_again; eauto.
Qed.

End CacheFacts.

(** ** The accessors *)

Module AccessorFacts.

Import BWResponse.

Lemma mapM_Forall2 (f : jsval -> outcome jsval) (items ds : list jsval) :
  Forall2 (fun item d => f item = Done d) items ds ->
  JS.mapM f items = Done ds.
Proof.
  induction 1 as [|item d items ds H _ IH]; simpl; [reflexivity|].
  rewrite H; simpl. rewrite IH; reflexivity.
Qed.

Lemma mapM_Done_length (f : jsval -> outcome jsval) (items ds : list jsval) :
  JS.mapM f items = Done ds -> List.length ds = List.length items.
Proof.
  revert ds. induction items as [|x r IH]; simpl; intros ds H.
  - injection H as <-. reflexivity.
  - destruct (f x); try discriminate. simpl in H.
    destruct (JS.mapM f r) as [ys| | |]; try discriminate. simpl in H.
    injection H as <-. simpl. f_equal. apply IH. reflexivity.
Qed.

(** The listing accessor on several items: one entry per item, in order. *)
Lemma TNS_Numbers_of_many (j : jsval) (items ds : list jsval) :
  JS.path j ["SipPeerTelephoneNumbersResponse"; "SipPeerTelephoneNumbers";
             "SipPeerTelephoneNumber"] = Done (JArr items) ->
  Forall2 (fun item d => JS.path item ["FullNumber"; "_text"] = Done d) items ds ->
  TNS_Numbers_of j = Done (JArr ds).
Proof.
  intros Hp Hf. unfold TNS_Numbers_of. rewrite Hp, obind_Done.
  rewrite (mapM_Forall2 _ _ _ Hf). reflexivity.
Qed.

(** The listing accessor on one item: the list of that one entry. *)
Lemma TNS_Numbers_of_one (j item d : jsval) :
  JS.path j ["SipPeerTelephoneNumbersResponse"; "SipPeerTelephoneNumbers";
             "SipPeerTelephoneNumber"] = Done item ->
  JS.is_array item = false ->
  JS.path item ["FullNumber"; "_text"] = Done d ->
  TNS_Numbers_of j = Done (JArr [d]).
Proof.
  intros Hp Ha Hd. unfold TNS_Numbers_of. rewrite Hp, obind_Done.
  destruct item; try discriminate Ha; rewrite Hd; reflexivity.
Qed.

(** The completed-order accessor on several items. *)
Lemma CheckOrder_Numbers_many (r : CBWResponse) (items : list jsval)
      (ds : list jsval) :
  JS.truthy (json r) = true ->
  JS.path (json r) ["OrderResponse"; "CompletedNumbers"; "TelephoneNumber"]
    = Done (JArr items) ->
  Forall2 (fun item d => JS.path item ["FullNumber"; "_text"] = Done d) items ds ->
  CheckOrder_Numbers r
  = Done (JArr (map (fun d => JStr ("+1" ++ JS.toString d)) ds)).
Proof.
  intros Ht Hp Hf. unfold CheckOrder_Numbers. rewrite Ht, Hp, obind_Done.
  cbv beta iota delta [negb].
  rewrite (mapM_Forall2 plus1 items (map (fun d => JStr ("+1" ++ JS.toString d)) ds)).
  - reflexivity.
  - clear Hp. induction Hf as [|item d items ds H _ IH]; simpl; constructor; auto.
    unfold plus1. rewrite H. reflexivity.
Qed.

(** The completed-order accessor on one item: whatever it returns, it is
    no list. *)
Lemma CheckOrder_Numbers_one (r : CBWResponse) (item x : jsval) :
  JS.truthy (json r) = true ->
  JS.path (json r) ["OrderResponse"; "CompletedNumbers"; "TelephoneNumber"]
    = Done item ->
  JS.is_array item = false ->
  CheckOrder_Numbers r = Done x ->
  exists d, JS.path item ["FullNumber"; "_text"] = Done d /\
            x = JStr ("+1" ++ JS.toString d).
Proof.
  intros Ht Hp Ha. unfold CheckOrder_Numbers. rewrite Ht, Hp, obind_Done.
  cbv beta iota delta [negb].
  assert (Hx : plus1 item = Done x ->
               exists d, JS.path item ["FullNumber"; "_text"] = Done d /\
                         x = JStr ("+1" ++ JS.toString d)).
  { unfold plus1. destruct (JS.path item ["FullNumber"; "_text"]) as [d| | |];
      simpl; try discriminate.
    intros H; injection H as <-. eauto. }
  destruct item; try discriminate Ha; exact Hx.
Qed.

(** C2. The completed-order accessor on a parsed body with a single
    completed number: the wrapper built on that body returns the bare
    string ["+19194464166"], where the listing accessor returns a
    one-element list for its single item. *)
Theorem CheckOrder_Numbers_single_item_is_a_string :
  exists r st,
    new_CBWCheckOrderResponse Fixtures.env Fixtures.complete1_xml
      (JStr "9500") (JStr "461") (JStr "500709")
      (JObj [("pageSize", JNum 100)]) (JObj []) (JStr "https://dashboard.bandwidth.com/api")
      (Fixtures.answers []) = (Done r, st) /\
    JS.path (json r) ["OrderResponse"; "CompletedNumbers"; "TelephoneNumber"]
      = Done (JObj [("FullNumber", JObj [("_text", JStr "9194464166")])]) /\
    CheckOrder_Numbers r = Done (JStr "+19194464166") /\
    CheckOrder_Numbers r <> Done (JArr [JStr "+19194464166"]) /\
    TNS_Numbers_of Fixtures.page2_json = Done (JArr [JStr "9194464168"]).
Proof.
  eexists. eexists. split; [vm_compute; reflexivity|].
  split; [vm_compute; reflexivity|].
  split; [vm_compute; reflexivity|].
  split; [vm_compute; discriminate|].
  vm_compute; reflexivity.
Qed.

End AccessorFacts.

(** ** The page iterator *)

Module IteratorFacts.

Import BWResponse.

Lemma get_or_empty (x : jsval) (k : string) :
  exists a, JS.get (JS.or_empty x) k = Done a /\
            (JS.truthy a = true -> JS.truthy x = true /\ JS.get x k = Done a).
Proof.
  unfold JS.or_empty. destruct (JS.truthy x) eqn:Hx.
  - destruct x; simpl in Hx; try discriminate; simpl; eauto.
    destruct (JS.assoc k fields); eauto.
  - exists JUndef. split; [reflexivity | simpl; discriminate].
Qed.

Lemma next_link_text_total (j : jsval) : exists t, next_link_text j = Done t.
Proof.
  unfold next_link_text.
  destruct (get_or_empty j "SipPeerTelephoneNumbersResponse") as (a & -> & _).
  rewrite obind_Done.
  destruct (get_or_empty a "Links") as (b & -> & _). rewrite obind_Done.
  destruct (get_or_empty b "next") as (c & -> & _). rewrite obind_Done.
  destruct (get_or_empty c "_text") as (d & -> & _). eauto.
Qed.

(** A next-link text that is there was read along the plain path. *)
Lemma link_text_truthy (j t : jsval) :
  next_link_text j = Done t ->
  JS.truthy t = true ->
  JS.truthy j = true /\
  JS.path j ["SipPeerTelephoneNumbersResponse"; "Links"; "next"; "_text"] = Done t.
Proof.
  unfold next_link_text.
  destruct (get_or_empty j "SipPeerTelephoneNumbersResponse") as (a & Ha & Ha').
  rewrite Ha, obind_Done.
  destruct (get_or_empty a "Links") as (b & Hb & Hb'). rewrite Hb, obind_Done.
  destruct (get_or_empty b "next") as (c & Hc & Hc'). rewrite Hc, obind_Done.
  destruct (get_or_empty c "_text") as (d & Hd & Hd'). rewrite Hd.
  intros H Ht; injection H as ->.
  destruct (Hd' Ht) as [Tc Gc]. destruct (Hc' Tc) as [Tb Gb].
  destruct (Hb' Tb) as [Ta Ga]. destruct (Ha' Ta) as [Tj Gj].
  split; [exact Tj|].
  unfold JS.path. rewrite Gj, obind_Done, Ga, obind_Done, Gb, obind_Done, Gc.
  reflexivity.
Qed.

Lemma set_json_same (r : CBWResponse) : set_json (json r) r = r.
Proof. destruct r; reflexivity. Qed.

Section WithEnv.

Variable E : Env.

(** A read that returns something truthy leaves it cached, and touches
    neither the network nor the list of requests. *)
Lemma toJSON_truthy (r : CBWResponse) (st : St E) j r1 st1 :
  toJSON E (r, st) = (Done j, (r1, st1)) ->
  JS.truthy j = true ->
  r1 = set_json j r /\ world st1 = world st /\ requests st1 = requests st /\
  toJSON E (r1, st1) = (Done j, (r1, st1)).
Proof.
  rewrite CacheFacts.toJSON_unfold.
  destruct (negb (JS.truthy (JStr (text r)))) eqn:Ht.
  - intros H Hj; injection H as <- <- <-. discriminate Hj.
  - destruct (negb (JS.truthy (json r))) eqn:Hc.
    + destruct (xml2js E (text r)) as [e|x]; [discriminate|].
      intros H Hj; injection H as <- <- <-.
      repeat split; try reflexivity.
      rewrite CacheFacts.toJSON_unfold.
      change (text (set_json x r)) with (text r).
      change (json (set_json x r)) with x.
      rewrite Ht, Hj. reflexivity.
    + intros H Hj; injection H as <- <- <-.
      rewrite set_json_same. repeat split; try reflexivity.
      rewrite CacheFacts.toJSON_unfold, Ht, Hc. reflexivity.
Qed.

(** [next()] by cases on the text of the next-link. *)
Lemma next_cases (r : CBWResponse) (st : St E) j r1 st1 t :
  toJSON E (r, st) = (Done j, (r1, st1)) ->
  next_link_text j = Done t ->
  next E (r, st) =
  if negb (JS.truthy t) then (Done IterDone, (r1, st1))
  else match JS.regex_exec (JS.toString t) with
       | None => (Thrown TypeError, (r1, st1))
       | Some link =>
           let req := mkRequest link "GET" (headers r) None in
           let (res, w) := fetch E req (world st) in
           (Done (IterValue (next_page E res)),
            (r1, mkSt w (requests st ++ [req]) (parses st1)))
       end.
Proof.
  intros Hj Ht. unfold next.
  rewrite (bind_Done _ _ _ _ _ Hj). rewrite Ht, bind_lift_Done.
  destruct (JS.truthy t) eqn:Tt; cbn [negb]; [|reflexivity].
  destruct (link_text_truthy j t Ht Tt) as [Tj Hpath].
  destruct (toJSON_truthy r st j r1 st1 Hj Tj) as (Hr1 & Hw & Hq & Hagain).
  rewrite (bind_Done _ _ _ _ _ Hagain). rewrite Hpath, bind_lift_Done.
  destruct (JS.regex_exec (JS.toString t)) as [link|]; [|reflexivity].
  unfold bind, this. cbn [fst snd].
  rewrite Hw, Hq. subst r1. cbn [headers set_json].
  destruct (fetch E _ (world st)) as [res w]. reflexivity.
Qed.

(** The promise of [next()], awaited on a successful response. *)
Lemma next_page_ok (res : HttpResponse) (r : CBWResponse) (st : St E) :
  defined_fields r ->
  ok res = true ->
  next_page E (inr res) (r, st) =
  (Done (IterValue (mkResponse (body res) JNull (accId r) (site r) (sippeerId r)
                                (options r) (headers r) (baseUrl r) 0)),
   (incr_nextIndex (set_text (body res) r), st)).
Proof.
  intros (H1 & H2 & H3 & H4 & H5 & H6) Hok.
  unfold next_page. rewrite Hok. cbn [negb].
  unfold bind, modify_this, this, ret, lift. cbn [fst snd].
  unfold new_CBWTNSResponse, new_CBWResponse. cbn [accId site sippeerId options
    headers baseUrl incr_nextIndex set_text text textValue].
  rewrite H1, H2, H3, H4, H5, H6. reflexivity.
Qed.

(** The promise of [next()], awaited on a response that is not a success. *)
Lemma next_page_not_ok (res : HttpResponse) (s : Obj E) :
  ok res = false ->
  next_page E (inr res) s = (Thrown (CBWTNSError (statusText res)), s).
Proof. intros Hok. unfold next_page. rewrite Hok. reflexivity. Qed.

End WithEnv.

(** C3. On a listing wrapper whose current parsed body is [j]: [next()]
    reports [done] exactly when the body holds no next-link text; and when
    it holds one, from which the regular expression extracts [link],
    [next()] issues the request for [link] with the wrapper's headers and
    returns a promise which, once the response has arrived with a success
    status, has replaced the raw text of the wrapper by the fetched body
    (dropping the parse of the earlier text) before it delivers its value,
    a new wrapper on that body. *)
Theorem next_done_iff_no_link_else_fetch_and_replace
    (E : Env) (r : CBWResponse) (st : St E) j r1 st1 t :
  defined_fields r ->
  toJSON E (r, st) = (Done j, (r1, st1)) ->
  next_link_text j = Done t ->
  ((exists s, next E (r, st) = (Done IterDone, s)) <-> JS.truthy t = false) /\
  (forall link res w,
      JS.truthy t = true ->
      JS.regex_exec (JS.toString t) = Some link ->
      fetch E (mkRequest link "GET" (headers r) None) (world st) = (inr res, w) ->
      ok res = true ->
      exists p r2 st2,
        next E (r, st) = (Done (IterValue p), (r2, st2)) /\
        requests st2
        = (requests st ++ [mkRequest link "GET" (headers r) None])%list /\
        exists fresh r3,
          p (r2, st2) = (Done (IterValue fresh), (r3, st2)) /\
          text r3 = body res /\ json r3 = JNull /\
          nextIndex r3 = S (nextIndex r) /\
          text fresh = body res).
Proof.
  intros Hdef Hj Ht. rewrite (next_cases E r st j r1 st1 t Hj Ht). split.
  - destruct (JS.truthy t); cbn [negb].
    + split; [|discriminate]. intros [s H].
      destruct (JS.regex_exec (JS.toString t)); [|discriminate].
      cbv zeta in H. destruct (fetch E _ (world st)). discriminate.
    + split; eauto.
  - intros link res w Tt Hlink Hfetch Hok.
    rewrite Tt, Hlink. cbn [negb]. cbv zeta. rewrite Hfetch.
    destruct (link_text_truthy j t Ht Tt) as [Tj _].
    destruct (toJSON_truthy E r st j r1 st1 Hj Tj) as (Hr1 & _).
    assert (Hdef1 : defined_fields r1) by (subst r1; exact Hdef).
    do 3 eexists. split; [reflexivity|]. split; [reflexivity|].
    rewrite (next_page_ok E res r1 _ Hdef1 Hok).
    do 2 eexists. split; [reflexivity|].
    subst r1. repeat split; reflexivity.
Qed.

End IteratorFacts.

(** ** The client: requests and failures *)

Module ClientFacts.

Import BWResponse Bandwidth.

Lemma not_own_tail {A} (l : list A) (x : A) : l = (l ++ [x])%list -> False.
Proof.
  intros H. apply (f_equal (@List.length A)) in H.
  rewrite List.length_app in H. simpl in H. lia.
Qed.

Lemma bind_lift {S A B} (o : outcome A) (f : A -> M S B) (s : S) :
  bind (lift o) f s =
  match o with
  | Done a => f a s
  | Thrown e => (Thrown e, s)
  | Hang => (Hang, s)
  | Fuel => (Fuel, s)
  end.
Proof. destruct o; reflexivity. Qed.

Section WithEnv.

Variable E : Env.

Lemma do_fetch_unfold (req : Request) (st : St E) :
  do_fetch E req st =
  (match fst (fetch E req (world st)) with
   | inl e => Thrown e
   | inr res => Done res
   end,
   mkSt (snd (fetch E req (world st))) (requests st ++ [req]) (parses st)).
Proof.
  unfold do_fetch. destruct (fetch E req (world st)) as [[e|res] w]; reflexivity.
Qed.

(** A read changes neither the network nor the list of requests. *)
Lemma toJSON_state (r : CBWResponse) (st : St E) :
  world (snd (snd (toJSON E (r, st)))) = world st /\
  requests (snd (snd (toJSON E (r, st)))) = requests st.
Proof.
  rewrite CacheFacts.toJSON_unfold.
  destruct (negb (JS.truthy (JStr (text r)))); [auto|].
  destruct (negb (JS.truthy (json r))); [|auto].
  destruct (xml2js E (text r)); auto.
Qed.

(** The constructors of the parsed wrappers issue no request. *)
Lemma new_parsed_state t a s p o h b (st : St E) :
  world (snd (new_parsed E t a s p o h b st)) = world st /\
  requests (snd (new_parsed E t a s p o h b st)) = requests st.
Proof.
  unfold new_parsed. rewrite bind_lift.
  destruct (new_CBWResponse t a s p o h b) as [r| | |]; auto.
  unfold bind, call.
  pose proof (toJSON_state r st) as Hs.
  destruct (toJSON E (r, st)) as [[j| | |] [r' st']]; exact Hs.
Qed.

(** The pattern of every operation: await the response, throw on a status
    that is not a success, build the wrapper otherwise.  If the one
    request it issued was answered by [res] and [res] is not a success,
    the operation threw the error made of the status text. *)
Lemma throws_status_text {A} (req0 : Request) (err : string -> exn)
      (k : HttpResponse -> M (St E) A) (st : St E) out st' req res w :
  (forall res0 s, requests (snd (k res0 s)) = requests s) ->
  bind (do_fetch E req0)
       (fun res0 => if negb (ok res0) then throw (err (statusText res0))
                    else k res0) st = (out, st') ->
  requests st' = (requests st ++ [req])%list ->
  fetch E req (world st) = (inr res, w) ->
  ok res = false ->
  out = Thrown (err (statusText res)).
Proof.
  intros Hk Hrun Hreq Hfetch Hok.
  unfold bind in Hrun. rewrite do_fetch_unfold in Hrun.
  assert (Heq : req0 = req).
  { destruct (fst (fetch E req0 (world st))) as [e|res0].
    - injection Hrun as _ <-. simpl in Hreq.
      apply app_inj_tail in Hreq. tauto.
    - destruct (negb (ok res0)).
      + injection Hrun as _ <-. simpl in Hreq.
        apply app_inj_tail in Hreq. tauto.
      + pose proof (Hk res0 (mkSt (snd (fetch E req0 (world st)))
                               (requests st ++ [req0]) (parses st))) as H.
        rewrite Hrun in H. simpl in H. rewrite H in Hreq.
        apply app_inj_tail in Hreq. tauto. }
  subst req0. rewrite Hfetch in Hrun. simpl in Hrun. rewrite Hok in Hrun.
  simpl in Hrun. injection Hrun as <- _. reflexivity.
Qed.

End WithEnv.

(** C6. For each of the four operations that issue one request (the
    number listing, search-and-order, check-order, disconnect): if the one
    request the call issued was answered with a status that is not a
    success, the call threw the error that carries the status text of that
    response, so it returned no wrapper.  For a page fetch of the iterator:
    if the request [next()] issued was answered with such a status, the
    promise it returned is rejected with the error carrying the status
    text, and the wrapper is left as it was. *)
Theorem non_success_status_throws_status_text (E : Env) (c : CBandwidth) :
  (forall sp st out st' req res w,
      getSipPeersTNS E c sp st = (out, st') ->
      requests st' = (requests st ++ [req])%list ->
      fetch E req (world st) = (inr res, w) -> ok res = false ->
      out = Thrown (CBWTNSError (statusText res))) /\
  (forall q st out st' req res w,
      searchAndOrderDID E c q st = (out, st') ->
      requests st' = (requests st ++ [req])%list ->
      fetch E req (world st) = (inr res, w) -> ok res = false ->
      out = Thrown (Error (statusText res))) /\
  (forall orderid st out st' req res w,
      checkOrder E c orderid st = (out, st') ->
      requests st' = (requests st ++ [req])%list ->
      fetch E req (world st) = (inr res, w) -> ok res = false ->
      out = Thrown (Error (statusText res))) /\
  (forall orderid numbers st out st' req res w,
      disconnect E c orderid numbers st = (out, st') ->
      requests st' = (requests st ++ [req])%list ->
      fetch E req (world st) = (inr res, w) -> ok res = false ->
      out = Thrown (Error (statusText res))) /\
  (forall r st p s1 req res w,
      next E (r, st) = (Done (IterValue p), s1) ->
      requests (snd s1) = (requests st ++ [req])%list ->
      fetch E req (world st) = (inr res, w) -> ok res = false ->
      p s1 = (Thrown (CBWTNSError (statusText res)), s1)).
Proof.
  assert (Hparsed : forall t a s p o h b (st : St E),
             requests (snd (new_parsed E t a s p o h b st)) = requests st)
    by (intros; apply new_parsed_state).
  repeat split.
  - intros sp st out st' req res w Hrun Hreq Hfetch Hok.
    unfold getSipPeersTNS in Hrun.
    destruct (is_undefined sp).
    { injection Hrun as _ <-. destruct (not_own_tail _ _ Hreq). }
    rewrite bind_lift in Hrun.
    destruct (JS.get (c_options c) "pageSize") as [ps| | |];
      try (injection Hrun as _ <-; destruct (not_own_tail _ _ Hreq)).
    refine (throws_status_text E _ CBWTNSError _ st out st' req res w _ Hrun Hreq Hfetch Hok).
    intros res0 s. unfold lift. reflexivity.
  - intros q st out st' req res w Hrun Hreq Hfetch Hok.
    unfold searchAndOrderDID in Hrun.
    repeat (rewrite bind_lift in Hrun;
            match type of Hrun with
            | context [match ?o with Done _ => _ | _ => _ end] =>
                destruct o;
                try (injection Hrun as _ <-; destruct (not_own_tail _ _ Hreq))
            end).
    match type of Hrun with
    | context [if negb (JS.truthy ?obj) then _ else _] =>
        destruct (negb (JS.truthy obj))
    end.
    { injection Hrun as _ <-. destruct (not_own_tail _ _ Hreq). }
    refine (throws_status_text E _ Error _ st out st' req res w _ Hrun Hreq Hfetch Hok).
    intros res0 s. apply Hparsed.
  - intros orderid st out st' req res w Hrun Hreq Hfetch Hok.
    unfold checkOrder in Hrun.
    destruct (is_undefined orderid).
    { injection Hrun as _ <-. destruct (not_own_tail _ _ Hreq). }
    refine (throws_status_text E _ Error _ st out st' req res w _ Hrun Hreq Hfetch Hok).
    intros res0 s. apply Hparsed.
  - intros orderid numbers st out st' req res w Hrun Hreq Hfetch Hok.
    unfold disconnect in Hrun.
    destruct (is_undefined orderid).
    { injection Hrun as _ <-. destruct (not_own_tail _ _ Hreq). }
    destruct (is_undefined numbers).
    { injection Hrun as _ <-. destruct (not_own_tail _ _ Hreq). }
    destruct (negb (JS.is_array numbers)).
    { injection Hrun as _ <-. destruct (not_own_tail _ _ Hreq). }
    cbv zeta in Hrun.
    refine (throws_status_text E _ Error _ st out st' req res w _ Hrun Hreq Hfetch Hok).
    intros res0 s. apply Hparsed.
  - intros r st p s1 req res w Hrun Hreq Hfetch Hok.
    destruct (toJSON E (r, st)) as [[j| | |] [r1 st1]] eqn:Hj;
      try (unfold next, bind in Hrun; rewrite Hj in Hrun; discriminate).
    destruct (IteratorFacts.next_link_text_total j) as [t Ht].
    rewrite (IteratorFacts.next_cases E r st j r1 st1 t Hj Ht) in Hrun.
    destruct (negb (JS.truthy t)); [discriminate|].
    destruct (JS.regex_exec (JS.toString t)) as [link|]; [|discriminate].
    cbv zeta in Hrun.
    destruct (fetch E (mkRequest link "GET" (headers r) None) (world st))
      as [res0 w0] eqn:Hf0.
    injection Hrun as <- <-. simpl in Hreq.
    apply app_inj_tail in Hreq. destruct Hreq as [_ <-].
    rewrite Hfetch in Hf0. injection Hf0 as <- <-.
    apply IteratorFacts.next_page_not_ok. exact Hok.
Qed.

End ClientFacts.

(** ** The unified result *)

Module UnifiedFacts.

Import BWResponse Bandwidth.

Lemma length_append (s1 s2 : string) :
  String.length (s1 ++ s2) = String.length s1 + String.length s2.
Proof. induction s1 as [|c s1 IH]; simpl; [reflexivity | now rewrite IH]. Qed.

Lemma append_assoc (a b c : string) : (a ++ b) ++ c = a ++ b ++ c.
Proof. induction a as [|x a IH]; simpl; [reflexivity | now rewrite IH]. Qed.

Lemma indexOf_append_skip (c : ascii) (s1 s2 : string) :
  JS.indexOf c s1 = None ->
  JS.indexOf c (s1 ++ s2)
  = match JS.indexOf c s2 with
    | Some i => Some (String.length s1 + i)
    | None => None
    end.
Proof.
  induction s1 as [|d s1 IH]; simpl; intros H.
  - destruct (JS.indexOf c s2); reflexivity.
  - destruct (Ascii.eqb d c); [discriminate|].
    destruct (JS.indexOf c s1); [discriminate|].
    rewrite (IH eq_refl). destruct (JS.indexOf c s2); reflexivity.
Qed.

Lemma substring_prefix (m q : string) :
  String.substring 0 (String.length m) (m ++ q) = m.
Proof.
  induction m as [|c m IH]; simpl.
  - destruct q; reflexivity.
  - now rewrite IH.
Qed.

Lemma substring_middle (p m q : string) :
  String.substring (String.length p) (String.length m) (p ++ m ++ q) = m.
Proof.
  induction p as [|c p IH]; simpl; [apply substring_prefix | exact IH].
Qed.

(** The area code is what stands between the first parentheses of the
    summary. *)
Lemma parseAreaCode_parenthesized (pre ac post : string) :
  JS.indexOf "("%char pre = None ->
  JS.indexOf ")"%char pre = None ->
  JS.indexOf ")"%char ac = None ->
  _parseAreaCode (JStr (pre ++ "(" ++ ac ++ ")" ++ post)) = Done (JStr ac).
Proof.
  intros H1 H2 H3. unfold _parseAreaCode.
  rewrite (indexOf_append_skip _ pre _ H1).
  rewrite (indexOf_append_skip _ pre _ H2).
  change (JS.indexOf "(" ("(" ++ ac ++ ")" ++ post)) with (Some 0).
  change (JS.indexOf ")" ("(" ++ ac ++ ")" ++ post))
    with (match JS.indexOf ")" (ac ++ ")" ++ post) with
          | Some i => Some (S i)
          | None => None
          end).
  rewrite (indexOf_append_skip _ ac _ H3).
  change (JS.indexOf ")" (")" ++ post)) with (Some 0).
  unfold JS.substring.
  set (s := pre ++ "(" ++ ac ++ ")" ++ post).
  assert (Hlen : String.length s
                 = String.length pre + 1 + String.length ac + 1 + String.length post).
  { unfold s. rewrite !length_append. simpl. lia. }
  rewrite Hlen.
  replace (Nat.min (String.length pre + 0 + 1) _) with (String.length pre + 1) by lia.
  replace (Nat.min (String.length pre + S (String.length ac + 0)) _)
    with (String.length pre + 1 + String.length ac) by lia.
  replace (Nat.min (String.length pre + 1) (String.length pre + 1 + String.length ac))
    with (String.length (pre ++ "(")) by (rewrite length_append; simpl; lia).
  replace (Nat.max (String.length pre + 1) (String.length pre + 1 + String.length ac)
           - String.length (pre ++ "("))
    with (String.length ac) by (rewrite length_append; simpl; lia).
  replace s with ((pre ++ "(") ++ ac ++ ")" ++ post).
  - rewrite substring_middle. reflexivity.
  - unfold s. apply append_assoc.
Qed.

(** One entry per number of a list of completed numbers. *)
Lemma Response_of_list (obj : jsval) (items : list jsval) (ds : list string)
      (peer oid area : jsval) (summary : jsval) :
  JS.path obj ["OrderResponse"; "CompletedNumbers"; "TelephoneNumber"]
    = Done (JArr items) ->
  Forall2 (fun item d => JS.path item ["FullNumber"; "_text"] = Done (JStr d))
          items ds ->
  JS.path obj ["OrderResponse"; "Order"; "PeerId"; "_text"] = Done peer ->
  JS.get obj "order_id" = Done oid ->
  JS.path obj ["OrderResponse"; "Summary"; "_text"] = Done summary ->
  _parseAreaCode summary = Done area ->
  Response obj
  = Done (JObj [("dids", JArr (map (fun d => did peer oid d area) ds));
                ("resultCount", JNum (Z.of_nat (List.length ds)))]).
Proof.
  intros Hn Hf Hp Ho Hs Ha. unfold Response. rewrite Hn, !obind_Done.
  rewrite (AccessorFacts.mapM_Forall2 (did_entry obj) items
             (map (fun d => did peer oid d area) ds)).
  - rewrite obind_Done. rewrite (Forall2_length Hf). reflexivity.
  - clear Hn. induction Hf as [|item d items ds H _ IH]; simpl; constructor; auto.
    unfold did_entry. rewrite Hp, obind_Done, Ho, obind_Done, H, obind_Done,
      Hs, obind_Done, Ha. reflexivity.
Qed.

(** C8. For the parsed body of a completed order that carries two
    completed numbers, with the order id attached as [order_id]: the
    unified result has [resultCount] 2 and two entries, in the order of
    the numbers; each entry has as [e164] the string ["+1"] followed by
    the digits of its number, as [didId] the order id, as [peerId] the
    peer id of the order, as [countryCodeA3] ['USA'], and as [areaCode]
    the text between the parentheses of the summary. *)
Theorem unified_response_of_two_numbers
    (obj n1 n2 peer oid : jsval) (d1 d2 pre ac post : string) :
  JS.path obj ["OrderResponse"; "CompletedNumbers"; "TelephoneNumber"]
    = Done (JArr [n1; n2]) ->
  JS.path n1 ["FullNumber"; "_text"] = Done (JStr d1) ->
  JS.path n2 ["FullNumber"; "_text"] = Done (JStr d2) ->
  JS.path obj ["OrderResponse"; "Order"; "PeerId"; "_text"] = Done peer ->
  JS.get obj "order_id" = Done oid ->
  JS.path obj ["OrderResponse"; "Summary"; "_text"]
    = Done (JStr (pre ++ "(" ++ ac ++ ")" ++ post)) ->
  JS.indexOf "("%char pre = None ->
  JS.indexOf ")"%char pre = None ->
  JS.indexOf ")"%char ac = None ->
  Response obj
  = Done (JObj [("dids",
                 JArr [JObj [("peerId", peer); ("didId", oid);
                             ("e164", JStr ("+1" ++ d1));
                             ("countryCodeA3", JStr "USA");
                             ("areaCode", JStr ac)];
                       JObj [("peerId", peer); ("didId", oid);
                             ("e164", JStr ("+1" ++ d2));
                             ("countryCodeA3", JStr "USA");
                             ("areaCode", JStr ac)]]);
                ("resultCount", JNum 2)]).
Proof.
  intros Hn H1 H2 Hp Ho Hs P1 P2 P3.
  exact (Response_of_list obj [n1; n2] [d1; d2] peer oid (JStr ac) _ Hn
           (Forall2_cons _ _ H1 (Forall2_cons _ _ H2 (Forall2_nil _)))
           Hp Ho Hs (parseAreaCode_parenthesized pre ac post P1 P2 P3)).
Qed.

End UnifiedFacts.

(** ** [allocate] *)

Module AllocateFacts.

Import BWResponse Bandwidth.

Section WithEnv.

Variable E : Env.

Lemma searchAndOrderDID_default (c : CBandwidth) (q : jsval) :
  searchAndOrderDID E c (if is_undefined q then JObj [] else q)
  = searchAndOrderDID E c q.
Proof. destruct q; reflexivity. Qed.

(** [allocate] after a successful order, by the end of its promise. *)
Lemma allocate_after_order (c : CBandwidth) (q : jsval) (st : St E) order st1 :
  searchAndOrderDID E c q st = (Done order, st1) ->
  allocate E c q st =
  match timer_promise E c order st1 with
  | (Done (Resolved obj), st2) => (Response obj, st2)
  | (Done (Rejected reason), st2) => (JS.get reason "Response", st2)
  | (Done Unsettled, st2) => (Hang, st2)
  | (Thrown e, st2) => (Thrown e, st2)
  | (Hang, st2) => (Hang, st2)
  | (Fuel, st2) => (Fuel, st2)
  end.
Proof.
  intros Ho. unfold allocate. rewrite searchAndOrderDID_default.
  rewrite (bind_Done _ _ _ _ _ Ho). unfold bind.
  destruct (timer_promise E c order st1) as [[[obj|reason|]| | |] st2]; reflexivity.
Qed.

(** The callback on an order that is not ['RECEIVED'] calls neither
    [resolve] nor [reject], and issues no request. *)
Lemma timer_promise_not_received (c : CBandwidth) (order : CBWResponse) (st : St E) :
  status_not_received (Order_Status order) ->
  timer_promise E c order st = (Done Unsettled, st).
Proof.
  intros H. unfold timer_promise, timer_callback.
  destruct (Order_Status order) as [[| | |s| |]|e| |]; simpl in H;
    try contradiction; try reflexivity.
  rewrite bind_lift_Done. simpl JS.truthy.
  destruct (s =? "") eqn:Hs; simpl negb; cbv iota.
  - reflexivity.
  - rewrite bind_bind, bind_lift_Done, bind_ret.
    unfold JS.loose_eq_word.
    apply String.eqb_neq in H. rewrite H. reflexivity.
Qed.

(** The callback on an order that is ['RECEIVED'], after its one status
    check, when the check is not ['COMPLETE']: [reject] is called with the
    status observed. *)
Lemma timer_promise_rejects (c : CBandwidth) (order : CBWResponse) (st : St E)
      id check st1 cs :
  Order_Status order = Done (JStr "RECEIVED") ->
  Order_Id order = Done id ->
  checkOrder E c id st = (Done check, st1) ->
  Order_Status check = Done cs ->
  JS.loose_eq_word cs "COMPLETE" = false ->
  timer_promise E c order st = (Done (Rejected cs), st1).
Proof.
  intros Hs Hid Hc Hcs Hne. unfold timer_promise, timer_callback.
  rewrite Hs, !bind_lift_Done. simpl JS.truthy. cbv iota beta.
  rewrite bind_bind, bind_lift_Done, bind_ret.
  change (JS.loose_eq_word (JStr "RECEIVED") "RECEIVED") with true. cbv iota.
  rewrite Hid, bind_lift_Done. rewrite (bind_Done _ _ _ _ _ Hc).
  rewrite Hcs, bind_lift_Done, Hne, bind_lift_Done. reflexivity.
Qed.

(** The same when the check is ['COMPLETE']: [resolve] is called with the
    parsed body of the check, the order id attached. *)
Lemma timer_promise_resolves (c : CBandwidth) (order : CBWResponse) (st : St E)
      id check st1 cs obj check' st2 obj' :
  Order_Status order = Done (JStr "RECEIVED") ->
  Order_Id order = Done id ->
  checkOrder E c id st = (Done check, st1) ->
  Order_Status check = Done cs ->
  JS.loose_eq_word cs "COMPLETE" = true ->
  toJSON E (check, st1) = (Done obj, (check', st2)) ->
  JS.set obj "order_id" id = Done obj' ->
  (exists x, Order_Status (set_json obj' check') = Done x) ->
  timer_promise E c order st = (Done (Resolved obj'), st2).
Proof.
  intros Hs Hid Hc Hcs Heq Hj Hset [x Hx]. unfold timer_promise, timer_callback.
  rewrite Hs, !bind_lift_Done. simpl JS.truthy. cbv iota beta.
  rewrite bind_bind, bind_lift_Done, bind_ret.
  change (JS.loose_eq_word (JStr "RECEIVED") "RECEIVED") with true. cbv iota.
  rewrite Hid, bind_lift_Done. rewrite (bind_Done _ _ _ _ _ Hc).
  rewrite Hcs, bind_lift_Done, Heq.
  assert (Hcall : call E check (toJSON E) st1 = (Done (obj, check'), st2))
    by (unfold call; rewrite Hj; reflexivity).
  rewrite (bind_Done _ _ _ _ _ Hcall). rewrite bind_lift_Done.
  cbn [fst snd]. rewrite Hset, bind_lift_Done, Hx, bind_lift_Done. reflexivity.
Qed.

(** What [allocate] returns when the status check is not ['COMPLETE']:
    the property [Response] of the status observed.  For a status that is
    a string this is [undefined]. *)
Lemma allocate_check_not_complete (c : CBandwidth) (q : jsval) (st : St E)
      order st1 id check st2 (status : string) :
  searchAndOrderDID E c q st = (Done order, st1) ->
  Order_Status order = Done (JStr "RECEIVED") ->
  Order_Id order = Done id ->
  checkOrder E c id st1 = (Done check, st2) ->
  Order_Status check = Done (JStr status) ->
  status <> "COMPLETE" ->
  allocate E c q st = (Done JUndef, st2).
Proof.
  intros Ho Hs Hid Hc Hcs Hne.
  rewrite (allocate_after_order c q st order st1 Ho).
  rewrite (timer_promise_rejects c order st1 id check st2 (JStr status) Hs Hid Hc Hcs).
  - reflexivity.
  - simpl. apply String.eqb_neq. exact Hne.
Qed.

(** What [allocate] returns when the status check is ['COMPLETE']: the
    unified result of the parsed body of the check with the order id
    attached. *)
Lemma allocate_check_complete (c : CBandwidth) (q : jsval) (st : St E)
      order st1 id check st2 obj check' st3 obj' :
  searchAndOrderDID E c q st = (Done order, st1) ->
  Order_Status order = Done (JStr "RECEIVED") ->
  Order_Id order = Done id ->
  checkOrder E c id st1 = (Done check, st2) ->
  Order_Status check = Done (JStr "COMPLETE") ->
  toJSON E (check, st2) = (Done obj, (check', st3)) ->
  JS.set obj "order_id" id = Done obj' ->
  (exists x, Order_Status (set_json obj' check') = Done x) ->
  allocate E c q st = (Response obj', st3).
Proof.
  intros Ho Hs Hid Hc Hcs Hj Hset Hx.
  rewrite (allocate_after_order c q st order st1 Ho).
  rewrite (timer_promise_resolves c order st1 id check st2 (JStr "COMPLETE")
             obj check' st3 obj' Hs Hid Hc Hcs eq_refl Hj Hset Hx).
  reflexivity.
Qed.

End WithEnv.

(** C1.  The query by city and state for two numbers, the order answered
    ['RECEIVED'] and its one status check answered ['FAILED']: two
    requests go out, the order and one check of order [o-77], and
    [allocate] returns [undefined]; it throws nothing, and the status
    observed is in neither its result nor an error.  The rejection
    [reject(check.Status)] is caught by [.catch((err) => { return err; })]
    and [result.Response] is then read from the string ['FAILED']. *)
Theorem allocate_failed_check_returns_undefined :
  let run := allocate Fixtures.env Fixtures.client Fixtures.city_query
               (Fixtures.answers [Fixtures.http_ok (Fixtures.order_xml "RECEIVED");
                                  Fixtures.http_ok (Fixtures.order_xml "FAILED")]) in
  fst run = Done JUndef /\
  (forall e, fst run <> Thrown e) /\
  map (fun req => (method req, url req)) (requests (snd run))
  = [("POST", "https://dashboard.bandwidth.com/api/accounts/9500/orders");
     ("GET", "https://dashboard.bandwidth.com/api/accounts/9500/orders/o-77?tndetail=true")].
Proof.
  cbv zeta. split; [vm_compute; reflexivity|].
  split; [intros e; vm_compute; discriminate|].
  vm_compute; reflexivity.
Qed.

(** C9. When the order went through and the [Status] of its response is a
    text other than ['RECEIVED'], or there is none, the promise built in
    [allocate] is neither resolved nor rejected, no status check is
    issued, and the call of [allocate] neither returns nor throws. *)
Theorem allocate_hangs_unless_received
    (E : Env) (c : CBandwidth) (q : jsval) (st : St E) order st1 :
  searchAndOrderDID E c q st = (Done order, st1) ->
  status_not_received (Order_Status order) ->
  timer_promise E c order st1 = (Done Unsettled, st1) /\
  allocate E c q st = (Hang, st1).
Proof.
  intros Ho Hs.
  pose proof (timer_promise_not_received E c order st1 Hs) as Hp.
  split; [exact Hp|].
  rewrite (allocate_after_order E c q st order st1 Ho), Hp. reflexivity.
Qed.

End AllocateFacts.

(** ** Required parameters and [disconnect] *)

Module ParameterFacts.

Import BWResponse Bandwidth.

(** C5, as the code has it. Leaving out the login, the password, the
    account id or the site id makes the constructor throw; leaving out the
    SIP-peer id of [getSipPeersTNS] and [getSipPeersTNSAll], the order id
    of [checkOrder], or the order id or the numbers of [disconnect] makes
    the call throw with the state as it was, so before any request.  The
    constructor has no check of its SIP-peer id: with the four others
    given, it returns a client whose [sippeerId] is [undefined]. *)
Theorem missing_parameter_throws_before_any_request (E : Env) :
  (forall pass accId site opts sp,
      new_CBandwidth E JUndef pass accId site opts sp = Thrown (v "login")) /\
  (forall login accId site opts sp,
      exists e, new_CBandwidth E login JUndef accId site opts sp = Thrown e) /\
  (forall login pass site opts sp,
      exists e, new_CBandwidth E login pass JUndef site opts sp = Thrown e) /\
  (forall login pass accId opts sp,
      exists e, new_CBandwidth E login pass accId JUndef opts sp = Thrown e) /\
  (forall c st,
      getSipPeersTNS E c JUndef st = (Thrown (v "sippeer-id"), st)) /\
  (forall fuel c st,
      getSipPeersTNSAll E fuel c JUndef st = (Thrown (v "sippeer-id"), st)) /\
  (forall c st, checkOrder E c JUndef st = (Thrown (v "orderid"), st)) /\
  (forall c numbers st,
      disconnect E c JUndef numbers st = (Thrown (v "orderid"), st)) /\
  (forall c orderid st,
      exists e, disconnect E c orderid JUndef st = (Thrown e, st)) /\
  (forall login pass accId site opts,
      is_undefined login = false -> is_undefined pass = false ->
      is_undefined accId = false -> is_undefined site = false ->
      exists c, new_CBandwidth E login pass accId site opts JUndef = Done c /\
                c_sippeerId c = JUndef).
Proof.
  repeat split; try reflexivity.
  - intros login accId site opts sp. unfold new_CBandwidth.
    destruct (is_undefined login); simpl; eauto.
  - intros login pass site opts sp. unfold new_CBandwidth.
    destruct (is_undefined login); [simpl; eauto|].
    destruct (is_undefined pass); simpl; eauto.
  - intros login pass accId opts sp. unfold new_CBandwidth.
    destruct (is_undefined login); [simpl; eauto|].
    destruct (is_undefined pass); [simpl; eauto|].
    destruct (is_undefined accId); simpl; eauto.
  - intros c orderid st. unfold disconnect, throw.
    destruct (is_undefined orderid); simpl; eauto.
  - intros login pass accId site opts H1 H2 H3 H4. unfold new_CBandwidth.
    rewrite H1, H2, H3, H4. eexists. split; reflexivity.
Qed.

(** C5, as stated, fails on the SIP-peer id of the constructor: the call
    [new CBandwidth('user', 'secret', '9500', '461')] throws nothing. *)
Lemma constructor_accepts_missing_sippeerId :
  new_CBandwidth Fixtures.env (JStr "user") (JStr "secret") (JStr "9500")
                 (JStr "461") JUndef JUndef
  = Done (mkClient (JObj [("Authorization", JStr "Basic user:secret");
                          ("Content-Type", JStr "application/xml")])
                   (JStr "461") (JStr "9500") (JObj [("pageSize", JNum 100)])
                   JUndef (JStr "https://dashboard.bandwidth.com/api")) /\
  (forall e, new_CBandwidth Fixtures.env (JStr "user") (JStr "secret")
               (JStr "9500") (JStr "461") JUndef JUndef <> Thrown e).
Proof. split; [reflexivity | intros e; discriminate]. Qed.

(** C10, as the code has it. With an order id given, [disconnect] fails
    with the state as it was, so before any request, exactly when
    [numbers] is not an array.  When it is one, empty or not, the call
    issues the request to [/disconnects], whose body is the serialization
    of an object that holds, as its [TelephoneNumber] list, the very array
    of the caller. *)
Theorem disconnect_checks_array_then_sends_it
    (E : Env) (c : CBandwidth) (orderid numbers : jsval) (st : St E) :
  is_undefined orderid = false ->
  ((exists e, disconnect E c orderid numbers st = (Thrown e, st))
   <-> JS.is_array numbers = false) /\
  (JS.is_array numbers = true ->
   requests (snd (disconnect E c orderid numbers st))
   = (requests st
      ++ [disconnect_request c (js2xml E (disconnect_order orderid numbers))])%list /\
   JS.path (disconnect_order orderid numbers)
     ["DisconnectTelephoneNumberOrder"; "DisconnectTelephoneNumberOrderType";
      "TelephoneNumberList"; "TelephoneNumber"] = Done numbers).
Proof.
  intros Ho.
  assert (Hsent : JS.is_array numbers = true ->
            requests (snd (disconnect E c orderid numbers st))
            = (requests st
               ++ [disconnect_request c
                     (js2xml E (disconnect_order orderid numbers))])%list).
  { intros Ha. unfold disconnect. rewrite Ho.
    destruct numbers; try discriminate Ha. cbn [is_undefined JS.is_array negb].
    unfold bind. rewrite ClientFacts.do_fetch_unfold.
    destruct (fst (fetch E _ (world st))) as [e|res]; [reflexivity|].
    destruct (negb (ok res)); [reflexivity|].
    unfold new_CBWDisconnectOrderResponse.
    rewrite (proj2 (ClientFacts.new_parsed_state E _ _ _ _ _ _ _ _)).
    reflexivity. }
  split; [split|].
  - intros [e He]. destruct (JS.is_array numbers) eqn:Ha; [|reflexivity].
    specialize (Hsent eq_refl). rewrite He in Hsent. simpl in Hsent.
    destruct (ClientFacts.not_own_tail _ _ Hsent).
  - intros Ha. unfold disconnect, throw. rewrite Ho, Ha.
    destruct (is_undefined numbers); simpl; eauto.
  - intros Ha. split; [exact (Hsent Ha) | reflexivity].
Qed.

(** C10, as stated, fails on a call with an array: the request goes out,
    is answered with a status that is not a success, and [disconnect]
    throws. *)
Lemma disconnect_throws_on_an_array :
  JS.is_array (JArr [JStr "9194464166"]) = true /\
  fst (disconnect Fixtures.env Fixtures.client (JStr "o-77")
         (JArr [JStr "9194464166"])
         (Fixtures.answers [Fixtures.http_fail "Internal Server Error"]))
  = Thrown (Error "Internal Server Error").
Proof. split; [reflexivity | vm_compute; reflexivity]. Qed.

End ParameterFacts.

(** ** All the pages *)

Module PagesFacts.

Import BWResponse Bandwidth Pages.

Section WithEnv.

Variable E : Env.

Lemma toJSON_holds (r : CBWResponse) (st : St E) (j : jsval) :
  holds E r j ->
  exists st1,
    toJSON E (r, st) = (Done j, (set_json j r, st1)) /\
    world st1 = world st /\ requests st1 = requests st.
Proof.
  intros (Ht & Tj & Hc). rewrite CacheFacts.toJSON_unfold, Ht. cbn [negb].
  destruct Hc as [Hc | [Hc Hx]].
  - assert (Hsame : set_json j r = r)
      by (rewrite <- Hc; apply IteratorFacts.set_json_same).
    rewrite Hc, Tj, Hsame. cbn [negb]. eauto.
  - rewrite Hc. cbn [JS.truthy negb]. rewrite Hx. eauto.
Qed.

Lemma holds_set_json (r : CBWResponse) (j : jsval) :
  holds E r j -> holds E (set_json j r) j.
Proof. intros (Ht & Tj & _). repeat split; auto. Qed.

(** [Numbers] on a wrapper that holds a page. *)
Lemma TNS_Numbers_holds (r : CBWResponse) (st : St E) (j x : jsval) :
  holds E r j ->
  TNS_Numbers_of j = Done x ->
  exists st1,
    TNS_Numbers E (r, st) = (Done x, (set_json j r, st1)) /\
    world st1 = world st /\ requests st1 = requests st.
Proof.
  intros Hh Hn. destruct (toJSON_holds r st j Hh) as (st1 & Hj & Hw & Hq).
  exists st1. split; [|auto]. unfold TNS_Numbers.
  rewrite (bind_Done _ _ _ _ _ Hj). destruct Hh as (_ & Tj & _). rewrite Tj.
  cbn [negb]. unfold bind, this. cbn [fst json set_json]. rewrite Hn. reflexivity.
Qed.

(** The loop of [getSipPeersTNSAll] along a chain of pages: it appends the
    numbers of the pages fetched, in order, and stops at the end of the
    chain, having issued the requests of the chain and no other. *)
Lemma pages_loop_chain (hdrs : jsval) j w ns reqs w2 :
  chain E hdrs j w ns reqs w2 ->
  forall fuel r st acc,
    List.length reqs < fuel ->
    defined_fields r -> headers r = hdrs -> holds E r j -> world st = w ->
    exists r' st',
      pages_loop E fuel (JArr acc) (r, st)
      = (Done (JArr (acc ++ ns)), (r', st')) /\
      requests st' = (requests st ++ reqs)%list /\ world st' = w2.
Proof.
  induction 1 as [j w t Ht Tt
                 | j w t link res w1 j1 ns1 ns reqs w2 Ht Tt Hlink Hfetch Hok Hpage _ IH];
    intros fuel r st acc Hfuel Hdef Hh Hholds Hw.
  - destruct fuel as [|fuel]; [simpl in Hfuel; lia|].
    destruct (toJSON_holds r st j Hholds) as (st1 & Hj & Hw1 & Hq1).
    cbn [pages_loop]. unfold bind at 1.
    rewrite (IteratorFacts.next_cases E r st j _ st1 t Hj Ht), Tt. cbn [negb].
    exists (set_json j r), st1. rewrite !app_nil_r. subst w. auto.
  - destruct fuel as [|fuel]; [simpl in Hfuel; lia|].
    destruct (toJSON_holds r st j Hholds) as (st1 & Hj & Hw1 & Hq1).
    cbn [pages_loop]. unfold bind at 1.
    rewrite (IteratorFacts.next_cases E r st j _ st1 t Hj Ht), Tt. cbn [negb].
    rewrite Hlink. cbv zeta. rewrite Hh, Hw, Hfetch.
    set (req := mkRequest link "GET" hdrs None).
    set (r1 := set_json j r).
    set (st2 := mkSt w1 (requests st ++ [req]) (parses st1)).
    assert (Hdef1 : defined_fields r1) by exact Hdef.
    unfold bind at 1. rewrite (IteratorFacts.next_page_ok E res r1 st2 Hdef1 Hok).
    set (r3 := incr_nextIndex (set_text (body res) r1)).
    destruct Hpage as (Pt & Px & Pj & Pn).
    set (fresh := mkResponse (body res) JNull (accId r1) (site r1) (sippeerId r1)
                             (options r1) (headers r1) (baseUrl r1) 0).
    assert (Hfresh : holds E fresh j1) by (repeat split; auto).
    destruct (TNS_Numbers_holds fresh st2 j1 (JArr ns1) Hfresh Pn)
      as (st3 & Hnum & Hw3 & Hq3).
    assert (Hout : outside E (call E fresh (TNS_Numbers E)) (r3, st2)
                   = (Done (JArr ns1, set_json j1 fresh), (r3, st3))).
    { unfold outside, call. cbn [fst snd]. rewrite Hnum. reflexivity. }
    rewrite bind_bind. rewrite (bind_Done _ _ _ _ _ Hout). rewrite bind_ret.
    cbn [fst JS.spread]. rewrite bind_lift_Done.
    assert (Hr3 : holds E r3 j1) by (repeat split; auto).
    destruct (IH fuel r3 st3 (acc ++ ns1)%list) as (r' & st' & Hloop & Hq & Hw');
      [simpl in Hfuel; lia | exact Hdef | exact Hh | exact Hr3 | exact Hw3 |].
    exists r', st'. rewrite Hloop. rewrite <- app_assoc. split; [reflexivity|].
    split; [|exact Hw']. rewrite Hq, Hq3. simpl. rewrite <- app_assoc. reflexivity.
Qed.

End WithEnv.

(** C7. For a client as its constructor builds it and a SIP-peer id: when
    the first page is answered with a success and carries the numbers
    [ns0], and following the next-links from it fetches the pages of a
    chain, each answered with a success, up to the first page that has no
    next-link, these pages carrying the numbers [ns] in the order of the
    fetches, then the eager operation returns [ns0] followed by [ns]; it
    has issued the request of the first page and then those of the chain,
    in order, and no other. *)
Theorem getSipPeersTNSAll_concatenates_pages
    (E : Env) login pass account site opts peer (c : CBandwidth)
    (sp pageSize : jsval) (st : St E) res0 w0 j0 ns0 ns reqs w' fuel :
  new_CBandwidth E login pass account site opts peer = Done c ->
  is_undefined sp = false ->
  JS.get (c_options c) "pageSize" = Done pageSize ->
  fetch E (tns_request c sp pageSize) (world st) = (inr res0, w0) ->
  ok res0 = true ->
  page E (body res0) j0 ns0 ->
  chain E (c_headers c) j0 w0 ns reqs w' ->
  List.length reqs < fuel ->
  exists st',
    getSipPeersTNSAll E fuel c sp st = (Done (JArr (ns0 ++ ns)), st') /\
    requests st' = (requests st ++ tns_request c sp pageSize :: reqs)%list /\
    world st' = w'.
Proof.
  intros Hc Hsp Hps Hfetch Hok (Pt & Px & Pj & Pn) Hchain Hfuel.
  assert (Hfields : is_undefined (c_accId c) = false /\
                    is_undefined (c_site c) = false /\
                    is_undefined (c_options c) = false /\
                    is_undefined (c_headers c) = false /\
                    is_undefined (c_baseUrl c) = false).
  { revert Hc. unfold new_CBandwidth.
    destruct (is_undefined login); [discriminate|].
    destruct (is_undefined pass); [discriminate|].
    destruct (is_undefined account) eqn:Ha; [discriminate|].
    destruct (is_undefined site) eqn:Hs; [discriminate|].
    intros H; injection H as <-. cbn [c_accId c_site c_options c_headers c_baseUrl].
    repeat split; auto. destruct (is_undefined opts) eqn:Ho; [reflexivity | exact Ho]. }
  destruct Hfields as (F1 & F2 & F3 & F4 & F5).
  set (st1 := mkSt w0 (requests st ++ [tns_request c sp pageSize]) (parses st)).
  set (r0 := mkResponse (body res0) JNull (c_accId c) (c_site c) sp (c_options c)
                        (c_headers c) (c_baseUrl c) 0).
  assert (Hget : getSipPeersTNS E c sp st = (Done r0, st1)).
  { unfold getSipPeersTNS. rewrite Hsp, Hps, bind_lift_Done.
    unfold bind. rewrite ClientFacts.do_fetch_unfold, Hfetch. cbn [fst snd].
    rewrite Hok. cbn [negb]. unfold new_CBWTNSResponse, new_CBWResponse.
    rewrite F1, F2, Hsp, F3, F4, F5. reflexivity. }
  assert (Hh0 : holds E r0 j0) by (repeat split; auto).
  destruct (TNS_Numbers_holds E r0 st1 j0 (JArr ns0) Hh0 Pn) as (st2 & Hnum & Hw2 & Hq2).
  destruct (pages_loop_chain E (c_headers c) j0 w0 ns reqs w' Hchain
              fuel (set_json j0 r0) st2 ns0 Hfuel)
    as (r' & st' & Hloop & Hq & Hw');
    [repeat split; auto | reflexivity | apply holds_set_json; exact Hh0
     | exact Hw2 |].
  exists st'. unfold getSipPeersTNSAll. rewrite Hsp.
  rewrite (bind_Done _ _ _ _ _ Hget).
  assert (Hcall : call E r0 (result <- TNS_Numbers E;; pages_loop E fuel result) st1
                  = (Done (JArr (ns0 ++ ns), r'), st')).
  { unfold call. rewrite (bind_Done _ _ _ _ _ Hnum), Hloop. reflexivity. }
  rewrite (bind_Done _ _ _ _ _ Hcall). split; [reflexivity|].
  split; [|exact Hw']. rewrite Hq, Hq2. simpl. rewrite <- app_assoc. reflexivity.
Qed.

End PagesFacts.

(** ** The properties at work on concrete calls *)

Module Witnesses.

Import BWResponse Bandwidth Cache Pages Fixtures.

Lemma table_xml2js_truthy (tbl : list (string * jsval)) :
  Forall (fun entry => JS.truthy (snd entry) = true) tbl ->
  forall t x, table_xml2js tbl t = inr x -> JS.truthy x = true.
Proof.
  induction 1 as [|[t' j] tbl Hj _ IH]; simpl; intros t x H.
  - discriminate.
  - destruct (t =? t')%string.
    + injection H as <-. exact Hj.
    + exact (IH t x H).
Qed.

Lemma documents_truthy :
  forall t x, xml2js env t = inr x -> JS.truthy x = true.
Proof. apply table_xml2js_truthy. repeat constructor. Qed.

(** Reads and a replacement on the wrapper of the first page. *)
Lemma cache_fresh_and_parsed_once_witness :
  fst (run env [Read; Read; SetText page2_xml; Read] (listing, answers []))
  = [Done page1_json; Done page1_json; Done page2_json] /\
  (forall j s2,
      toJSON env (snd (run env [Read; Read; SetText page2_xml; Read]
                         (listing, answers []))) = (Done j, s2) ->
      forall n, run env (repeat Read n) s2 = (repeat (Done j) n, s2)).
Proof.
  exact (CacheFacts.cache_fresh_and_parsed_once env page1_xml
           (JStr "9500") (JStr "461") (JStr "500709")
           (JObj [("pageSize", JNum 100)]) (c_headers client)
           (JStr "https://dashboard.bandwidth.com/api") listing
           [Read; Read; SetText page2_xml; Read] (answers [])
           documents_truthy eq_refl).
Defined.

(** [next()] on the first page, the second page answered. *)
Lemma next_done_iff_no_link_else_fetch_and_replace_witness :
  exists p r2 st2,
    next env (listing, answers [http_ok page2_xml]) = (Done (IterValue p), (r2, st2)) /\
    requests st2 = ([] ++ [page2_request])%list /\
    exists fresh r3,
      p (r2, st2) = (Done (IterValue fresh), (r3, st2)) /\
      text r3 = page2_xml /\ json r3 = JNull /\
      nextIndex r3 = 1 /\ text fresh = page2_xml.
Proof.
  refine (proj2 (IteratorFacts.next_done_iff_no_link_else_fetch_and_replace
                   env listing (answers [http_ok page2_xml]) page1_json
                   (set_json page1_json listing)
                   (mkSt (E := env) [http_ok page2_xml] [] [page1_xml])
                   (JStr ("Link=<" ++ page2_url ++ ">;rel=next;")) _ _ _)
                page2_url (mkHttpResponse true "OK" page2_xml) [] _ _ _ _).
  - repeat split; reflexivity.
  - vm_compute; reflexivity.
  - vm_compute; reflexivity.
  - reflexivity.
  - vm_compute; reflexivity.
  - reflexivity.
  - reflexivity.
Defined.

(** Each operation answered with a status that is not a success. *)
Lemma non_success_status_throws_status_text_witness :
  fst (getSipPeersTNS env client (JStr "500709") (answers [http_fail "Forbidden"]))
  = Thrown (CBWTNSError "Forbidden") /\
  fst (searchAndOrderDID env client city_query (answers [http_fail "Bad Request"]))
  = Thrown (Error "Bad Request") /\
  fst (checkOrder env client (JStr "o-77") (answers [http_fail "Not Found"]))
  = Thrown (Error "Not Found") /\
  fst (disconnect env client (JStr "o-77") (JArr [JStr "9194464166"])
         (answers [http_fail "Conflict"]))
  = Thrown (Error "Conflict") /\
  (forall p s1,
      next env (listing, answers [http_fail "Bad Gateway"]) = (Done (IterValue p), s1) ->
      p s1 = (Thrown (CBWTNSError "Bad Gateway"), s1)).
Proof.
  destruct (ClientFacts.non_success_status_throws_status_text env client)
    as (H1 & H2 & H3 & H4 & H5).
  split; [|split; [|split; [|split]]].
  - refine (H1 (JStr "500709") (answers [http_fail "Forbidden"]) _ _
              (tns_request client (JStr "500709") (JNum 100))
              (mkHttpResponse false "Forbidden" "") []
              (surjective_pairing _) _ eq_refl eq_refl).
    vm_compute; reflexivity.
  - refine (H2 city_query (answers [http_fail "Bad Request"]) _ _
              (mkRequest "https://dashboard.bandwidth.com/api/accounts/9500/orders"
                 "POST" (c_headers client)
                 (Some (compact_js2xml
                          (city_order client (JStr "CARY") (JStr "NC") (JNum 2)))))
              (mkHttpResponse false "Bad Request" "") []
              (surjective_pairing _) _ eq_refl eq_refl).
    vm_compute; reflexivity.
  - refine (H3 (JStr "o-77") (answers [http_fail "Not Found"]) _ _
              (mkRequest
                 "https://dashboard.bandwidth.com/api/accounts/9500/orders/o-77?tndetail=true"
                 "GET" (c_headers client) None)
              (mkHttpResponse false "Not Found" "") []
              (surjective_pairing _) _ eq_refl eq_refl).
    vm_compute; reflexivity.
  - refine (H4 (JStr "o-77") (JArr [JStr "9194464166"])
              (answers [http_fail "Conflict"]) _ _
              (disconnect_request client
                 (compact_js2xml
                    (disconnect_order (JStr "o-77") (JArr [JStr "9194464166"]))))
              (mkHttpResponse false "Conflict" "") []
              (surjective_pairing _) _ eq_refl eq_refl).
    vm_compute; reflexivity.
  - intros p s1 Hnext.
    refine (H5 listing (answers [http_fail "Bad Gateway"]) p s1 page2_request
              (mkHttpResponse false "Bad Gateway" "") [] Hnext _ eq_refl eq_refl).
    revert Hnext. vm_compute. intros H; injection H as _ <-. reflexivity.
Defined.

(** The first page and the page behind its next-link. *)
Lemma getSipPeersTNSAll_concatenates_pages_witness :
  exists st',
    getSipPeersTNSAll env 2 client (JStr "500709")
      (answers [http_ok page1_xml; http_ok page2_xml])
    = (Done (JArr ([JStr "9194464166"; JStr "9194464167"] ++ [JStr "9194464168"] ++ [])),
       st') /\
    requests st'
    = ([] ++ tns_request client (JStr "500709") (JNum 100) :: [page2_request])%list /\
    world st' = [].
Proof.
  refine (PagesFacts.getSipPeersTNSAll_concatenates_pages env
            (JStr "user") (JStr "secret") (JStr "9500") (JStr "461") JUndef
            (JStr "500709") client (JStr "500709") (JNum 100)
            (answers [http_ok page1_xml; http_ok page2_xml])
            (mkHttpResponse true "OK" page1_xml) [http_ok page2_xml]
            page1_json [JStr "9194464166"; JStr "9194464167"]
            ([JStr "9194464168"] ++ []) [page2_request] [] 2
            eq_refl eq_refl eq_refl eq_refl eq_refl _ _ _).
  - repeat split; reflexivity.
  - refine (chain_more env (c_headers client) page1_json [http_ok page2_xml]
              (JStr ("Link=<" ++ page2_url ++ ">;rel=next;")) page2_url
              (mkHttpResponse true "OK" page2_xml) [] page2_json
              [JStr "9194464168"] [] [] [] _ _ _ _ _ _
              (chain_last env (c_headers client) page2_json [] JUndef _ _));
      try reflexivity.
    repeat split; reflexivity.
  - simpl; lia.
Defined.

(** The completed order of two numbers. *)
Lemma unified_response_of_two_numbers_witness :
  Response complete2_with_id
  = Done (JObj [("dids",
                 JArr [JObj [("peerId", JStr "500709"); ("didId", JStr "o-77");
                             ("e164", JStr ("+1" ++ "9194464166"));
                             ("countryCodeA3", JStr "USA");
                             ("areaCode", JStr "919")];
                       JObj [("peerId", JStr "500709"); ("didId", JStr "o-77");
                             ("e164", JStr ("+1" ++ "9194464167"));
                             ("countryCodeA3", JStr "USA");
                             ("areaCode", JStr "919")]]);
                ("resultCount", JNum 2)]).
Proof.
  exact (UnifiedFacts.unified_response_of_two_numbers complete2_with_id
           (JObj [("FullNumber", el (JStr "9194464166"))])
           (JObj [("FullNumber", el (JStr "9194464167"))])
           (JStr "500709") (JStr "o-77") "9194464166" "9194464167"
           "2 numbers ordered in " "919" ""
           eq_refl eq_refl eq_refl eq_refl eq_refl eq_refl eq_refl eq_refl eq_refl).
Defined.

(** An order that comes back ['BACKORDERED']. *)
Lemma allocate_hangs_unless_received_witness :
  fst (allocate env client city_query
         (answers [http_ok (order_xml "BACKORDERED")])) = Hang.
Proof.
  refine (f_equal fst
            (proj2 (AllocateFacts.allocate_hangs_unless_received env client city_query
                      (answers [http_ok (order_xml "BACKORDERED")])
                      (mkResponse (order_xml "BACKORDERED") (order_json "BACKORDERED")
                         (JStr "9500") (JStr "461") (JStr "500709")
                         (JObj [("pageSize", JNum 100)]) (c_headers client)
                         (JStr "https://dashboard.bandwidth.com/api") 0)
                      (snd (searchAndOrderDID env client city_query
                              (answers [http_ok (order_xml "BACKORDERED")])))
                      _ _))).
  - vm_compute; reflexivity.
  - vm_compute. discriminate.
Defined.

(** A client built without a SIP-peer id. *)
Lemma missing_parameter_throws_before_any_request_witness :
  exists c,
    new_CBandwidth env (JStr "user") (JStr "secret") (JStr "9500") (JStr "461")
                   JUndef JUndef = Done c /\
    c_sippeerId c = JUndef.
Proof.
  destruct (ParameterFacts.missing_parameter_throws_before_any_request env)
    as (_ & _ & _ & _ & _ & _ & _ & _ & _ & H).
  exact (H (JStr "user") (JStr "secret") (JStr "9500") (JStr "461") JUndef
           eq_refl eq_refl eq_refl eq_refl).
Defined.

(** [disconnect] with an empty array: the request goes out, with an empty
    list of numbers. *)
Lemma disconnect_checks_array_then_sends_it_witness :
  requests (snd (disconnect env client (JStr "o-77") (JArr [])
                   (answers [http_ok disconnect_xml])))
  = ([] ++ [disconnect_request client
              (js2xml env (disconnect_order (JStr "o-77") (JArr [])))])%list /\
  JS.path (disconnect_order (JStr "o-77") (JArr []))
    ["DisconnectTelephoneNumberOrder"; "DisconnectTelephoneNumberOrderType";
     "TelephoneNumberList"; "TelephoneNumber"] = Done (JArr []).
Proof.
  exact (proj2 (ParameterFacts.disconnect_checks_array_then_sends_it env client
                  (JStr "o-77") (JArr []) (answers [http_ok disconnect_xml])
                  eq_refl)
               eq_refl).
Defined.

End Witnesses.

(* ===================================================================== *)
(** * Further properties of the code *)
(* ===================================================================== *)

(** ** The area code and the unified result at their edges *)

Module AreaCodeFacts.

Import BWResponse Bandwidth.


Lemma substring_from (p m q : string) :
  String.substring (String.length p) (String.length m) (p ++ m ++ q) = m.
Proof. apply UnifiedFacts.substring_middle. Qed.

(** X2. When the first closing parenthesis of the summary comes before its
    first opening one, [substring] swaps its two indices: the area code
    returned is the stretch from that closing parenthesis to that opening
    one, both included. *)
Theorem parseAreaCode_reversed_parentheses (a b c : string) :
  JS.indexOf "("%char a = None ->
  JS.indexOf ")"%char a = None ->
  JS.indexOf "("%char b = None ->
  _parseAreaCode (JStr (a ++ ")" ++ b ++ "(" ++ c))
  = Done (JStr (")" ++ b ++ "(")).
Proof.
  intros H1 H2 H3. unfold _parseAreaCode.
  rewrite (UnifiedFacts.indexOf_append_skip _ a _ H1).
  rewrite (UnifiedFacts.indexOf_append_skip _ a _ H2).
  change (JS.indexOf ")" (")" ++ b ++ "(" ++ c)) with (Some 0).
  change (JS.indexOf "(" (")" ++ b ++ "(" ++ c))
    with (match JS.indexOf "(" (b ++ "(" ++ c) with
          | Some i => Some (S i)
          | None => None
          end).
  rewrite (UnifiedFacts.indexOf_append_skip _ b _ H3).
  change (JS.indexOf "(" ("(" ++ c)) with (Some 0).
  unfold JS.substring.
  set (s := a ++ ")" ++ b ++ "(" ++ c).
  assert (Hlen : String.length s
                 = String.length a + 1 + String.length b + 1 + String.length c).
  { unfold s. rewrite !UnifiedFacts.length_append. simpl. lia. }
  rewrite Hlen.
  replace (Nat.min (String.length a + S (String.length b + 0) + 1) _)
    with (String.length a + String.length b + 2) by lia.
  replace (Nat.min (String.length a + 0) _) with (String.length a) by lia.
  replace (Nat.min (String.length a + String.length b + 2) (String.length a))
    with (String.length a) by lia.
  replace (Nat.max (String.length a + String.length b + 2) (String.length a)
           - String.length a)
    with (String.length (")" ++ b ++ "("))
    by (rewrite !UnifiedFacts.length_append; simpl; lia).
  replace s with (a ++ (")" ++ b ++ "(") ++ c).
  - rewrite substring_from. reflexivity.
  - unfold s. simpl. do 2 f_equal. apply UnifiedFacts.append_assoc.
Qed.

(** X3. A completed order with a single number, which the parser gives as
    an object and not as a list: the unified result wraps it, with
    [resultCount] 1 and one entry. *)
Theorem Response_of_single_number
    (obj tn peer oid summary area : jsval) (d : string) :
  JS.path obj ["OrderResponse"; "CompletedNumbers"; "TelephoneNumber"] = Done tn ->
  JS.is_array tn = false ->
  JS.path tn ["FullNumber"; "_text"] = Done (JStr d) ->
  JS.path obj ["OrderResponse"; "Order"; "PeerId"; "_text"] = Done peer ->
  JS.get obj "order_id" = Done oid ->
  JS.path obj ["OrderResponse"; "Summary"; "_text"] = Done summary ->
  _parseAreaCode summary = Done area ->
  Response obj
  = Done (JObj [("dids", JArr [did peer oid d area]); ("resultCount", JNum 1)]).
Proof.
  intros Hn Ha Hd Hp Ho Hs Hc. unfold Response. rewrite Hn, obind_Done.
  assert (Hwrap : JS.obind (JS.path tn ["FullNumber"; "_text"])
                    (fun t => Done [JObj [("FullNumber", JObj [("_text", t)])]])
                  = Done [JObj [("FullNumber", JObj [("_text", JStr d)])]])
    by (rewrite Hd; reflexivity).
  assert (Hentry : did_entry obj (JObj [("FullNumber", JObj [("_text", JStr d)])])
                   = Done (did peer oid d area)).
  { unfold did_entry. rewrite Hp, obind_Done, Ho, obind_Done.
    change (JS.path (JObj [("FullNumber", JObj [("_text", JStr d)])])
              ["FullNumber"; "_text"]) with (Done (JStr d)).
    rewrite obind_Done, Hs, obind_Done, Hc. reflexivity. }
  destruct tn; try discriminate Ha; rewrite Hwrap, obind_Done;
    cbn [JS.mapM]; rewrite Hentry; reflexivity.
Qed.

(** X4. A completed order with any number of completed numbers and a
    summary of the shape [pre(code)post]: the unified result has one entry
    per number, in the order of the numbers, each with the area code
    [code], and [resultCount] is their count. *)
Theorem Response_one_entry_per_number
    (obj peer oid : jsval) (items : list jsval) (ds : list string)
    (pre ac post : string) :
  JS.path obj ["OrderResponse"; "CompletedNumbers"; "TelephoneNumber"]
    = Done (JArr items) ->
  Forall2 (fun item d => JS.path item ["FullNumber"; "_text"] = Done (JStr d))
          items ds ->
  JS.path obj ["OrderResponse"; "Order"; "PeerId"; "_text"] = Done peer ->
  JS.get obj "order_id" = Done oid ->
  JS.path obj ["OrderResponse"; "Summary"; "_text"]
    = Done (JStr (pre ++ "(" ++ ac ++ ")" ++ post)) ->
  JS.indexOf "("%char pre = None ->
  JS.indexOf ")"%char pre = None ->
  JS.indexOf ")"%char ac = None ->
  Response obj
  = Done (JObj [("dids", JArr (map (fun d => did peer oid d (JStr ac)) ds));
                ("resultCount", JNum (Z.of_nat (List.length items)))]).
Proof.
  intros Hn Hf Hp Ho Hs P1 P2 P3.
  rewrite (Forall2_length Hf).
  exact (UnifiedFacts.Response_of_list obj items ds peer oid (JStr ac) _ Hn Hf
           Hp Ho Hs (UnifiedFacts.parseAreaCode_parenthesized pre ac post P1 P2 P3)).
Qed.

(** X5. A listing that holds no number at all, so that the parsed body has
    no [SipPeerTelephoneNumber]: the accessor throws a [TypeError] instead
    of returning an empty list. *)
Theorem TNS_Numbers_of_empty_listing_throws (j : jsval) :
  JS.path j ["SipPeerTelephoneNumbersResponse"; "SipPeerTelephoneNumbers";
             "SipPeerTelephoneNumber"] = Done JUndef ->
  TNS_Numbers_of j = Thrown TypeError.
Proof. intros H. unfold TNS_Numbers_of. rewrite H. reflexivity. Qed.

End AreaCodeFacts.

(** ** The regular expression of the next-link *)

Module RegexFacts.

Import BWResponse.

Lemma upto_last_gt_none (s : string) :
  JS.indexOf ">"%char s = None -> JS.upto_last_gt s = None.
Proof.
  induction s as [|c s IH]; simpl; intros H; [reflexivity|].
  destruct (Ascii.eqb c ">") eqn:Hc; [discriminate|].
  destruct (JS.indexOf ">" s); [discriminate|].
  rewrite (IH eq_refl). destruct (JS.is_line_terminator c); reflexivity.
Qed.

Lemma one_line_head (c : ascii) (s : string) :
  JS.indexOf "010"%char (String c s) = None ->
  JS.indexOf "013"%char (String c s) = None ->
  JS.is_line_terminator c = false /\
  JS.indexOf "010"%char s = None /\ JS.indexOf "013"%char s = None.
Proof.
  simpl. unfold JS.is_line_terminator.
  destruct (Ascii.eqb c "010"); [discriminate|].
  destruct (Ascii.eqb c "013"); [discriminate|].
  destruct (JS.indexOf "010" s); [discriminate|].
  destruct (JS.indexOf "013" s); [discriminate|]. auto.
Qed.

Lemma upto_last_gt_line (u post : string) :
  JS.indexOf "010"%char u = None ->
  JS.indexOf "013"%char u = None ->
  JS.indexOf ">"%char post = None ->
  JS.upto_last_gt (u ++ ">" ++ post) = Some u.
Proof.
  intros H1 H2 Hp. induction u as [|c u IH].
  - simpl. rewrite (upto_last_gt_none post Hp). reflexivity.
  - destruct (one_line_head c u H1 H2) as (Hc & H1' & H2').
    specialize (IH H1' H2'). simpl in IH |- *. rewrite Hc, IH. reflexivity.
Qed.

(** X6. The link between angle brackets: for a text with no [<] before
    the opening bracket, a link that is not empty and has no line break,
    and no [>] after the closing bracket, the expression [/<(.+)>/]
    captures exactly the link.  The link itself may hold [<] and [>]: the
    group runs to the last [>] of the line. *)
Theorem regex_exec_captures_link (pre u post : string) :
  JS.indexOf "<"%char pre = None ->
  u <> "" ->
  JS.indexOf "010"%char u = None ->
  JS.indexOf "013"%char u = None ->
  JS.indexOf ">"%char post = None ->
  JS.regex_exec (pre ++ "<" ++ u ++ ">" ++ post) = Some u.
Proof.
  intros Hpre Hu H1 H2 Hpost. induction pre as [|c pre IH].
  - simpl. destruct u as [|c u]; [contradiction|].
    destruct (one_line_head c u H1 H2) as (Hc & H1' & H2').
    pose proof (upto_last_gt_line u post H1' H2' Hpost) as Hg.
    simpl in Hg |- *. rewrite Hc, Hg. reflexivity.
  - simpl in Hpre. simpl.
    destruct (Ascii.eqb c "<"); [discriminate|].
    destruct (JS.indexOf "<" pre); [discriminate|].
    apply IH. reflexivity.
Qed.

Lemma regex_exec_none (s : string) :
  JS.indexOf "<"%char s = None -> JS.regex_exec s = None.
Proof.
  induction s as [|c s IH]; simpl; intros H; [reflexivity|].
  destruct (Ascii.eqb c "<"); [discriminate|].
  destruct (JS.indexOf "<" s); [discriminate|]. apply IH. reflexivity.
Qed.

(** X7. A next-link whose text holds no [<], a bare URL for one: [next()]
    throws a [TypeError] when it indexes the failed match, and no request
    goes out. *)
Theorem next_throws_on_link_without_brackets
    (E : Env) (r : CBWResponse) (st : St E) j r1 st1 (s : string) :
  toJSON E (r, st) = (Done j, (r1, st1)) ->
  next_link_text j = Done (JStr s) ->
  s <> "" ->
  JS.indexOf "<"%char s = None ->
  next E (r, st) = (Thrown TypeError, (r1, st1)) /\
  requests st1 = requests st.
Proof.
  intros Hj Ht Hs Hlt.
  rewrite (IteratorFacts.next_cases E r st j r1 st1 (JStr s) Hj Ht).
  assert (Tt : JS.truthy (JStr s) = true).
  { simpl. apply String.eqb_neq in Hs. rewrite Hs. reflexivity. }
  rewrite Tt. cbn [negb JS.toString]. rewrite (regex_exec_none s Hlt).
  split; [reflexivity|].
  pose proof (ClientFacts.toJSON_state E r st) as [_ Hq].
  rewrite Hj in Hq. exact Hq.
Qed.

End RegexFacts.

(** ** The requests of the client and the wrappers it returns *)

Module RequestFacts.

Import BWResponse Bandwidth.

Lemma get_update_same (k : string) (x : jsval) (fields : list (string * jsval)) :
  JS.get (JObj (JS.update k x fields)) k = Done x.
Proof.
  unfold JS.get. induction fields as [|[k0 y] rest IH]; simpl.
  - rewrite String.eqb_refl. reflexivity.
  - destruct (k =? k0) eqn:Hk; simpl; rewrite Hk; [reflexivity | exact IH].
Qed.

Lemma get_update_other (k k' : string) (x : jsval) (fields : list (string * jsval)) :
  (k =? k') = false ->
  JS.get (JObj (JS.update k' x fields)) k = JS.get (JObj fields) k.
Proof.
  intros Hne. unfold JS.get. induction fields as [|[k0 y] rest IH]; simpl.
  - rewrite Hne. reflexivity.
  - destruct (k' =? k0) eqn:Hk; simpl.
    + apply String.eqb_eq in Hk. subst k0. rewrite Hne. reflexivity.
    + destruct (k =? k0); [reflexivity | exact IH].
Qed.

Section WithEnv.

Variable E : Env.

(** [searchAndOrderDID] on an object, once its four properties are read. *)
Lemma searchAndOrderDID_fields (c : CBandwidth) fields (st : St E)
      given area city state :
  JS.get (JObj fields) "quantity" = Done given ->
  JS.get (JObj fields) "areaCode" = Done area ->
  JS.get (JObj fields) "city" = Done city ->
  JS.get (JObj fields) "state" = Done state ->
  searchAndOrderDID E c (JObj fields) st =
  (let quantity := if negb (JS.truthy given) || isNaN E given
                   then JNum 1 else given in
   let obj := if JS.truthy area
              then area_code_order c area quantity else JNull in
   let obj := if JS.truthy city && JS.truthy state
              then city_order c city state quantity else obj in
   if negb (JS.truthy obj) then throw (Error "Not enough parameters")
   else
     res <- do_fetch E
              (mkRequest (JS.toString (c_baseUrl c) ++ "/accounts/"
                            ++ JS.toString (c_accId c) ++ "/orders")
                         "POST" (c_headers c) (Some (js2xml E obj))) ;;
     if negb (ok res) then throw (Error (statusText res))
     else new_CBWOrderResponse E (body res) (c_accId c) (c_site c)
            (c_sippeerId c) (c_options c) (c_headers c) (c_baseUrl c)) st.
Proof.
  intros Hq Ha Hc Hs. unfold searchAndOrderDID. cbn [is_undefined].
  rewrite Hq, bind_lift_Done. cbn [JS.set]. rewrite bind_lift_Done.
  rewrite get_update_same, bind_lift_Done.
  rewrite (get_update_other "areaCode" "quantity") by reflexivity.
  rewrite Ha, bind_lift_Done.
  rewrite (get_update_other "city" "quantity") by reflexivity.
  rewrite Hc, bind_lift_Done.
  rewrite (get_update_other "state" "quantity") by reflexivity.
  rewrite Hs, bind_lift_Done. reflexivity.
Qed.

(** After a success response the operation goes on with the wrapper. *)
Lemma fetch_ok_continues {A} (req0 : Request) (err : string -> exn)
      (k : HttpResponse -> M (St E) A) (st : St E) out st' req res w :
  (forall res0 s, requests (snd (k res0 s)) = requests s) ->
  bind (do_fetch E req0)
       (fun res0 => if negb (ok res0) then throw (err (statusText res0))
                    else k res0) st = (out, st') ->
  requests st' = (requests st ++ [req])%list ->
  fetch E req (world st) = (inr res, w) ->
  ok res = true ->
  k res (mkSt w (requests st ++ [req]) (parses st)) = (out, st').
Proof.
  intros Hk Hrun Hreq Hfetch Hok.
  unfold bind in Hrun. rewrite ClientFacts.do_fetch_unfold in Hrun.
  assert (Heq : req0 = req).
  { destruct (fst (fetch E req0 (world st))) as [e|res0].
    - injection Hrun as _ <-. simpl in Hreq.
      apply app_inj_tail in Hreq. tauto.
    - destruct (negb (ok res0)).
      + injection Hrun as _ <-. simpl in Hreq.
        apply app_inj_tail in Hreq. tauto.
      + pose proof (Hk res0 (mkSt (snd (fetch E req0 (world st)))
                               (requests st ++ [req0]) (parses st))) as H.
        rewrite Hrun in H. simpl in H. rewrite H in Hreq.
        apply app_inj_tail in Hreq. tauto. }
  subst req0. rewrite Hfetch in Hrun. simpl in Hrun. rewrite Hok in Hrun.
  exact Hrun.
Qed.

Lemma new_parsed_without_sippeerId t a s o h b (st : St E) :
  is_undefined a = false -> is_undefined s = false ->
  new_parsed E t a s JUndef o h b st = (Thrown (BWResponse.v "sippeerId"), st).
Proof.
  intros Ha Hs. unfold new_parsed, new_CBWResponse. rewrite Ha, Hs. reflexivity.
Qed.

End WithEnv.

(** X8. A query object with no area code and without both a city and a
    state: [searchAndOrderDID] throws ['Not enough parameters'] and issues
    no request. *)
Theorem searchAndOrderDID_not_enough_parameters
    (E : Env) (c : CBandwidth) fields (st : St E) area city state :
  JS.get (JObj fields) "areaCode" = Done area ->
  JS.get (JObj fields) "city" = Done city ->
  JS.get (JObj fields) "state" = Done state ->
  JS.truthy area = false ->
  JS.truthy city && JS.truthy state = false ->
  searchAndOrderDID E c (JObj fields) st
  = (Thrown (Error "Not enough parameters"), st).
Proof.
  intros Ha Hc Hs Ta Tcs.
  assert (Hq : exists given, JS.get (JObj fields) "quantity" = Done given)
    by (unfold JS.get; destruct (JS.assoc "quantity" fields); eauto).
  destruct Hq as [given Hq].
  rewrite (searchAndOrderDID_fields E c fields st given area city state Hq Ha Hc Hs).
  cbv zeta. rewrite Ta, Tcs. reflexivity.
Qed.

(** X9. A query with a city and a state: the one request is the POST of an
    order by city and state to [/accounts/<id>/orders], whether an area
    code is given too or not, and its quantity is 1 when the query has
    none, a falsy one, or one that is not a number. *)
Theorem searchAndOrderDID_orders_by_city_and_state
    (E : Env) (c : CBandwidth) fields (st : St E) given area city state :
  JS.get (JObj fields) "quantity" = Done given ->
  JS.get (JObj fields) "areaCode" = Done area ->
  JS.get (JObj fields) "city" = Done city ->
  JS.get (JObj fields) "state" = Done state ->
  JS.truthy city = true ->
  JS.truthy state = true ->
  requests (snd (searchAndOrderDID E c (JObj fields) st))
  = (requests st
     ++ [mkRequest (JS.toString (c_baseUrl c) ++ "/accounts/"
                      ++ JS.toString (c_accId c) ++ "/orders")
                   "POST" (c_headers c)
                   (Some (js2xml E
                            (city_order c city state
                               (if negb (JS.truthy given) || isNaN E given
                                then JNum 1 else given))))])%list.
Proof.
  intros Hq Ha Hc Hs Tc Ts.
  rewrite (searchAndOrderDID_fields E c fields st given area city state Hq Ha Hc Hs).
  cbv zeta. rewrite Tc, Ts. cbn [andb JS.truthy city_order negb].
  unfold bind. rewrite ClientFacts.do_fetch_unfold.
  destruct (fst (fetch E _ (world st))) as [e|res]; [reflexivity|].
  destruct (negb (ok res)); [reflexivity|].
  unfold new_CBWOrderResponse.
  rewrite (proj2 (ClientFacts.new_parsed_state E _ _ _ _ _ _ _ _)). reflexivity.
Qed.

(** X10. A query with an area code and without both a city and a state:
    the one request is the POST of an order by area code, with the same
    default for the quantity. *)
Theorem searchAndOrderDID_orders_by_area_code
    (E : Env) (c : CBandwidth) fields (st : St E) given area city state :
  JS.get (JObj fields) "quantity" = Done given ->
  JS.get (JObj fields) "areaCode" = Done area ->
  JS.get (JObj fields) "city" = Done city ->
  JS.get (JObj fields) "state" = Done state ->
  JS.truthy area = true ->
  JS.truthy city && JS.truthy state = false ->
  requests (snd (searchAndOrderDID E c (JObj fields) st))
  = (requests st
     ++ [mkRequest (JS.toString (c_baseUrl c) ++ "/accounts/"
                      ++ JS.toString (c_accId c) ++ "/orders")
                   "POST" (c_headers c)
                   (Some (js2xml E
                            (area_code_order c area
                               (if negb (JS.truthy given) || isNaN E given
                                then JNum 1 else given))))])%list.
Proof.
  intros Hq Ha Hc Hs Ta Tcs.
  rewrite (searchAndOrderDID_fields E c fields st given area city state Hq Ha Hc Hs).
  cbv zeta. rewrite Ta, Tcs. cbn [JS.truthy area_code_order negb].
  unfold bind. rewrite ClientFacts.do_fetch_unfold.
  destruct (fst (fetch E _ (world st))) as [e|res]; [reflexivity|].
  destruct (negb (ok res)); [reflexivity|].
  unfold new_CBWOrderResponse.
  rewrite (proj2 (ClientFacts.new_parsed_state E _ _ _ _ _ _ _ _)). reflexivity.
Qed.

(** X11. A client built without a SIP-peer id: [searchAndOrderDID],
    [checkOrder] and [disconnect] do send their request, and when it is
    answered with a success they throw, from the constructor of the
    response wrapper, the error on the parameter [sippeerId]. *)
Theorem missing_client_sippeerId_fails_after_the_request
    (E : Env) (c : CBandwidth) :
  c_sippeerId c = JUndef ->
  is_undefined (c_accId c) = false ->
  is_undefined (c_site c) = false ->
  (forall q st out st' req res w,
      searchAndOrderDID E c q st = (out, st') ->
      requests st' = (requests st ++ [req])%list ->
      fetch E req (world st) = (inr res, w) -> ok res = true ->
      out = Thrown (BWResponse.v "sippeerId")) /\
  (forall orderid st out st' req res w,
      checkOrder E c orderid st = (out, st') ->
      requests st' = (requests st ++ [req])%list ->
      fetch E req (world st) = (inr res, w) -> ok res = true ->
      out = Thrown (BWResponse.v "sippeerId")) /\
  (forall orderid numbers st out st' req res w,
      disconnect E c orderid numbers st = (out, st') ->
      requests st' = (requests st ++ [req])%list ->
      fetch E req (world st) = (inr res, w) -> ok res = true ->
      out = Thrown (BWResponse.v "sippeerId")).
Proof.
  intros Hsp Hacc Hsite.
  assert (Hparsed : forall t a s p o h b (st : St E),
             requests (snd (new_parsed E t a s p o h b st)) = requests st)
    by (intros; apply ClientFacts.new_parsed_state).
  assert (Hlate : forall t o h b (st : St E) out st',
             new_parsed E t (c_accId c) (c_site c) (c_sippeerId c) o h b st
             = (out, st') -> out = Thrown (BWResponse.v "sippeerId")).
  { intros t o h b st out st'. rewrite Hsp.
    rewrite (new_parsed_without_sippeerId E t _ _ o h b st Hacc Hsite).
    intros H; injection H as <- _. reflexivity. }
  repeat split.
  - intros q st out st' req res w Hrun Hreq Hfetch Hok.
    unfold searchAndOrderDID in Hrun.
    repeat (rewrite ClientFacts.bind_lift in Hrun;
            match type of Hrun with
            | context [match ?o with Done _ => _ | _ => _ end] =>
                destruct o;
                try (injection Hrun as _ <-;
                     destruct (ClientFacts.not_own_tail _ _ Hreq))
            end).
    match type of Hrun with
    | context [if negb (JS.truthy ?obj) then _ else _] =>
        destruct (negb (JS.truthy obj))
    end.
    { injection Hrun as _ <-. destruct (ClientFacts.not_own_tail _ _ Hreq). }
    refine (Hlate _ _ _ _ _ out st'
              (fetch_ok_continues E _ Error _ st out st' req res w _ Hrun Hreq Hfetch Hok)).
    intros res0 s. apply Hparsed.
  - intros orderid st out st' req res w Hrun Hreq Hfetch Hok.
    unfold checkOrder in Hrun.
    destruct (is_undefined orderid).
    { injection Hrun as _ <-. destruct (ClientFacts.not_own_tail _ _ Hreq). }
    refine (Hlate _ _ _ _ _ out st'
              (fetch_ok_continues E _ Error _ st out st' req res w _ Hrun Hreq Hfetch Hok)).
    intros res0 s. apply Hparsed.
  - intros orderid numbers st out st' req res w Hrun Hreq Hfetch Hok.
    unfold disconnect in Hrun.
    destruct (is_undefined orderid).
    { injection Hrun as _ <-. destruct (ClientFacts.not_own_tail _ _ Hreq). }
    destruct (is_undefined numbers).
    { injection Hrun as _ <-. destruct (ClientFacts.not_own_tail _ _ Hreq). }
    destruct (negb (JS.is_array numbers)).
    { injection Hrun as _ <-. destruct (ClientFacts.not_own_tail _ _ Hreq). }
    cbv zeta in Hrun.
    refine (Hlate _ _ _ _ _ out st'
              (fetch_ok_continues E _ Error _ st out st' req res w _ Hrun Hreq Hfetch Hok)).
    intros res0 s. apply Hparsed.
Qed.

End RequestFacts.

(** ** The wrappers the client returns *)

Module WrapperFacts.

Import BWResponse Bandwidth.

Lemma new_CBWResponse_Done t a s p o h b r :
  new_CBWResponse t a s p o h b = Done r ->
  r = mkResponse t JNull a s p o h b 0.
Proof.
  unfold new_CBWResponse.
  repeat match goal with
         | |- context [if ?c then _ else _] => destruct c; try discriminate
         end.
  intros H; injection H as <-. reflexivity.
Qed.

Section WithEnv.

Variable E : Env.

(** The constructor of a parsed wrapper, by the text it is given. *)
Lemma new_parsed_cases t a s p o h b r0 (st : St E) :
  new_CBWResponse t a s p o h b = Done r0 ->
  new_parsed E t a s p o h b st =
  if negb (JS.truthy (JStr t)) then (Done r0, st)
  else match xml2js E t with
       | inl e =>
           (Thrown e, mkSt (world st) (requests st) (parses st ++ [t]))
       | inr j =>
           (Done (set_json j r0),
            mkSt (world st) (requests st) (parses st ++ [t]))
       end.
Proof.
  intros Hnew. unfold new_parsed. rewrite Hnew, bind_lift_Done.
  apply new_CBWResponse_Done in Hnew. subst r0.
  unfold bind, call. rewrite CacheFacts.toJSON_unfold.
  cbn [text textValue json JS.truthy negb].
  destruct (negb (negb (t =? ""))); [reflexivity|].
  destruct (xml2js E t); reflexivity.
Qed.

Lemma checkOrder_ok (c : CBandwidth) (id : jsval) (st : St E) res w :
  is_undefined id = false ->
  fetch E (mkRequest (JS.toString (c_baseUrl c) ++ "/accounts/"
                        ++ JS.toString (c_accId c) ++ "/orders/"
                        ++ JS.toString id ++ "?tndetail=true")
                     "GET" (c_headers c) None) (world st) = (inr res, w) ->
  ok res = true ->
  checkOrder E c id st
  = new_CBWCheckOrderResponse E (body res) (c_accId c) (c_site c)
      (c_sippeerId c) (c_options c) (c_headers c) (c_baseUrl c)
      (mkSt w (requests st
               ++ [mkRequest (JS.toString (c_baseUrl c) ++ "/accounts/"
                                ++ JS.toString (c_accId c) ++ "/orders/"
                                ++ JS.toString id ++ "?tndetail=true")
                             "GET" (c_headers c) None]) (parses st)).
Proof.
  intros Hid Hfetch Hok. unfold checkOrder. rewrite Hid.
  unfold bind. rewrite ClientFacts.do_fetch_unfold, Hfetch. cbn [fst snd].
  rewrite Hok. reflexivity.
Qed.

End WithEnv.

(** X12. [getSipPeersTNS] never calls the parser; the wrapper it returns
    holds no parse yet, starts at index 0, and carries the SIP-peer id of
    the call, not the one of the client. *)
Theorem getSipPeersTNS_returns_unparsed_wrapper
    (E : Env) (c : CBandwidth) (sp : jsval) (st : St E) :
  parses (snd (getSipPeersTNS E c sp st)) = parses st /\
  (forall r st',
      getSipPeersTNS E c sp st = (Done r, st') ->
      json r = JNull /\ nextIndex r = 0 /\ sippeerId r = sp /\
      headers r = c_headers c).
Proof.
  unfold getSipPeersTNS. destruct (is_undefined sp).
  { split; [reflexivity | intros r st' H; discriminate]. }
  rewrite ClientFacts.bind_lift.
  destruct (JS.get (c_options c) "pageSize") as [ps|e| |];
    try (split; [reflexivity | intros r st' H; discriminate]).
  unfold bind. rewrite ClientFacts.do_fetch_unfold.
  destruct (fst (fetch E _ (world st))) as [e|res];
    [split; [reflexivity | intros r st' H; discriminate]|].
  destruct (negb (ok res));
    [split; [reflexivity | intros r st' H; discriminate]|].
  unfold lift. split; [reflexivity|].
  intros r st' H. injection H as H _.
  apply new_CBWResponse_Done in H. subst r. auto.
Qed.

(** X13. [checkOrder] on a success response with a body that parses: the
    body is parsed once, at construction, and the wrapper returned holds
    that text and that parse, from which [Status] and [Numbers] read. *)
Theorem checkOrder_parses_the_body_once
    (E : Env) (c : CBandwidth) (id : jsval) (st : St E) res w j r0 :
  is_undefined id = false ->
  fetch E (mkRequest (JS.toString (c_baseUrl c) ++ "/accounts/"
                        ++ JS.toString (c_accId c) ++ "/orders/"
                        ++ JS.toString id ++ "?tndetail=true")
                     "GET" (c_headers c) None) (world st) = (inr res, w) ->
  ok res = true ->
  body res <> "" ->
  xml2js E (body res) = inr j ->
  new_CBWResponse (body res) (c_accId c) (c_site c) (c_sippeerId c)
                  (c_options c) (c_headers c) (c_baseUrl c) = Done r0 ->
  exists r st',
    checkOrder E c id st = (Done r, st') /\
    text r = body res /\ json r = j /\
    parses st' = (parses st ++ [body res])%list /\
    world st' = w.
Proof.
  intros Hid Hfetch Hok Hbody Hx Hnew.
  rewrite (checkOrder_ok E c id st res w Hid Hfetch Hok).
  unfold new_CBWCheckOrderResponse. rewrite (new_parsed_cases E _ _ _ _ _ _ _ r0 _ Hnew).
  simpl JS.truthy. apply String.eqb_neq in Hbody. rewrite Hbody. cbn [negb].
  rewrite Hx. apply new_CBWResponse_Done in Hnew. subst r0.
  do 2 eexists. split; [reflexivity|]. repeat split.
Qed.

(** X14. [checkOrder] on a success response whose body the parser
    refuses: the call throws the error of the parser, after the request. *)
Theorem checkOrder_throws_on_malformed_body
    (E : Env) (c : CBandwidth) (id : jsval) (st : St E) res w e r0 :
  is_undefined id = false ->
  fetch E (mkRequest (JS.toString (c_baseUrl c) ++ "/accounts/"
                        ++ JS.toString (c_accId c) ++ "/orders/"
                        ++ JS.toString id ++ "?tndetail=true")
                     "GET" (c_headers c) None) (world st) = (inr res, w) ->
  ok res = true ->
  body res <> "" ->
  xml2js E (body res) = inl e ->
  new_CBWResponse (body res) (c_accId c) (c_site c) (c_sippeerId c)
                  (c_options c) (c_headers c) (c_baseUrl c) = Done r0 ->
  exists st',
    checkOrder E c id st = (Thrown e, st') /\
    List.length (requests st') = S (List.length (requests st)).
Proof.
  intros Hid Hfetch Hok Hbody Hx Hnew.
  rewrite (checkOrder_ok E c id st res w Hid Hfetch Hok).
  unfold new_CBWCheckOrderResponse. rewrite (new_parsed_cases E _ _ _ _ _ _ _ r0 _ Hnew).
  simpl JS.truthy. apply String.eqb_neq in Hbody. rewrite Hbody. cbn [negb].
  rewrite Hx. eexists. split; [reflexivity|].
  cbn [requests]. rewrite List.length_app. simpl. lia.
Qed.

(** X15. [checkOrder] on a success response with an empty body: nothing
    is parsed, and on the wrapper returned [Status] and [Numbers] are
    [null]. *)
Theorem checkOrder_on_empty_body
    (E : Env) (c : CBandwidth) (id : jsval) (st : St E) res w r0 :
  is_undefined id = false ->
  fetch E (mkRequest (JS.toString (c_baseUrl c) ++ "/accounts/"
                        ++ JS.toString (c_accId c) ++ "/orders/"
                        ++ JS.toString id ++ "?tndetail=true")
                     "GET" (c_headers c) None) (world st) = (inr res, w) ->
  ok res = true ->
  body res = "" ->
  new_CBWResponse (body res) (c_accId c) (c_site c) (c_sippeerId c)
                  (c_options c) (c_headers c) (c_baseUrl c) = Done r0 ->
  exists r st',
    checkOrder E c id st = (Done r, st') /\
    parses st' = parses st /\
    Order_Status r = Done JNull /\ CheckOrder_Numbers r = Done JNull.
Proof.
  intros Hid Hfetch Hok Hbody Hnew.
  rewrite (checkOrder_ok E c id st res w Hid Hfetch Hok).
  unfold new_CBWCheckOrderResponse. rewrite (new_parsed_cases E _ _ _ _ _ _ _ r0 _ Hnew).
  rewrite Hbody. cbn [JS.truthy String.eqb negb].
  apply new_CBWResponse_Done in Hnew. subst r0.
  do 2 eexists. split; [reflexivity|]. repeat split.
Qed.

(** X16. A client built with [null] for its options, which the default
    [{ pageSize: 100 }] does not replace: [getSipPeersTNS] throws a
    [TypeError] on [this.options.pageSize] and issues no request. *)
Theorem getSipPeersTNS_with_null_options
    (E : Env) login pass account site peer (c : CBandwidth) (sp : jsval)
    (st : St E) :
  new_CBandwidth E login pass account site JNull peer = Done c ->
  is_undefined sp = false ->
  getSipPeersTNS E c sp st = (Thrown TypeError, st).
Proof.
  intros Hc Hsp.
  assert (Ho : c_options c = JNull).
  { revert Hc. unfold new_CBandwidth.
    repeat match goal with
           | |- context [if is_undefined ?x then Thrown _ else _] =>
               destruct (is_undefined x); try discriminate
           end.
    intros H; injection H as <-. reflexivity. }
  unfold getSipPeersTNS. rewrite Hsp, Ho. reflexivity.
Qed.

(** X28. [disconnect] with an array, answered with a success whose body
    parses: the wrapper returned reads its [Status] from the
    [DisconnectTelephoneNumberOrderResponse] of that parse, and [toXML()]
    gives back the body as received. *)
Theorem disconnect_returns_the_parsed_response
    (E : Env) (c : CBandwidth) (orderid : jsval) (items : list jsval)
    (st : St E) res w j r0 :
  is_undefined orderid = false ->
  fetch E (disconnect_request c
             (js2xml E (disconnect_order orderid (JArr items))))
        (world st) = (inr res, w) ->
  ok res = true ->
  body res <> "" ->
  xml2js E (body res) = inr j ->
  JS.truthy j = true ->
  new_CBWResponse (body res) (c_accId c) (c_site c) (c_sippeerId c)
                  (c_options c) (c_headers c) (c_baseUrl c) = Done r0 ->
  exists r st',
    disconnect E c orderid (JArr items) st = (Done r, st') /\
    Disconnect_Status r
    = JS.path j ["DisconnectTelephoneNumberOrderResponse"; "OrderStatus"; "_text"] /\
    toXML E (r, st') = (Done (body res), (r, st')).
Proof.
  intros Hid Hfetch Hok Hbody Hx Tj Hnew.
  unfold disconnect. rewrite Hid. cbn [is_undefined JS.is_array negb].
  unfold bind at 1. rewrite ClientFacts.do_fetch_unfold, Hfetch. cbn [fst snd].
  rewrite Hok. cbn [negb].
  unfold new_CBWDisconnectOrderResponse.
  rewrite (new_parsed_cases E _ _ _ _ _ _ _ r0 _ Hnew).
  simpl JS.truthy. apply String.eqb_neq in Hbody. rewrite Hbody. cbn [negb].
  rewrite Hx. apply new_CBWResponse_Done in Hnew. subst r0.
  do 2 eexists. split; [reflexivity|].
  unfold Disconnect_Status. cbn [json set_json]. rewrite Tj.
  split; reflexivity.
Qed.

End WrapperFacts.

(** ** [allocate] beyond the status it expects *)

Module AllocateEdgeFacts.

Import BWResponse Bandwidth.

(** X17. When the order itself fails (too few parameters, a status that
    is not a success, a body that does not parse), [allocate] throws the
    same error, with nothing done after it. *)
Theorem allocate_throws_what_the_order_throws
    (E : Env) (c : CBandwidth) (q : jsval) (st : St E) e st1 :
  searchAndOrderDID E c q st = (Thrown e, st1) ->
  allocate E c q st = (Thrown e, st1).
Proof.
  intros Ho. unfold allocate. rewrite AllocateFacts.searchAndOrderDID_default.
  apply bind_Thrown. exact Ho.
Qed.

(** X18. When the order is ['RECEIVED'] and its status check throws (the
    order response has no id, the check is answered with a status that is
    not a success, the request fails, the body does not parse), the
    exception stays in the timer callback: [allocate] neither returns nor
    throws. *)
Theorem allocate_hangs_when_the_check_throws
    (E : Env) (c : CBandwidth) (q : jsval) (st : St E) order st1 id e st2 :
  searchAndOrderDID E c q st = (Done order, st1) ->
  Order_Status order = Done (JStr "RECEIVED") ->
  Order_Id order = Done id ->
  checkOrder E c id st1 = (Thrown e, st2) ->
  allocate E c q st = (Hang, st2).
Proof.
  intros Ho Hs Hid Hc.
  rewrite (AllocateFacts.allocate_after_order E c q st order st1 Ho).
  unfold timer_promise, timer_callback.
  rewrite Hs, !bind_lift_Done. simpl JS.truthy. cbv iota beta.
  rewrite bind_bind, bind_lift_Done, bind_ret.
  change (JS.loose_eq_word (JStr "RECEIVED") "RECEIVED") with true. cbv iota.
  rewrite Hid, bind_lift_Done. rewrite (bind_Thrown _ _ _ _ _ Hc). reflexivity.
Qed.

(** X19. When the order is ['RECEIVED'] and the check comes back with no
    status to read, [null] for an empty body: [reject(null)] is caught,
    and [allocate] throws a [TypeError] on [null.Response]. *)
Theorem allocate_throws_on_a_check_without_status
    (E : Env) (c : CBandwidth) (q : jsval) (st : St E) order st1 id check st2 :
  searchAndOrderDID E c q st = (Done order, st1) ->
  Order_Status order = Done (JStr "RECEIVED") ->
  Order_Id order = Done id ->
  checkOrder E c id st1 = (Done check, st2) ->
  Order_Status check = Done JNull ->
  allocate E c q st = (Thrown TypeError, st2).
Proof.
  intros Ho Hs Hid Hc Hcs.
  rewrite (AllocateFacts.allocate_after_order E c q st order st1 Ho).
  rewrite (AllocateFacts.timer_promise_rejects E c order st1 id check st2 JNull
             Hs Hid Hc Hcs eq_refl).
  reflexivity.
Qed.

Lemma path_update_other (k : string) (ks : list string) (x : jsval)
      (fields : list (string * jsval)) :
  (k =? "order_id") = false ->
  JS.path (JObj (JS.update "order_id" x fields)) (k :: ks)
  = JS.path (JObj fields) (k :: ks).
Proof.
  intros Hk. cbn [JS.path].
  rewrite (RequestFacts.get_update_other k "order_id" x fields Hk). reflexivity.
Qed.

(** X20. The full path of [allocate]: the order is ['RECEIVED'], its one
    status check is answered with a success whose body parses to an object
    with the status ['COMPLETE']; then [allocate] returns the unified
    result of that object with [order_id] set to the id of the order, and
    the check is the only request it has added. *)
Theorem allocate_returns_the_unified_result_of_the_check
    (E : Env) (c : CBandwidth) (q : jsval) (st : St E) order st1 id res w
    fields r0 :
  searchAndOrderDID E c q st = (Done order, st1) ->
  Order_Status order = Done (JStr "RECEIVED") ->
  Order_Id order = Done id ->
  is_undefined id = false ->
  fetch E (mkRequest (JS.toString (c_baseUrl c) ++ "/accounts/"
                        ++ JS.toString (c_accId c) ++ "/orders/"
                        ++ JS.toString id ++ "?tndetail=true")
                     "GET" (c_headers c) None) (world st1) = (inr res, w) ->
  ok res = true ->
  body res <> "" ->
  xml2js E (body res) = inr (JObj fields) ->
  JS.path (JObj fields) ["OrderResponse"; "OrderStatus"; "_text"]
    = Done (JStr "COMPLETE") ->
  new_CBWResponse (body res) (c_accId c) (c_site c) (c_sippeerId c)
                  (c_options c) (c_headers c) (c_baseUrl c) = Done r0 ->
  exists st3,
    allocate E c q st
    = (Response (JObj (JS.update "order_id" id fields)), st3) /\
    requests st3
    = (requests st1
       ++ [mkRequest (JS.toString (c_baseUrl c) ++ "/accounts/"
                        ++ JS.toString (c_accId c) ++ "/orders/"
                        ++ JS.toString id ++ "?tndetail=true")
                     "GET" (c_headers c) None])%list.
Proof.
  intros Ho Hs Hid Hdef Hfetch Hok Hbody Hx Hstatus Hnew.
  set (req := mkRequest _ "GET" (c_headers c) None) in *.
  set (st2 := mkSt w (requests st1 ++ [req]) (parses st1 ++ [body res])).
  set (check := set_json (JObj fields) r0).
  assert (Hne : (body res =? "") = false) by (apply String.eqb_neq; exact Hbody).
  assert (Hc : checkOrder E c id st1 = (Done check, st2)).
  { rewrite (WrapperFacts.checkOrder_ok E c id st1 res w Hdef Hfetch Hok).
    unfold new_CBWCheckOrderResponse.
    rewrite (WrapperFacts.new_parsed_cases E _ _ _ _ _ _ _ r0 _ Hnew).
    simpl JS.truthy. rewrite Hne. cbn [negb]. rewrite Hx. reflexivity. }
  assert (Htext : text check = body res).
  { apply WrapperFacts.new_CBWResponse_Done in Hnew. subst r0. reflexivity. }
  assert (Hcs : Order_Status check = Done (JStr "COMPLETE"))
    by (unfold Order_Status; exact Hstatus).
  assert (Hj : toJSON E (check, st2) = (Done (JObj fields), (check, st2))).
  { rewrite CacheFacts.toJSON_unfold, Htext. simpl JS.truthy. rewrite Hne.
    reflexivity. }
  exists st2. split; [|reflexivity].
  apply (AllocateFacts.allocate_check_complete E c q st order st1 id check st2
           (JObj fields) check st2 (JObj (JS.update "order_id" id fields))
           Ho Hs Hid Hc Hcs Hj eq_refl).
  exists (JStr "COMPLETE"). unfold Order_Status. cbn [json set_json JS.truthy negb].
  rewrite path_update_other by reflexivity. exact Hstatus.
Qed.

End AllocateEdgeFacts.

(** ** The eager listing at its edges *)

Module ListingEdgeFacts.

Import BWResponse Bandwidth Pages.

Lemma constructed_client_fields (E : Env) login pass account site opts peer c :
  new_CBandwidth E login pass account site opts peer = Done c ->
  is_undefined (c_accId c) = false /\ is_undefined (c_site c) = false /\
  is_undefined (c_options c) = false /\ is_undefined (c_headers c) = false /\
  is_undefined (c_baseUrl c) = false.
Proof.
  unfold new_CBandwidth.
  destruct (is_undefined login); [discriminate|].
  destruct (is_undefined pass); [discriminate|].
  destruct (is_undefined account) eqn:Ha; [discriminate|].
  destruct (is_undefined site) eqn:Hs; [discriminate|].
  intros H; injection H as <-. cbn [c_accId c_site c_options c_headers c_baseUrl].
  repeat split; auto. destruct (is_undefined opts) eqn:Ho; [reflexivity | exact Ho].
Qed.

Section WithEnv.

Variable E : Env.

(** The first page, answered with a success. *)
Lemma getSipPeersTNS_ok login pass account site opts peer (c : CBandwidth)
      (sp pageSize : jsval) (st : St E) res w :
  new_CBandwidth E login pass account site opts peer = Done c ->
  is_undefined sp = false ->
  JS.get (c_options c) "pageSize" = Done pageSize ->
  fetch E (tns_request c sp pageSize) (world st) = (inr res, w) ->
  ok res = true ->
  getSipPeersTNS E c sp st
  = (Done (mkResponse (body res) JNull (c_accId c) (c_site c) sp (c_options c)
                      (c_headers c) (c_baseUrl c) 0),
     mkSt w (requests st ++ [tns_request c sp pageSize]) (parses st)).
Proof.
  intros Hc Hsp Hps Hfetch Hok.
  destruct (constructed_client_fields E _ _ _ _ _ _ _ Hc) as (F1 & F2 & F3 & F4 & F5).
  unfold getSipPeersTNS. rewrite Hsp, Hps, bind_lift_Done.
  unfold bind. rewrite ClientFacts.do_fetch_unfold, Hfetch. cbn [fst snd].
  rewrite Hok. cbn [negb]. unfold new_CBWTNSResponse, new_CBWResponse.
  rewrite F1, F2, Hsp, F3, F4, F5. reflexivity.
Qed.

(** A server that always answers with a page that has a next-link keeps
    the loop going for as long as it is run. *)
Lemma pages_loop_goes_on (hdrs j t : jsval) (link : string) (res : HttpResponse)
      (ns : list jsval) :
  (forall req w, exists w', fetch E req w = (inr res, w')) ->
  ok res = true ->
  page E (body res) j ns ->
  next_link_text j = Done t ->
  JS.truthy t = true ->
  JS.regex_exec (JS.toString t) = Some link ->
  forall fuel r st acc,
    defined_fields r -> holds E r j ->
    fst (pages_loop E fuel (JArr acc) (r, st)) = Fuel.
Proof.
  intros Hserver Hok Hpage Ht Tt Hlink.
  induction fuel as [|fuel IH]; intros r st acc Hdef Hholds; [reflexivity|].
  destruct (PagesFacts.toJSON_holds E r st j Hholds) as (st1 & Hj & Hw1 & Hq1).
  cbn [pages_loop]. unfold bind at 1.
  rewrite (IteratorFacts.next_cases E r st j _ st1 t Hj Ht), Tt. cbn [negb].
  rewrite Hlink. cbv zeta.
  destruct (Hserver (mkRequest link "GET" (headers r) None) (world st))
    as [w1 Hfetch].
  rewrite Hfetch.
  set (req := mkRequest link "GET" (headers r) None).
  set (r1 := set_json j r).
  set (st2 := mkSt w1 (requests st ++ [req]) (parses st1)).
  assert (Hdef1 : defined_fields r1) by exact Hdef.
  unfold bind at 1. rewrite (IteratorFacts.next_page_ok E res r1 st2 Hdef1 Hok).
  set (r3 := incr_nextIndex (set_text (body res) r1)).
  destruct Hpage as (Pt & Px & Pj & Pn).
  set (fresh := mkResponse (body res) JNull (accId r1) (site r1) (sippeerId r1)
                           (options r1) (headers r1) (baseUrl r1) 0).
  assert (Hfresh : holds E fresh j) by (repeat split; auto).
  destruct (PagesFacts.TNS_Numbers_holds E fresh st2 j (JArr ns) Hfresh Pn)
    as (st3 & Hnum & Hw3 & Hq3).
  assert (Hout : outside E (call E fresh (TNS_Numbers E)) (r3, st2)
                 = (Done (JArr ns, set_json j fresh), (r3, st3))).
  { unfold outside, call. cbn [fst snd]. rewrite Hnum. reflexivity. }
  rewrite bind_bind. rewrite (bind_Done _ _ _ _ _ Hout). rewrite bind_ret.
  cbn [fst JS.spread]. rewrite bind_lift_Done.
  apply IH; [exact Hdef | repeat split; auto].
Qed.

End WithEnv.

(** X21. When the first page is answered with a success and an empty
    body, the eager listing returns [null], not an empty list, after that
    one request and without a call of the parser. *)
Theorem getSipPeersTNSAll_on_empty_body
    (E : Env) login pass account site opts peer (c : CBandwidth)
    (sp pageSize : jsval) (st : St E) res w fuel :
  new_CBandwidth E login pass account site opts peer = Done c ->
  is_undefined sp = false ->
  JS.get (c_options c) "pageSize" = Done pageSize ->
  fetch E (tns_request c sp pageSize) (world st) = (inr res, w) ->
  ok res = true ->
  body res = "" ->
  0 < fuel ->
  getSipPeersTNSAll E fuel c sp st
  = (Done JNull, mkSt w (requests st ++ [tns_request c sp pageSize]) (parses st)).
Proof.
  intros Hc Hsp Hps Hfetch Hok Hbody Hfuel.
  unfold getSipPeersTNSAll. rewrite Hsp.
  rewrite (bind_Done _ _ _ _ _
             (getSipPeersTNS_ok E _ _ _ _ _ _ c sp pageSize st res w
                Hc Hsp Hps Hfetch Hok)).
  rewrite Hbody.
  set (r0 := mkResponse "" JNull (c_accId c) (c_site c) sp (c_options c)
                        (c_headers c) (c_baseUrl c) 0).
  set (st1 := mkSt w (requests st ++ [tns_request c sp pageSize]) (parses st)).
  assert (Hj : toJSON E (r0, st1) = (Done JNull, (r0, st1)))
    by (rewrite CacheFacts.toJSON_unfold; reflexivity).
  assert (Hnum : TNS_Numbers E (r0, st1) = (Done JNull, (r0, st1))).
  { unfold TNS_Numbers. rewrite (bind_Done _ _ _ _ _ Hj). reflexivity. }
  destruct fuel as [|fuel]; [lia|].
  assert (Hloop : pages_loop E (S fuel) JNull (r0, st1) = (Done JNull, (r0, st1))).
  { cbn [pages_loop]. unfold bind at 1.
    rewrite (IteratorFacts.next_cases E r0 st1 JNull r0 st1 JUndef Hj eq_refl).
    reflexivity. }
  assert (Hcall : call E r0 (result <- TNS_Numbers E;; pages_loop E (S fuel) result) st1
                  = (Done (JNull, r0), st1)).
  { unfold call. rewrite (bind_Done _ _ _ _ _ Hnum), Hloop. reflexivity. }
  rewrite (bind_Done _ _ _ _ _ Hcall). reflexivity.
Qed.

(** X22. When the first page carries numbers and a next-link, and the
    fetch of that link is answered with a status that is not a success,
    the eager listing throws the error carrying that status text: the
    numbers already read are not returned. *)
Theorem getSipPeersTNSAll_aborts_on_a_failed_page
    (E : Env) login pass account site opts peer (c : CBandwidth)
    (sp pageSize : jsval) (st : St E) res0 w0 j0 ns0 t link res1 w1 fuel :
  new_CBandwidth E login pass account site opts peer = Done c ->
  is_undefined sp = false ->
  JS.get (c_options c) "pageSize" = Done pageSize ->
  fetch E (tns_request c sp pageSize) (world st) = (inr res0, w0) ->
  ok res0 = true ->
  page E (body res0) j0 ns0 ->
  next_link_text j0 = Done t ->
  JS.truthy t = true ->
  JS.regex_exec (JS.toString t) = Some link ->
  fetch E (mkRequest link "GET" (c_headers c) None) w0 = (inr res1, w1) ->
  ok res1 = false ->
  0 < fuel ->
  exists st',
    getSipPeersTNSAll E fuel c sp st
    = (Thrown (CBWTNSError (statusText res1)), st') /\
    requests st'
    = (requests st ++ [tns_request c sp pageSize;
                       mkRequest link "GET" (c_headers c) None])%list.
Proof.
  intros Hc Hsp Hps Hfetch Hok (Pt & Px & Pj & Pn) Ht Tt Hlink Hfetch1 Hok1 Hfuel.
  unfold getSipPeersTNSAll. rewrite Hsp.
  rewrite (bind_Done _ _ _ _ _
             (getSipPeersTNS_ok E _ _ _ _ _ _ c sp pageSize st res0 w0
                Hc Hsp Hps Hfetch Hok)).
  set (r0 := mkResponse (body res0) JNull (c_accId c) (c_site c) sp (c_options c)
                        (c_headers c) (c_baseUrl c) 0).
  set (st1 := mkSt w0 (requests st ++ [tns_request c sp pageSize]) (parses st)).
  assert (Hh0 : holds E r0 j0) by (repeat split; auto).
  destruct (PagesFacts.TNS_Numbers_holds E r0 st1 j0 (JArr ns0) Hh0 Pn)
    as (st2 & Hnum & Hw2 & Hq2).
  destruct (PagesFacts.toJSON_holds E (set_json j0 r0) st2 j0
              (PagesFacts.holds_set_json E r0 j0 Hh0)) as (st3 & Hj & Hw3 & Hq3).
  destruct fuel as [|fuel]; [lia|].
  eexists. split.
  - assert (Hloop : pages_loop E (S fuel) (JArr ns0) (set_json j0 r0, st2)
                    = (Thrown (CBWTNSError (statusText res1)),
                       (set_json j0 (set_json j0 r0),
                        mkSt w1 (requests st2
                                 ++ [mkRequest link "GET" (c_headers c) None])
                             (parses st3)))).
    { cbn [pages_loop]. unfold bind at 1.
      rewrite (IteratorFacts.next_cases E _ st2 j0 _ st3 t Hj Ht), Tt. cbn [negb].
      rewrite Hlink. cbv zeta. cbn [headers set_json r0].
      rewrite Hw2. cbn [world st1]. rewrite Hfetch1.
      unfold bind at 1. rewrite (IteratorFacts.next_page_not_ok E res1 _ Hok1).
      reflexivity. }
    unfold bind, call. rewrite Hnum. rewrite Hloop. reflexivity.
  - cbn [requests]. rewrite Hq2. cbn [requests st1]. rewrite <- app_assoc.
    reflexivity.
Qed.

(** X23. The loop has no bound of its own: against a server that answers
    every request with a success carrying a page that has a next-link,
    the eager listing has not returned after any number of turns. *)
Theorem getSipPeersTNSAll_never_ends_on_endless_links
    (E : Env) login pass account site opts peer (c : CBandwidth)
    (sp pageSize : jsval) (st : St E) res j ns t link :
  new_CBandwidth E login pass account site opts peer = Done c ->
  is_undefined sp = false ->
  JS.get (c_options c) "pageSize" = Done pageSize ->
  (forall req w, exists w', fetch E req w = (inr res, w')) ->
  ok res = true ->
  page E (body res) j ns ->
  next_link_text j = Done t ->
  JS.truthy t = true ->
  JS.regex_exec (JS.toString t) = Some link ->
  forall fuel, fst (getSipPeersTNSAll E fuel c sp st) = Fuel.
Proof.
  intros Hc Hsp Hps Hserver Hok Hpage Ht Tt Hlink fuel.
  destruct (Hserver (tns_request c sp pageSize) (world st)) as [w0 Hfetch].
  destruct (constructed_client_fields E _ _ _ _ _ _ _ Hc) as (F1 & F2 & F3 & F4 & F5).
  unfold getSipPeersTNSAll. rewrite Hsp.
  rewrite (bind_Done _ _ _ _ _
             (getSipPeersTNS_ok E _ _ _ _ _ _ c sp pageSize st res w0
                Hc Hsp Hps Hfetch Hok)).
  set (r0 := mkResponse (body res) JNull (c_accId c) (c_site c) sp (c_options c)
                        (c_headers c) (c_baseUrl c) 0).
  set (st1 := mkSt w0 (requests st ++ [tns_request c sp pageSize]) (parses st)).
  pose proof Hpage as (Pt & Px & Pj & Pn).
  assert (Hh0 : holds E r0 j) by (repeat split; auto).
  destruct (PagesFacts.TNS_Numbers_holds E r0 st1 j (JArr ns) Hh0 Pn)
    as (st2 & Hnum & _ & _).
  pose proof (pages_loop_goes_on E (c_headers c) j t link res ns Hserver Hok Hpage
                Ht Tt Hlink fuel (set_json j r0) st2 ns) as Hloop.
  unfold bind, call. rewrite Hnum.
  destruct (pages_loop E fuel (JArr ns) (set_json j r0, st2)) as [o [r' st']].
  simpl in Hloop. rewrite Hloop; [reflexivity | | ].
  - repeat split; auto.
  - apply PagesFacts.holds_set_json. exact Hh0.
Qed.


End ListingEdgeFacts.

(** ** The lazy parse at its edges *)

Module CacheEdgeFacts.

Import BWResponse Cache.

Lemma toJSON_parses (E : Env) (r : CBWResponse) (st : St E) (j : jsval) :
  text r <> "" ->
  JS.truthy (json r) = false ->
  xml2js E (text r) = inr j ->
  toJSON E (r, st)
  = (Done j, (set_json j r,
              mkSt (world st) (requests st) (parses st ++ [text r]))).
Proof.
  intros Ht Hj Hx. apply String.eqb_neq in Ht.
  rewrite CacheFacts.toJSON_unfold. simpl JS.truthy at 1.
  rewrite Ht, Hj. cbn [negb]. rewrite Hx. reflexivity.
Qed.

(** X25. An assignment of [text] drops the parse whatever the text is:
    after a read, assigning the very text the wrapper holds makes the next
    read call the parser again. *)
Theorem assigning_the_same_text_parses_again
    (E : Env) t a s p o h b r (st : St E) j :
  new_CBWResponse t a s p o h b = Done r ->
  t <> "" ->
  xml2js E t = inr j ->
  fst (run E [Read; SetText t; Read] (r, st)) = [Done j; Done j] /\
  parses (snd (snd (run E [Read; SetText t; Read] (r, st))))
  = (parses st ++ [t; t])%list.
Proof.
  intros Hnew Ht Hx. apply WrapperFacts.new_CBWResponse_Done in Hnew. subst r.
  set (r := mkResponse t JNull a s p o h b 0).
  cbn [run].
  rewrite (toJSON_parses E r st j Ht eq_refl Hx).
  cbn [fst snd].
  rewrite (toJSON_parses E (set_text t (set_json j r)) _ j Ht eq_refl Hx).
  cbn [fst snd parses]. change (text (set_text t (set_json j r))) with t.
  change (text r) with t. rewrite <- app_assoc.
  split; reflexivity.
Qed.

(** X26. A failed parse is not remembered: on a text the parser refuses,
    every read calls the parser again and throws its error again, and the
    wrapper stays as it was. *)
Theorem failed_parse_is_retried_on_every_read
    (E : Env) (r : CBWResponse) e (n : nat) :
  text r <> "" ->
  JS.truthy (json r) = false ->
  xml2js E (text r) = inl e ->
  forall st,
    run E (repeat Read n) (r, st)
    = (repeat (Thrown e) n,
       (r, mkSt (world st) (requests st) (parses st ++ repeat (text r) n))).
Proof.
  intros Ht Hj Hx. apply String.eqb_neq in Ht.
  induction n as [|n IH]; intros st.
  - simpl. rewrite app_nil_r. destruct st; reflexivity.
  - cbn [repeat run]. rewrite CacheFacts.toJSON_unfold.
    simpl JS.truthy at 1. rewrite Ht, Hj. cbn [negb]. rewrite Hx.
    rewrite IH. cbn [world requests parses]. rewrite <- app_assoc. reflexivity.
Qed.

(** X27. The getters of an order response read the cached parse and never
    parse themselves: right after an assignment of [text] they return
    [null], and they read the new text only once [toJSON()] has run. *)
Theorem order_getters_wait_for_toJSON
    (E : Env) (r : CBWResponse) (t : string) (j : jsval) (st : St E) :
  t <> "" ->
  xml2js E t = inr j ->
  JS.truthy j = true ->
  Order_Status (set_text t r) = Done JNull /\
  Order_Id (set_text t r) = Done JNull /\
  exists r' st',
    toJSON E (set_text t r, st) = (Done j, (r', st')) /\
    Order_Status r' = JS.path j ["OrderResponse"; "OrderStatus"; "_text"] /\
    Order_Id r' = JS.path j ["OrderResponse"; "Order"; "id"; "_text"].
Proof.
  intros Ht Hx Tj. apply String.eqb_neq in Ht.
  split; [reflexivity|]. split; [reflexivity|].
  rewrite CacheFacts.toJSON_unfold.
  cbn [text textValue json set_text JS.truthy negb]. rewrite Ht. cbn [negb].
  rewrite Hx. do 2 eexists. split; [reflexivity|].
  unfold Order_Status, Order_Id. cbn [json set_json]. rewrite Tj. split; reflexivity.
Qed.

End CacheEdgeFacts.

(** ** The further properties at work on concrete calls *)

Module EdgeWitnesses.

Import BWResponse Bandwidth Cache Pages Fixtures Scenarios.


Lemma parseAreaCode_reversed_parentheses_witness :
  _parseAreaCode (JStr ("none " ++ ")" ++ "919" ++ "(" ++ " left"))
  = Done (JStr (")" ++ "919" ++ "(")).
Proof.
  exact (AreaCodeFacts.parseAreaCode_reversed_parentheses "none " "919" " left"
           eq_refl eq_refl eq_refl).
Defined.

Lemma Response_of_single_number_witness :
  Response complete1_with_id
  = Done (JObj [("dids", JArr [did (JStr "500709") (JStr "o-77") "9194464166"
                                   (JStr "919")]);
                ("resultCount", JNum 1)]).
Proof.
  exact (AreaCodeFacts.Response_of_single_number complete1_with_id
           (JObj [("FullNumber", el (JStr "9194464166"))])
           (JStr "500709") (JStr "o-77") (JStr "1 number ordered in (919)")
           (JStr "919") "9194464166"
           eq_refl eq_refl eq_refl eq_refl eq_refl eq_refl eq_refl).
Defined.

Lemma Response_one_entry_per_number_witness :
  Response complete2_with_id
  = Done (JObj [("dids",
                 JArr (map (fun d => did (JStr "500709") (JStr "o-77") d (JStr "919"))
                           ["9194464166"; "9194464167"]));
                ("resultCount", JNum (Z.of_nat 2))]).
Proof.
  refine (AreaCodeFacts.Response_one_entry_per_number complete2_with_id
            (JStr "500709") (JStr "o-77")
            [JObj [("FullNumber", el (JStr "9194464166"))];
             JObj [("FullNumber", el (JStr "9194464167"))]]
            ["9194464166"; "9194464167"] "2 numbers ordered in " "919" ""
            eq_refl _ eq_refl eq_refl eq_refl eq_refl eq_refl eq_refl).
  repeat constructor.
Defined.

Lemma TNS_Numbers_of_empty_listing_throws_witness :
  TNS_Numbers_of empty_listing_json = Thrown TypeError.
Proof.
  exact (AreaCodeFacts.TNS_Numbers_of_empty_listing_throws empty_listing_json eq_refl).
Defined.

Lemma regex_exec_captures_link_witness :
  JS.regex_exec ("Link=" ++ "<" ++ page2_url ++ ">" ++ ";rel=next;")
  = Some page2_url.
Proof.
  refine (RegexFacts.regex_exec_captures_link "Link=" page2_url ";rel=next;"
            eq_refl _ eq_refl eq_refl eq_refl).
  discriminate.
Defined.

Lemma next_throws_on_link_without_brackets_witness :
  next env (bare_link_page, answers [http_ok page2_xml])
  = (Thrown TypeError, (bare_link_page, answers [http_ok page2_xml])) /\
  requests (answers [http_ok page2_xml]) = requests (answers [http_ok page2_xml]).
Proof.
  refine (RegexFacts.next_throws_on_link_without_brackets env bare_link_page
            (answers [http_ok page2_xml]) bare_link_json bare_link_page
            (answers [http_ok page2_xml]) page2_url eq_refl eq_refl _ eq_refl).
  discriminate.
Defined.

Lemma searchAndOrderDID_not_enough_parameters_witness :
  searchAndOrderDID env client (JObj [("city", JStr "CARY"); ("quantity", JNum 2)])
    (answers [http_ok (order_xml "RECEIVED")])
  = (Thrown (Error "Not enough parameters"),
     answers [http_ok (order_xml "RECEIVED")]).
Proof.
  exact (RequestFacts.searchAndOrderDID_not_enough_parameters env client
           [("city", JStr "CARY"); ("quantity", JNum 2)]
           (answers [http_ok (order_xml "RECEIVED")])
           JUndef (JStr "CARY") JUndef eq_refl eq_refl eq_refl eq_refl eq_refl).
Defined.

Lemma searchAndOrderDID_orders_by_city_and_state_witness :
  requests (snd (searchAndOrderDID env client
                   (JObj [("areaCode", JStr "919"); ("city", JStr "CARY");
                          ("state", JStr "NC"); ("quantity", JStr "many")])
                   (answers [http_ok (order_xml "RECEIVED")])))
  = ([] ++ [mkRequest "https://dashboard.bandwidth.com/api/accounts/9500/orders"
              "POST" (c_headers client)
              (Some (compact_js2xml
                       (city_order client (JStr "CARY") (JStr "NC") (JNum 1))))])%list.
Proof.
  exact (RequestFacts.searchAndOrderDID_orders_by_city_and_state env client
           [("areaCode", JStr "919"); ("city", JStr "CARY");
            ("state", JStr "NC"); ("quantity", JStr "many")]
           (answers [http_ok (order_xml "RECEIVED")])
           (JStr "many") (JStr "919") (JStr "CARY") (JStr "NC")
           eq_refl eq_refl eq_refl eq_refl eq_refl eq_refl).
Defined.

Lemma searchAndOrderDID_orders_by_area_code_witness :
  requests (snd (searchAndOrderDID env client
                   (JObj [("areaCode", JStr "919"); ("city", JStr "CARY")])
                   (answers [http_ok (order_xml "RECEIVED")])))
  = ([] ++ [mkRequest "https://dashboard.bandwidth.com/api/accounts/9500/orders"
              "POST" (c_headers client)
              (Some (compact_js2xml
                       (area_code_order client (JStr "919") (JNum 1))))])%list.
Proof.
  exact (RequestFacts.searchAndOrderDID_orders_by_area_code env client
           [("areaCode", JStr "919"); ("city", JStr "CARY")]
           (answers [http_ok (order_xml "RECEIVED")])
           JUndef (JStr "919") (JStr "CARY") JUndef
           eq_refl eq_refl eq_refl eq_refl eq_refl eq_refl).
Defined.

Lemma missing_client_sippeerId_fails_after_the_request_witness :
  fst (searchAndOrderDID env anonymous_client city_query
         (answers [http_ok (order_xml "RECEIVED")]))
  = Thrown (BWResponse.v "sippeerId") /\
  fst (checkOrder env anonymous_client (JStr "o-77")
         (answers [http_ok complete2_xml]))
  = Thrown (BWResponse.v "sippeerId") /\
  fst (disconnect env anonymous_client (JStr "o-77") (JArr [JStr "9194464166"])
         (answers [http_ok disconnect_xml]))
  = Thrown (BWResponse.v "sippeerId").
Proof.
  destruct (RequestFacts.missing_client_sippeerId_fails_after_the_request
              env anonymous_client eq_refl eq_refl eq_refl) as (H1 & H2 & H3).
  split; [|split].
  - refine (H1 city_query (answers [http_ok (order_xml "RECEIVED")]) _ _
              (mkRequest "https://dashboard.bandwidth.com/api/accounts/9500/orders"
                 "POST" (c_headers client)
                 (Some (compact_js2xml
                          (city_order anonymous_client (JStr "CARY") (JStr "NC")
                             (JNum 2)))))
              (mkHttpResponse true "OK" (order_xml "RECEIVED")) []
              (surjective_pairing _) _ eq_refl eq_refl).
    vm_compute; reflexivity.
  - refine (H2 (JStr "o-77") (answers [http_ok complete2_xml]) _ _ check_request
              (mkHttpResponse true "OK" complete2_xml) []
              (surjective_pairing _) _ eq_refl eq_refl).
    vm_compute; reflexivity.
  - refine (H3 (JStr "o-77") (JArr [JStr "9194464166"])
              (answers [http_ok disconnect_xml]) _ _
              (disconnect_request anonymous_client
                 (compact_js2xml
                    (disconnect_order (JStr "o-77") (JArr [JStr "9194464166"]))))
              (mkHttpResponse true "OK" disconnect_xml) []
              (surjective_pairing _) _ eq_refl eq_refl).
    vm_compute; reflexivity.
Defined.

Lemma getSipPeersTNS_returns_unparsed_wrapper_witness :
  json listing = JNull /\ nextIndex listing = 0 /\
  sippeerId listing = JStr "500709" /\ headers listing = c_headers client.
Proof.
  refine (proj2 (WrapperFacts.getSipPeersTNS_returns_unparsed_wrapper env client
                   (JStr "500709") (answers [http_ok page1_xml]))
                listing
                (mkSt (E := env) []
                      [tns_request client (JStr "500709") (JNum 100)] [])
                _).
  vm_compute; reflexivity.
Defined.

Lemma checkOrder_parses_the_body_once_witness :
  exists r st',
    checkOrder env client (JStr "o-77") (answers [http_ok complete2_xml])
    = (Done r, st') /\
    text r = complete2_xml /\ json r = complete2_json /\
    parses st' = ([] ++ [complete2_xml])%list /\
    world st' = [].
Proof.
  refine (WrapperFacts.checkOrder_parses_the_body_once env client (JStr "o-77")
            (answers [http_ok complete2_xml])
            (mkHttpResponse true "OK" complete2_xml) [] complete2_json
            (unparsed complete2_xml) eq_refl eq_refl eq_refl _ eq_refl eq_refl).
  discriminate.
Defined.

Lemma checkOrder_throws_on_malformed_body_witness :
  exists st',
    checkOrder env client (JStr "o-77") (answers [http_ok "<OrderResponse>"])
    = (Thrown (LibError "malformed XML"), st') /\
    List.length (requests st') = 1.
Proof.
  refine (WrapperFacts.checkOrder_throws_on_malformed_body env client (JStr "o-77")
            (answers [http_ok "<OrderResponse>"])
            (mkHttpResponse true "OK" "<OrderResponse>") []
            (LibError "malformed XML") (unparsed "<OrderResponse>")
            eq_refl eq_refl eq_refl _ eq_refl eq_refl).
  discriminate.
Defined.

Lemma checkOrder_on_empty_body_witness :
  exists r st',
    checkOrder env client (JStr "o-77") (answers [http_ok ""]) = (Done r, st') /\
    parses st' = [] /\
    Order_Status r = Done JNull /\ CheckOrder_Numbers r = Done JNull.
Proof.
  exact (WrapperFacts.checkOrder_on_empty_body env client (JStr "o-77")
           (answers [http_ok ""]) (mkHttpResponse true "OK" "") []
           (unparsed "") eq_refl eq_refl eq_refl eq_refl eq_refl).
Defined.

Lemma getSipPeersTNS_with_null_options_witness :
  getSipPeersTNS env
    (mkClient (c_headers client) (JStr "461") (JStr "9500") JNull (JStr "500709")
              (JStr "https://dashboard.bandwidth.com/api"))
    (JStr "500709") (answers [http_ok page1_xml])
  = (Thrown TypeError, answers [http_ok page1_xml]).
Proof.
  exact (WrapperFacts.getSipPeersTNS_with_null_options env
           (JStr "user") (JStr "secret") (JStr "9500") (JStr "461") (JStr "500709")
           _ (JStr "500709") (answers [http_ok page1_xml]) eq_refl eq_refl).
Defined.

Lemma allocate_throws_what_the_order_throws_witness :
  allocate env client city_query (answers [http_fail "Bad Request"])
  = (Thrown (Error "Bad Request"),
     snd (searchAndOrderDID env client city_query (answers [http_fail "Bad Request"]))).
Proof.
  refine (AllocateEdgeFacts.allocate_throws_what_the_order_throws env client
            city_query (answers [http_fail "Bad Request"]) (Error "Bad Request")
            _ _).
  vm_compute; reflexivity.
Defined.

Lemma allocate_hangs_when_the_check_throws_witness :
  fst (allocate env client city_query
         (answers [http_ok (order_xml "RECEIVED"); http_fail "Not Found"]))
  = Hang.
Proof.
  refine (f_equal fst
            (AllocateEdgeFacts.allocate_hangs_when_the_check_throws env client
               city_query
               (answers [http_ok (order_xml "RECEIVED"); http_fail "Not Found"])
               (order_wrapper "RECEIVED")
               (snd (searchAndOrderDID env client city_query
                       (answers [http_ok (order_xml "RECEIVED");
                                 http_fail "Not Found"])))
               (JStr "o-77") (Error "Not Found")
               (snd (allocate env client city_query
                       (answers [http_ok (order_xml "RECEIVED");
                                 http_fail "Not Found"])))
               _ eq_refl eq_refl _)).
  - vm_compute; reflexivity.
  - vm_compute; reflexivity.
Defined.

Lemma allocate_throws_on_a_check_without_status_witness :
  fst (allocate env client city_query
         (answers [http_ok (order_xml "RECEIVED"); http_ok ""]))
  = Thrown TypeError.
Proof.
  refine (f_equal fst
            (AllocateEdgeFacts.allocate_throws_on_a_check_without_status env client
               city_query (answers [http_ok (order_xml "RECEIVED"); http_ok ""])
               (order_wrapper "RECEIVED")
               (snd (searchAndOrderDID env client city_query
                       (answers [http_ok (order_xml "RECEIVED"); http_ok ""])))
               (JStr "o-77") (unparsed "")
               (snd (allocate env client city_query
                       (answers [http_ok (order_xml "RECEIVED"); http_ok ""])))
               _ eq_refl eq_refl _ eq_refl)).
  - vm_compute; reflexivity.
  - vm_compute; reflexivity.
Defined.

Lemma allocate_returns_the_unified_result_of_the_check_witness :
  exists st3,
    allocate env client city_query
      (answers [http_ok (order_xml "RECEIVED"); http_ok complete2_xml])
    = (Response (JObj (JS.update "order_id" (JStr "o-77") complete2_fields)), st3) /\
    requests st3
    = (requests (snd (searchAndOrderDID env client city_query
                        (answers [http_ok (order_xml "RECEIVED");
                                  http_ok complete2_xml])))
       ++ [check_request])%list.
Proof.
  refine (AllocateEdgeFacts.allocate_returns_the_unified_result_of_the_check
            env client city_query
            (answers [http_ok (order_xml "RECEIVED"); http_ok complete2_xml])
            (order_wrapper "RECEIVED")
            (snd (searchAndOrderDID env client city_query
                    (answers [http_ok (order_xml "RECEIVED");
                              http_ok complete2_xml])))
            (JStr "o-77") (mkHttpResponse true "OK" complete2_xml) []
            complete2_fields (unparsed complete2_xml)
            _ eq_refl eq_refl eq_refl _ eq_refl _ eq_refl eq_refl eq_refl).
  - vm_compute; reflexivity.
  - vm_compute; reflexivity.
  - discriminate.
Defined.

Lemma getSipPeersTNSAll_on_empty_body_witness :
  getSipPeersTNSAll env 1 client (JStr "500709") (answers [http_ok ""])
  = (Done JNull,
     mkSt (E := env) [] ([] ++ [tns_request client (JStr "500709") (JNum 100)]) []).
Proof.
  refine (ListingEdgeFacts.getSipPeersTNSAll_on_empty_body env
            (JStr "user") (JStr "secret") (JStr "9500") (JStr "461") JUndef
            (JStr "500709") client (JStr "500709") (JNum 100)
            (answers [http_ok ""]) (mkHttpResponse true "OK" "") [] 1
            eq_refl eq_refl eq_refl eq_refl eq_refl eq_refl _).
  lia.
Defined.

Lemma getSipPeersTNSAll_aborts_on_a_failed_page_witness :
  exists st',
    getSipPeersTNSAll env 3 client (JStr "500709")
      (answers [http_ok page1_xml; http_fail "Bad Gateway"])
    = (Thrown (CBWTNSError "Bad Gateway"), st') /\
    requests st'
    = ([] ++ [tns_request client (JStr "500709") (JNum 100); page2_request])%list.
Proof.
  refine (ListingEdgeFacts.getSipPeersTNSAll_aborts_on_a_failed_page env
            (JStr "user") (JStr "secret") (JStr "9500") (JStr "461") JUndef
            (JStr "500709") client (JStr "500709") (JNum 100)
            (answers [http_ok page1_xml; http_fail "Bad Gateway"])
            (mkHttpResponse true "OK" page1_xml) [http_fail "Bad Gateway"]
            page1_json [JStr "9194464166"; JStr "9194464167"]
            (JStr ("Link=<" ++ page2_url ++ ">;rel=next;")) page2_url
            (mkHttpResponse false "Bad Gateway" "") [] 3
            eq_refl eq_refl eq_refl eq_refl eq_refl _ eq_refl eq_refl eq_refl
            eq_refl eq_refl _).
  - repeat split; reflexivity.
  - lia.
Defined.

Lemma getSipPeersTNSAll_never_ends_on_endless_links_witness :
  fst (getSipPeersTNSAll looping_env 7 client (JStr "500709")
         (mkSt (E := looping_env) tt [] [])) = Fuel.
Proof.
  refine ((fun H => H 7)
          (ListingEdgeFacts.getSipPeersTNSAll_never_ends_on_endless_links
            looping_env (JStr "user") (JStr "secret") (JStr "9500") (JStr "461")
            JUndef (JStr "500709") client (JStr "500709") (JNum 100)
            (mkSt (E := looping_env) tt [] [])
            (mkHttpResponse true "OK" page1_xml) page1_json
            [JStr "9194464166"; JStr "9194464167"]
            (JStr ("Link=<" ++ page2_url ++ ">;rel=next;")) page2_url
            eq_refl eq_refl eq_refl _ eq_refl _ eq_refl eq_refl eq_refl)).
  - intros req w. exists w. reflexivity.
  - repeat split; reflexivity.
Defined.


Lemma assigning_the_same_text_parses_again_witness :
  fst (run env [Read; SetText page2_xml; Read] (unparsed page2_xml, answers []))
  = [Done page2_json; Done page2_json] /\
  parses (snd (snd (run env [Read; SetText page2_xml; Read]
                      (unparsed page2_xml, answers []))))
  = ([] ++ [page2_xml; page2_xml])%list.
Proof.
  refine (CacheEdgeFacts.assigning_the_same_text_parses_again env page2_xml
            (JStr "9500") (JStr "461") (JStr "500709")
            (JObj [("pageSize", JNum 100)]) (c_headers client)
            (JStr "https://dashboard.bandwidth.com/api")
            (unparsed page2_xml) (answers []) page2_json eq_refl _ eq_refl).
  discriminate.
Defined.

Lemma failed_parse_is_retried_on_every_read_witness :
  run env (repeat Read 3) (unparsed "<OrderResponse>", answers [])
  = (repeat (Thrown (LibError "malformed XML")) 3,
     (unparsed "<OrderResponse>",
      mkSt (E := env) [] []
           ([] ++ repeat (text (unparsed "<OrderResponse>")) 3))).
Proof.
  refine (CacheEdgeFacts.failed_parse_is_retried_on_every_read env
            (unparsed "<OrderResponse>") (LibError "malformed XML") 3
            _ eq_refl eq_refl (answers [])).
  discriminate.
Defined.

Lemma order_getters_wait_for_toJSON_witness :
  Order_Status (set_text (order_xml "FAILED") (order_wrapper "RECEIVED"))
  = Done JNull /\
  Order_Id (set_text (order_xml "FAILED") (order_wrapper "RECEIVED")) = Done JNull /\
  exists r' st',
    toJSON env (set_text (order_xml "FAILED") (order_wrapper "RECEIVED"), answers [])
    = (Done (order_json "FAILED"), (r', st')) /\
    Order_Status r'
    = JS.path (order_json "FAILED") ["OrderResponse"; "OrderStatus"; "_text"] /\
    Order_Id r'
    = JS.path (order_json "FAILED") ["OrderResponse"; "Order"; "id"; "_text"].
Proof.
  refine (CacheEdgeFacts.order_getters_wait_for_toJSON env (order_wrapper "RECEIVED")
            (order_xml "FAILED") (order_json "FAILED") (answers [])
            _ eq_refl eq_refl).
  discriminate.
Defined.

Lemma disconnect_returns_the_parsed_response_witness :
  exists r st',
    disconnect env client (JStr "o-77") (JArr [JStr "9194464166"])
      (answers [http_ok disconnect_xml]) = (Done r, st') /\
    Disconnect_Status r
    = JS.path disconnect_json
        ["DisconnectTelephoneNumberOrderResponse"; "OrderStatus"; "_text"] /\
    toXML env (r, st') = (Done disconnect_xml, (r, st')).
Proof.
  refine (WrapperFacts.disconnect_returns_the_parsed_response env client
            (JStr "o-77") [JStr "9194464166"] (answers [http_ok disconnect_xml])
            (mkHttpResponse true "OK" disconnect_xml) [] disconnect_json
            (unparsed disconnect_xml) eq_refl eq_refl eq_refl _ eq_refl eq_refl
            eq_refl).
  discriminate.
Defined.

End EdgeWitnesses.
